(** * HLAS chatbot: queue pipeline, rate limiter and fallback manager

    A shallow embedding of

    - [agents/fallback_system.py]  ([FallbackManager]),
    - [utils/whatsapp_handler.py]  ([WhatsAppMessageHandler]),
    - [utils/whatsapp_utils.py]    ([send_whatsapp_message]),
    - [worker.py]                  (the body of [main_worker_loop]),

    as state-passing functions over one [World] record, with Python
    exceptions made explicit. *)

From Stdlib Require Import ZArith NArith Lia List Ascii String Floats.PrimFloat.
From stdpp Require Import gmap list.

Set Warnings "-register-all".
Local Open Scope Z_scope.

(* ===================================================================== *)
(** ** Python strings *)

(** A Python [str] is a sequence of Unicode code points; [len] counts
    code points and slicing cuts between them. *)
Abbreviation str := (list N).

(** Source files are UTF-8: a literal of the source is decoded to the code
    points the interpreter sees. *)
Fixpoint utf8_decode (bs : list N) : str :=
  match bs with
  | [] => []
  | b :: r =>
      if (b <? 128)%N then b :: utf8_decode r
      else if (b <? 224)%N then
        match r with
        | b1 :: r1 => ((b - 192) * 64 + (b1 - 128))%N :: utf8_decode r1
        | _ => []
        end
      else if (b <? 240)%N then
        match r with
        | b1 :: b2 :: r2 =>
            ((b - 224) * 4096 + (b1 - 128) * 64 + (b2 - 128))%N :: utf8_decode r2
        | _ => []
        end
      else
        match r with
        | b1 :: b2 :: b3 :: r3 =>
            ((b - 240) * 262144 + (b1 - 128) * 4096 + (b2 - 128) * 64 + (b3 - 128))%N
              :: utf8_decode r3
        | _ => []
        end
  end.

Definition pystr (s : string) : str :=
  utf8_decode (List.map N_of_ascii (list_ascii_of_string s)).

Definition chr_space : N := 32%N.
Definition chr_plus : N := 43%N.

Definition in_ranges (ranges : list (N * N)) (c : N) : bool :=
  existsb (fun r => (fst r <=? c)%N && (c <=? snd r)%N) ranges.

(** [Py_UNICODE_ISSPACE]: the characters [str.strip()] removes and the
    regular-expression class [\s] matches on [str] patterns. *)
Definition isspace : N -> bool :=
  in_ranges
    [ (0x9, 0xd); (0x1c, 0x20); (0x85, 0x85); (0xa0, 0xa0); (0x1680, 0x1680);
      (0x2000, 0x200a); (0x2028, 0x2029); (0x202f, 0x202f); (0x205f, 0x205f);
      (0x3000, 0x3000) ]%N.

(** [Py_UNICODE_ISDECIMAL]: the class [\d] on [str] patterns, which is the
    Unicode category Nd (CPython 3.11, Unicode 14.0) and not only [0-9]. *)
Definition isdecimal : N -> bool :=
  in_ranges
    [ (0x30, 0x39); (0x660, 0x669); (0x6f0, 0x6f9); (0x7c0, 0x7c9);
      (0x966, 0x96f); (0x9e6, 0x9ef); (0xa66, 0xa6f); (0xae6, 0xaef);
      (0xb66, 0xb6f); (0xbe6, 0xbef); (0xc66, 0xc6f); (0xce6, 0xcef);
      (0xd66, 0xd6f); (0xde6, 0xdef); (0xe50, 0xe59); (0xed0, 0xed9);
      (0xf20, 0xf29); (0x1040, 0x1049); (0x1090, 0x1099); (0x17e0, 0x17e9);
      (0x1810, 0x1819); (0x1946, 0x194f); (0x19d0, 0x19d9); (0x1a80, 0x1a89);
      (0x1a90, 0x1a99); (0x1b50, 0x1b59); (0x1bb0, 0x1bb9); (0x1c40, 0x1c49);
      (0x1c50, 0x1c59); (0xa620, 0xa629); (0xa8d0, 0xa8d9); (0xa900, 0xa909);
      (0xa9d0, 0xa9d9); (0xa9f0, 0xa9f9); (0xaa50, 0xaa59); (0xabf0, 0xabf9);
      (0xff10, 0xff19); (0x104a0, 0x104a9); (0x10d30, 0x10d39);
      (0x11066, 0x1106f); (0x110f0, 0x110f9); (0x11136, 0x1113f);
      (0x111d0, 0x111d9); (0x112f0, 0x112f9); (0x11450, 0x11459);
      (0x114d0, 0x114d9); (0x11650, 0x11659); (0x116c0, 0x116c9);
      (0x11730, 0x11739); (0x118e0, 0x118e9); (0x11950, 0x11959);
      (0x11c50, 0x11c59); (0x11d50, 0x11d59); (0x11da0, 0x11da9);
      (0x16a60, 0x16a69); (0x16ac0, 0x16ac9); (0x16b50, 0x16b59);
      (0x1d7ce, 0x1d7ff); (0x1e140, 0x1e149); (0x1e2f0, 0x1e2f9);
      (0x1e950, 0x1e959); (0x1fbf0, 0x1fbf9) ]%N.

(** [s.lstrip()], [s.rstrip()] and [s.strip()] without arguments. *)
Fixpoint lstrip (s : str) : str :=
  match s with
  | [] => []
  | c :: s' => if isspace c then lstrip s' else s
  end.

Fixpoint rstrip (s : str) : str :=
  match s with
  | [] => []
  | c :: s' =>
      match rstrip s' with
      | [] => if isspace c then [] else [c]
      | r => c :: r
      end
  end.

Definition strip (s : str) : str := rstrip (lstrip s).

(** [re.sub(r'\s+', ' ', s)]: the scanner walks the string; where a
    whitespace character starts a match the replacement is emitted, and the
    greedy [+] then swallows the rest of the run ([in_match]). *)
Fixpoint re_sub_spaces_from (in_match : bool) (s : str) : str :=
  match s with
  | [] => []
  | c :: s' =>
      if isspace c then
        if in_match then re_sub_spaces_from true s'
        else chr_space :: re_sub_spaces_from true s'
      else c :: re_sub_spaces_from false s'
  end.

Definition re_sub_spaces (s : str) : str := re_sub_spaces_from false s.

(** [re.sub(r'[^\d+]', '', s)]: every character outside the class
    "decimal digit or plus sign" is a one-character match and is deleted. *)
Definition phone_char (c : N) : bool := isdecimal c || (c =? chr_plus)%N.

Definition re_sub_non_phone (s : str) : str := List.filter phone_char s.

(** [needle in haystack] on two strings. *)
Fixpoint startswith (p s : str) : bool :=
  match p, s with
  | [], _ => true
  | a :: p', b :: s' => (a =? b)%N && startswith p' s'
  | _ :: _, [] => false
  end.

Fixpoint str_contains (needle hay : str) : bool :=
  startswith needle hay ||
  match hay with
  | [] => false
  | _ :: hay' => str_contains needle hay'
  end.

Definition str_eqb (a b : str) : bool := bool_decide (a = b).

(* ===================================================================== *)
(** ** Exceptions *)

Inductive exn : Type :=
  | KeyError | IndexError | TypeError | AttributeError
  | JSONDecodeError | RequestException | ConnectionError | OtherError.

Inductive outcome (A : Type) : Type :=
  | Return (a : A)
  | Raise (e : exn).
Arguments Return {A} a.
Arguments Raise {A} e.

Definition obind {A B} (c : outcome A) (k : A -> outcome B) : outcome B :=
  match c with
  | Return a => k a
  | Raise e => Raise e
  end.

Declare Scope py_scope.
Delimit Scope py_scope with py.
Notation "x <~ c ; k" := (obind c (fun x => k))
  (at level 100, c at next level, right associativity) : py_scope.

(* ===================================================================== *)
(** ** Values decoded from JSON *)

(** What [json.loads] produces.  A [dict] keeps its items in order; a key
    is looked up from the front. *)
Inductive value : Type :=
  | VNone
  | VBool (b : bool)
  | VInt (z : Z)
  | VFloat (f : float)
  | VStr (s : str)
  | VList (l : list value)
  | VDict (d : list (str * value)).

Definition empty_dict : value := VDict [].

Definition truthy (v : value) : bool :=
  match v with
  | VNone => false
  | VBool b => b
  | VInt z => negb (z =? 0)
  | VFloat f => negb (PrimFloat.eqb f PrimFloat.zero)
  | VStr s => negb (bool_decide (s = []))
  | VList l => match l with [] => false | _ => true end
  | VDict d => match d with [] => false | _ => true end
  end.

Fixpoint lookup_key (k : str) (d : list (str * value)) : option value :=
  match d with
  | [] => None
  | (k', v) :: d' => if str_eqb k k' then Some v else lookup_key k d'
  end.

(** [v.get(k, default)] *)
Definition py_get (v : value) (k : str) (default : value) : outcome value :=
  match v with
  | VDict d => Return (match lookup_key k d with Some x => x | None => default end)
  | _ => Raise AttributeError
  end.

(** [v[0]].  A decoded object has string keys only, so [d[0]] is a
    [KeyError]. *)
Definition py_item0 (v : value) : outcome value :=
  match v with
  | VList (x :: _) => Return x
  | VList [] => Raise IndexError
  | VStr (c :: _) => Return (VStr [c])
  | VStr [] => Raise IndexError
  | VDict _ => Raise KeyError
  | _ => Raise TypeError
  end.

(** [v['k']] *)
Definition py_item (v : value) (k : str) : outcome value :=
  match v with
  | VDict d => match lookup_key k d with Some x => Return x | None => Raise KeyError end
  | _ => Raise TypeError
  end.

(** ['k' in v] *)
Definition py_in (k : str) (v : value) : outcome bool :=
  match v with
  | VDict d => Return (match lookup_key k d with Some _ => true | None => false end)
  | VList l =>
      Return (existsb (fun x => match x with VStr s => str_eqb k s | _ => false end) l)
  | VStr s => Return (str_contains k s)
  | _ => Raise TypeError
  end.

Definition isinstance_list (v : value) : bool :=
  match v with VList _ => true | _ => false end.

Definition truthy_opt (o : option str) : bool :=
  match o with
  | Some s => negb (bool_decide (s = []))
  | None => false
  end.

(* ===================================================================== *)
(** ** The world the processes act on *)

Inductive level : Type := DEBUG | INFO | WARNING | ERROR.

(** A job as the producer builds it ([job_payload]).  The queue holds the
    records; their JSON text ([json.dumps] / [json.loads]) is not
    modelled. *)
Record Job : Type := mkJob {
  job_message : str;
  job_user_phone : str;
  job_session_id : str;
  job_metadata : value
}.

(** A session as the fallback manager reads it:
    [session["conversation_context"]["error_count"]]. *)
Record ConversationContext : Type := mkContext {
  error_count : Z;
  last_error : option str;
  last_error_time : option Z
}.

Record Session : Type := mkSession {
  conversation_context : ConversationContext
}.

(** How the gateway answers the next [requests.post]: it accepts the
    message, the request fails with a [RequestException] (with or without
    an HTTP response attached), or handling the reply fails otherwise. *)
Inductive PostOutcome : Type :=
  | Accepted
  | Failed (has_response : bool)
  | Garbled.

Record World : Type := mkWorld {
  (* os.environ *)
  META_ACCESS_TOKEN : option str;
  META_PHONE_NUMBER_ID : option str;
  (* datetime.now().timestamp(), in microseconds *)
  clock : Z;
  (* the draws random.choice will make next *)
  entropy : list nat;
  gateway : PostOutcome;
  (* app.session_manager *)
  store_up : bool;
  sessions : gmap str Session;
  (* WhatsAppMessageHandler.message_counts *)
  message_counts : gmap str (list Z);
  (* WhatsAppMessageHandler.redis_client and the Redis list behind it *)
  redis_client : bool;
  redis_up : bool;
  queue : list Job;
  (* requests sent to the gateway: (to, text.body) *)
  outbound : list (str * str);
  log : list (level * string)
}.

Definition set_entropy (e : list nat) (w : World) : World :=
  mkWorld (META_ACCESS_TOKEN w) (META_PHONE_NUMBER_ID w) (clock w) e (gateway w)
    (store_up w) (sessions w) (message_counts w) (redis_client w) (redis_up w)
    (queue w) (outbound w) (log w).

Definition set_clock (t : Z) (w : World) : World :=
  mkWorld (META_ACCESS_TOKEN w) (META_PHONE_NUMBER_ID w) t (entropy w) (gateway w)
    (store_up w) (sessions w) (message_counts w) (redis_client w) (redis_up w)
    (queue w) (outbound w) (log w).

Definition set_sessions (s : gmap str Session) (w : World) : World :=
  mkWorld (META_ACCESS_TOKEN w) (META_PHONE_NUMBER_ID w) (clock w) (entropy w) (gateway w)
    (store_up w) s (message_counts w) (redis_client w) (redis_up w)
    (queue w) (outbound w) (log w).

Definition set_message_counts (m : gmap str (list Z)) (w : World) : World :=
  mkWorld (META_ACCESS_TOKEN w) (META_PHONE_NUMBER_ID w) (clock w) (entropy w) (gateway w)
    (store_up w) (sessions w) m (redis_client w) (redis_up w)
    (queue w) (outbound w) (log w).

Definition set_queue (q : list Job) (w : World) : World :=
  mkWorld (META_ACCESS_TOKEN w) (META_PHONE_NUMBER_ID w) (clock w) (entropy w) (gateway w)
    (store_up w) (sessions w) (message_counts w) (redis_client w) (redis_up w)
    q (outbound w) (log w).

Definition set_outbound (o : list (str * str)) (w : World) : World :=
  mkWorld (META_ACCESS_TOKEN w) (META_PHONE_NUMBER_ID w) (clock w) (entropy w) (gateway w)
    (store_up w) (sessions w) (message_counts w) (redis_client w) (redis_up w)
    (queue w) o (log w).

Definition set_log (l : list (level * string)) (w : World) : World :=
  mkWorld (META_ACCESS_TOKEN w) (META_PHONE_NUMBER_ID w) (clock w) (entropy w) (gateway w)
    (store_up w) (sessions w) (message_counts w) (redis_client w) (redis_up w)
    (queue w) (outbound w) l.

(** A process that has just started: credentials set, nothing stored,
    nothing sent. *)
Definition fresh_world : World :=
  mkWorld (Some (pystr "token")) (Some (pystr "1000")) 0 [] Accepted
    true ∅ ∅ true true [] [] [].

(* ===================================================================== *)
(** ** Computations: state and exceptions *)

(** A statement runs in a world and either returns or raises; what it did
    to the world before raising stays done. *)
Definition M (A : Type) : Type := World -> outcome A * World.

Definition ret {A} (a : A) : M A := fun w => (Return a, w).

Definition raise {A} (e : exn) : M A := fun w => (Raise e, w).

Definition bind {A B} (c : M A) (k : A -> M B) : M B :=
  fun w =>
    match c w with
    | (Return a, w') => k a w'
    | (Raise e, w') => (Raise e, w')
    end.

Definition lift {A} (o : outcome A) : M A := fun w => (o, w).

Notation "x <- c ;; k" := (bind c (fun x => k))
  (at level 100, c at next level, right associativity) : py_scope.
Notation "c ;; k" := (bind c (fun _ => k))
  (at level 100, right associativity) : py_scope.

(** [try: body  except (classes): handler] *)
Definition try_except_on {A} (catches : exn -> bool) (body : M A) (handler : exn -> M A)
  : M A :=
  fun w =>
    match body w with
    | (Return a, w') => (Return a, w')
    | (Raise e, w') => if catches e then handler e w' else (Raise e, w')
    end.

(** [try: body  except Exception as e: handler] *)
Definition try_except {A} (body : M A) (handler : exn -> M A) : M A :=
  try_except_on (fun _ => true) body handler.

(** [logger.<level>(...)]; the record keeps the level and the message
    template, not the interpolated values. *)
Definition logger (lv : level) (msg : string) : M unit :=
  fun w => (Return tt, set_log (log w ++ [(lv, msg)]) w).

(** [random.choice(seq)]: [IndexError] on an empty sequence. *)
Definition random_choice (seq : list str) : M str :=
  fun w =>
    match seq with
    | [] => (Raise IndexError, w)
    | _ =>
        let r := List.hd 0%nat (entropy w) in
        (Return (List.nth (r mod length seq) seq []), set_entropy (List.tl (entropy w)) w)
    end.

(** [datetime.now().timestamp()] *)
Definition datetime_now_timestamp : M Z := fun w => (Return (clock w), w).

(* ===================================================================== *)
(** ** app.session_manager *)

(** Modelled from the spec: [app/session_manager.py] is not among the
    sources.  The spec gives the interface [get(session_id) ->
    SessionState] and [increment_error_count(session_id)], says a session
    is "created on first reference to a session_id" with an [error_count]
    that is an integer [>= 0], and names "session lookup failure" as an
    error the fallback manager must absorb: the store answers while
    [store_up] holds and raises otherwise. *)
Definition new_session : Session := mkSession (mkContext 0 None None).

(** Modelled from the spec: [get(session_id) -> SessionState], creating the
    session on first reference. *)
Definition get_session (session_id : str) : M Session :=
  fun w =>
    if store_up w then
      match sessions w !! session_id with
      | Some s => (Return s, w)
      | None => (Return new_session, set_sessions (<[session_id := new_session]> (sessions w)) w)
      end
    else (Raise ConnectionError, w).

(** Modelled from the spec: [increment_error_count(session_id)] adds one to
    the session's [error_count]. *)
Definition increment_error_count (session_id : str) : M unit :=
  (s <- get_session session_id ;;
   fun w =>
     let c := conversation_context s in
     let s' := mkSession (mkContext (error_count c + 1) (last_error c) (last_error_time c)) in
     (Return tt, set_sessions (<[session_id := s']> (sessions w)) w))%py.

(** The counter of a session as an observer sees it; a session that was
    never referenced counts no error. *)
Definition error_count_of (w : World) (session_id : str) : Z :=
  match sessions w !! session_id with
  | Some s => error_count (conversation_context s)
  | None => 0
  end.

(* ===================================================================== *)
(** ** agents/fallback_system.py *)

Module FallbackManager.

(** [self.fallback_responses] *)
Definition fallback_responses : list (str * list str) :=
  [ (pystr "general_error",
      [ pystr "Oops! Something went wrong on my end. ðŸ˜… Could you please try again?";
        pystr "I'm having a small technical hiccup. Please send your message again! ðŸ”§";
        pystr "Sorry about that! There was a brief issue. Could you resend your question? ðŸ’»" ]);
    (pystr "input_validation_error",
      [ pystr "I didn't quite catch that! ðŸ˜… Could you please rephrase your question?";
        pystr "Hmm, I'm not sure I understand. Could you tell me what you're looking for? ðŸ¤”";
        pystr "Sorry, I couldn't understand that message. How can I help you today? ðŸ’¬" ]);
    (pystr "agent_error",
      [ pystr "I'm having trouble processing that right now. ðŸ˜… Could you try rephrasing your question?";
        pystr "Let me try to help differently. What specific insurance information do you need? ðŸ¤";
        pystr "I want to make sure I give you the right help. Could you tell me more about what you're looking for? ðŸ“‹" ]);
    (pystr "timeout_error",
      [ pystr "Sorry for the delay! ðŸ• I'm still here to help. What can I do for you?";
        pystr "I'm back! ðŸ˜Š How can I assist you with your insurance needs?";
        pystr "Thanks for your patience! What insurance question can I help you with? ðŸŒŸ" ]);
    (pystr "too_many_errors",
      [ pystr "I'm having some technical difficulties today. ðŸ˜” For immediate assistance, please contact our support team at support@hlas.com.sg or call +65 6227 7888.";
        pystr "I apologize for the repeated issues. ðŸ™ Our human agents can help you right away at support@hlas.com.sg or +65 6227 7888.";
        pystr "Let me connect you with our support team for better assistance. ðŸ“ž Please contact support@hlas.com.sg or call +65 6227 7888." ]);
    (pystr "off_topic",
      [ pystr "I specialize in helping with insurance questions! ðŸ˜Š What can I help you with regarding Travel, Maid, or Car insurance?";
        pystr "I'm here to assist with your insurance needs. How can I help with Travel, Maid, or Car insurance today? ðŸ›¡ï¸";
        pystr "Let's talk insurance! I can help you with Travel, Maid, or Car insurance. What would you like to know? âœˆï¸ðŸ ðŸš—" ]);
    (pystr "product_not_available",
      [ pystr "I currently specialize in Travel, Maid, and Car insurance! ðŸŒŸ Which of these would be helpful for you?";
        pystr "Right now I can help with Travel, Maid, and Car insurance. ðŸ˜Š Are any of these what you're looking for?";
        pystr "I'm an expert in Travel, Maid, and Car insurance! âœˆï¸ðŸ ðŸš— Would you like to know more about one of these?" ]) ].

(** [self.escalation_triggers] *)
Definition high_error_count : Z := 5.
Definition repeated_failures : Z := 3.
Definition complex_queries : list str :=
  [ pystr "legal"; pystr "lawsuit"; pystr "complaint"; pystr "manager"; pystr "supervisor" ].

(** The list inside [get_escalation_response]. *)
Definition escalation_responses : list str :=
  [ pystr "I'd like to connect you with our specialist team for better assistance. ðŸ‘¥ Please contact support@hlas.com.sg or call +65 6227 7888.";
    pystr "Let me get you in touch with our expert team! ðŸŒŸ Please reach out to support@hlas.com.sg or call +65 6227 7888.";
    pystr "Our human specialists can provide you with personalized help. ðŸ˜Š Contact support@hlas.com.sg or call +65 6227 7888." ].

(** The reply of the [except] branch of [get_fallback_response]. *)
Definition last_resort_response : str :=
  pystr "I'm here to help with your insurance needs! ðŸ˜Š What can I assist you with today?".

(** [d.get(key, default)] on [fallback_responses] *)
Fixpoint responses_get (key : str) (d : list (str * list str)) (default : list str)
  : list str :=
  match d with
  | [] => default
  | (k, v) :: d' => if str_eqb key k then v else responses_get key d' default
  end.

(** [d[key]] on [fallback_responses] *)
Definition responses_item (key : str) (d : list (str * list str)) : M (list str) :=
  match List.find (fun kv => str_eqb key (fst kv)) d with
  | Some kv => ret (snd kv)
  | None => raise KeyError
  end.

Definition should_escalate (session_id error_type : str) : M bool :=
  try_except
    (session <- get_session session_id ;;
     let error_count := error_count (conversation_context session) in
     if high_error_count <=? error_count then
       logger WARNING "Escalating session {session_id} due to high error count: {error_count}" ;;
       ret true
     else if str_eqb error_type (pystr "agent_error") && (repeated_failures <=? error_count) then
       logger WARNING "Escalating session {session_id} due to repeated agent failures" ;;
       ret true
     else ret false)%py
    (fun e =>
       logger ERROR "Error in escalation check: {str(e)}" ;;
       ret false)%py.

Definition get_escalation_response : M str := random_choice escalation_responses.

Definition get_fallback_response (error_type : str) (session_id : option str) : M str :=
  try_except
    (escalate <- match session_id with
                 | Some sid =>
                     if truthy_opt session_id then should_escalate sid error_type
                     else ret false
                 | None => ret false
                 end ;;
     if escalate then get_escalation_response
     else
       general <- responses_item (pystr "general_error") fallback_responses ;;
       let responses := responses_get error_type fallback_responses general in
       response <- random_choice responses ;;
       logger INFO "Fallback response used: {error_type} for session {session_id}" ;;
       match session_id with
       | Some sid => if truthy_opt session_id then increment_error_count sid else ret tt
       | None => ret tt
       end ;;
       ret response)%py
    (fun e =>
       logger ERROR "Error in fallback system: {str(e)}" ;;
       ret last_resort_response)%py.

End FallbackManager.

(* ===================================================================== *)
(** ** utils/whatsapp_utils.py *)

Definition is_request_exception (e : exn) : bool :=
  match e with RequestException => true | _ => false end.

(** [requests.post(url, headers=..., json=payload, timeout=10)] followed by
    [response.raise_for_status()] and [response.json()]: the request goes
    out, and the gateway decides how it ends. *)
Definition requests_post (to body : str) : M unit :=
  fun w =>
    let w' := set_outbound (outbound w ++ [(to, body)]) w in
    match gateway w with
    | Accepted => (Return tt, w')
    | Failed _ => (Raise RequestException, w')
    | Garbled => (Raise OtherError, w')
    end.

Definition send_whatsapp_message (recipient_number message_body : str) : M unit :=
  (access_token <- (fun w => (Return (META_ACCESS_TOKEN w), w)) ;;
   phone_number_id <- (fun w => (Return (META_PHONE_NUMBER_ID w), w)) ;;
   if negb (truthy_opt phone_number_id) || negb (truthy_opt access_token) then
     logger ERROR
       "Environment variables META_PHONE_NUMBER_ID and/or META_ACCESS_TOKEN are not set."
   else
     try_except_on is_request_exception
       (requests_post recipient_number message_body ;;
        logger INFO "Message sent successfully to {recipient_number}. Response: {response.json()}")
       (fun e =>
          logger ERROR "Failed to send message to {recipient_number}: {e}" ;;
          g <- (fun w => (Return (gateway w), w)) ;;
          match g with
          | Failed true =>
              logger ERROR "Response status code: {e.response.status_code}" ;;
              logger ERROR "Response content: {e.response.text}"
          | _ => ret tt
          end))%py.

(* ===================================================================== *)
(** ** utils/whatsapp_handler.py *)

Record Response : Type := mkResponse { status_code : Z }.

Module WhatsAppMessageHandler.

(** Set in [__init__]. *)
Definition max_message_length : nat := 4096.
Definition rate_limit_window : Z := 60.
Definition rate_limit_max_messages : nat := 10.

(** Seconds on the microsecond clock. *)
Definition seconds (n : Z) : Z := n * 1000000.

Definition validate_and_clean_message (message : value) : M (option str) :=
  (if negb (truthy message) then ret None
   else
     match message with
     | VStr m =>
         let message := re_sub_spaces (strip m) in
         message <- (if (max_message_length <? length message)%nat then
                       logger WARNING "Message too long: {len(message)} characters" ;;
                       ret (take max_message_length message ++ pystr "...")
                     else ret message) ;;
         if (length message <? 1)%nat then ret None else ret (Some message)
     | _ => raise AttributeError
     end)%py.

Definition validate_phone_number (phone : value) : M (option str) :=
  (if negb (truthy phone) then ret None
   else
     match phone with
     | VStr p =>
         let clean_phone := re_sub_non_phone p in
         if (length clean_phone <? 8)%nat || (15 <? length clean_phone)%nat then
           logger WARNING "Invalid phone number format: {phone}" ;;
           ret None
         else ret (Some clean_phone)
     | _ => raise TypeError
     end)%py.

(** [data.get('entry', [{}])[0].get('changes', [{}])[0].get('value', {})] *)
Definition status_probe (data : value) : outcome value :=
  (entry <~ py_get data (pystr "entry") (VList [empty_dict]) ;
   entry0 <~ py_item0 entry ;
   changes <~ py_get entry0 (pystr "changes") (VList [empty_dict]) ;
   change0 <~ py_item0 changes ;
   py_get change0 (pystr "value") empty_dict)%py.

(** The body of the inner [try] of the status branch. *)
Definition read_status (value : value) : M unit :=
  (status_info <- lift (statuses <~ py_item value (pystr "statuses") ; py_item0 statuses) ;;
   status <- lift (py_get status_info (pystr "status") (VStr (pystr "unknown"))) ;;
   recipient_id <- lift (py_get status_info (pystr "recipient_id") (VStr (pystr "unknown"))) ;;
   logger INFO "Received '{status}' status update for {recipient_id}. Ignoring.")%py.

(** [d['entry'][0]['changes'][0]['value']['messages'][0]] *)
Definition standard_message (d : value) : outcome value :=
  (entry <~ py_item d (pystr "entry") ;
   entry0 <~ py_item0 entry ;
   changes <~ py_item entry0 (pystr "changes") ;
   change0 <~ py_item0 changes ;
   v <~ py_item change0 (pystr "value") ;
   messages <~ py_item v (pystr "messages") ;
   py_item0 messages)%py.

(** [d['entry']['changes']['value']['messages']] *)
Definition alternative_message (d : value) : outcome value :=
  (entry <~ py_item d (pystr "entry") ;
   changes <~ py_item entry (pystr "changes") ;
   v <~ py_item changes (pystr "value") ;
   py_item v (pystr "messages"))%py.

(** Standard format *)
Definition pattern_standard (d : value) : outcome (value * value) :=
  (m <~ standard_message d ;
   text <~ py_item m (pystr "text") ;
   body <~ py_item text (pystr "body") ;
   m' <~ standard_message d ;
   from <~ py_item m' (pystr "from") ;
   Return (body, from))%py.

(** Alternative format 1 *)
Definition pattern_alternative_1 (d : value) : outcome (value * value) :=
  (m <~ alternative_message d ;
   text <~ py_item m (pystr "text") ;
   body <~ py_item text (pystr "body") ;
   m' <~ alternative_message d ;
   from <~ py_item m' (pystr "from") ;
   Return (body, from))%py.

(** Alternative format 2 *)
Definition pattern_alternative_2 (d : value) : outcome (value * value) :=
  (body <~ py_item d (pystr "body") ;
   text <~ py_item body (pystr "text") ;
   from <~ py_item d (pystr "from") ;
   Return (text, from))%py.

Definition extraction_patterns : list (value -> outcome (value * value)) :=
  [ pattern_standard; pattern_alternative_1; pattern_alternative_2 ].

Definition is_lookup_error (e : exn) : bool :=
  match e with KeyError | IndexError | TypeError => true | _ => false end.

(** The [for pattern in extraction_patterns] loop; [current] is
    [(message, user_phone)] as assigned so far. *)
Fixpoint run_patterns (patterns : list (value -> outcome (value * value)))
    (data : value) (current : value * value) : outcome (value * value) :=
  match patterns with
  | [] => Return current
  | pattern :: rest =>
      match pattern data with
      | Return (message, user_phone) =>
          if truthy message && truthy user_phone then Return (message, user_phone)
          else run_patterns rest data (message, user_phone)
      | Raise e =>
          if is_lookup_error e then run_patterns rest data current else Raise e
      end
  end.

(** The [try] block under "Extract additional metadata"; [None] when a
    guard is false and [metadata] is left as it was. *)
Definition read_metadata (data : value) : outcome (option value) :=
  (has_entry <~ py_in (pystr "entry") data ;
   entry_is_list <~ (if has_entry : bool then
                       e <~ py_item data (pystr "entry") ; Return (isinstance_list e)
                     else Return false) ;
   if entry_is_list : bool then
     entries <~ py_item data (pystr "entry") ;
     entry <~ py_item0 entries ;
     has_changes <~ py_in (pystr "changes") entry ;
     changes_is_list <~ (if has_changes : bool then
                           c <~ py_item entry (pystr "changes") ; Return (isinstance_list c)
                         else Return false) ;
     if changes_is_list : bool then
       changes <~ py_item entry (pystr "changes") ;
       change <~ py_item0 changes ;
       has_value <~ py_in (pystr "value") change ;
       has_messages <~ (if has_value : bool then
                          v <~ py_item change (pystr "value") ; py_in (pystr "messages") v
                        else Return false) ;
       if has_messages : bool then
         v <~ py_item change (pystr "value") ;
         messages <~ py_item v (pystr "messages") ;
         msg_data <~ py_item0 messages ;
         message_id <~ py_get msg_data (pystr "id") VNone ;
         timestamp <~ py_get msg_data (pystr "timestamp") VNone ;
         type <~ py_get msg_data (pystr "type") (VStr (pystr "text")) ;
         v' <~ py_item change (pystr "value") ;
         contacts <~ py_get v' (pystr "contacts") (VList [empty_dict]) ;
         contact <~ py_item0 contacts ;
         profile <~ py_get contact (pystr "profile") empty_dict ;
         from_name <~ py_get profile (pystr "name") (VStr (pystr "Unknown")) ;
         Return (Some (VDict [ (pystr "message_id", message_id);
                               (pystr "timestamp", timestamp);
                               (pystr "type", type);
                               (pystr "from_name", from_name) ]))
       else Return None
     else Return None
   else Return None)%py.

Definition extract_message_data (data : value) : M (option str * option str * value) :=
  try_except
    (value <- lift (status_probe data) ;;
     is_status <- lift (py_in (pystr "statuses") value) ;;
     if is_status : bool then
       try_except_on
         (fun e => match e with IndexError | KeyError => true | _ => false end)
         (read_status value)
         (fun _ => logger INFO "Received a status update with unexpected format. Ignoring.") ;;
       ret (None, None, empty_dict)
     else
       found <- lift (run_patterns extraction_patterns data (VNone, VNone)) ;;
       let '(message, user_phone) := found in
       if negb (truthy message) || negb (truthy user_phone) then
         logger WARNING
           "Could not extract message data from webhook. Not a user message or status update: {data}" ;;
         ret (None, None, empty_dict)
       else
         metadata <- try_except
                       (m <- lift (read_metadata data) ;;
                        ret (match m with Some md => md | None => empty_dict end))
                       (fun e =>
                          logger WARNING "Could not extract metadata: {str(e)}" ;;
                          ret empty_dict) ;;
         message <- validate_and_clean_message message ;;
         user_phone <- validate_phone_number user_phone ;;
         ret (message, user_phone, metadata))%py
    (fun e =>
       logger ERROR "Error extracting message data: {str(e)}" ;;
       ret (None, None, empty_dict))%py.

(** [self.message_counts[user_phone]] *)
Definition counts_item (user_phone : str) : M (list Z) :=
  fun w =>
    match message_counts w !! user_phone with
    | Some l => (Return l, w)
    | None => (Raise KeyError, w)
    end.

(** [self.message_counts[user_phone] = l] *)
Definition counts_store (user_phone : str) (l : list Z) : M unit :=
  fun w => (Return tt, set_message_counts (<[user_phone := l]> (message_counts w)) w).

Definition check_rate_limit (user_phone : str) : M bool :=
  try_except
    (current_time <- datetime_now_timestamp ;;
     known <- (fun w => (Return (bool_decide (is_Some (message_counts w !! user_phone))), w)) ;;
     (if known : bool then ret tt else counts_store user_phone []) ;;
     let cutoff_time := current_time - seconds rate_limit_window in
     stamps <- counts_item user_phone ;;
     counts_store user_phone (List.filter (fun timestamp => cutoff_time <? timestamp) stamps) ;;
     stamps <- counts_item user_phone ;;
     if (rate_limit_max_messages <=? length stamps)%nat then
       logger WARNING "Rate limit exceeded for {user_phone}" ;;
       ret false
     else
       stamps <- counts_item user_phone ;;
       counts_store user_phone (stamps ++ [current_time]) ;;
       ret true)%py
    (fun e =>
       logger ERROR "Error in rate limiting: {str(e)}" ;;
       ret true)%py.

Definition rate_limit_msg : str :=
  pystr "You're sending messages too quickly! 😅 Please wait a moment and try again.".

Definition queue_trouble_msg : str :=
  pystr "I'm having trouble with my queue system. Please try again in a moment.".

Definition high_volume_msg : str :=
  pystr "I'm experiencing a high volume of requests. Please try again later.".

(** [self.redis_client.rpush(CHAT_QUEUE_NAME, job_json)] *)
Definition redis_rpush (job : Job) : M unit :=
  fun w =>
    if redis_up w then (Return tt, set_queue (queue w ++ [job]) w)
    else (Raise ConnectionError, w).

(** [request] is what [await request.json()] gives: the decoded body, or
    the exception raised on a body that is not JSON. *)
Definition process_webhook (request : outcome value) : M Response :=
  try_except
    (data <- lift request ;;
     logger DEBUG "Received webhook data: {data}" ;;
     extracted <- extract_message_data data ;;
     let '(message, user_phone, metadata) := extracted in
     match message, user_phone with
     | Some m, Some p =>
         if truthy_opt message && truthy_opt user_phone then
           allowed <- check_rate_limit p ;;
           if negb allowed then
             send_whatsapp_message p rate_limit_msg ;;
             ret (mkResponse 200)
           else
             let session_id := pystr "whatsapp_" ++ p in
             let job_payload := mkJob m p session_id metadata in
             has_client <- (fun w => (Return (redis_client w), w)) ;;
             (if has_client : bool then
                try_except
                  (redis_rpush job_payload ;;
                   logger INFO "Pushed job for {user_phone} to queue {CHAT_QUEUE_NAME}")
                  (fun e =>
                     logger ERROR "Failed to push job to Redis: {e}" ;;
                     send_whatsapp_message p queue_trouble_msg)
              else
                logger ERROR "Redis client not available. Cannot queue job." ;;
                send_whatsapp_message p high_volume_msg) ;;
             ret (mkResponse 200)
         else ret (mkResponse 200)
     | _, _ => ret (mkResponse 200)
     end)%py
    (fun e =>
       logger ERROR "Critical error in webhook processing: {str(e)}" ;;
       ret (mkResponse 200))%py.

End WhatsAppMessageHandler.

(* ===================================================================== *)
(** ** worker.py *)

Section Worker.

(** [agents.intelligent_orchestrator.orchestrate_chat], the conversation
    logic the worker calls: it may change the world, return a reply (or
    nothing) or raise. *)
Variable orchestrate_chat : str -> str -> M (option str).

Definition unexpected_error_msg : str :=
  pystr "I'm sorry, an unexpected error occurred while processing your request. Please try again.".

(** The statements of the loop body after the job has been popped and
    decoded. *)
Definition process_job (job_data : Job) : M unit :=
  try_except
    (let message := job_message job_data in
     let user_phone := job_user_phone job_data in
     let session_id := job_session_id job_data in
     logger INFO "Processing job for session: {session_id}" ;;
     response <- try_except
                   (response <- orchestrate_chat message session_id ;;
                    response <- (if negb (truthy_opt response) then
                                   FallbackManager.get_fallback_response
                                     (pystr "general_error") (Some session_id)
                                 else ret (default [] response)) ;;
                    let response := if (4096 <? length response)%nat
                                    then take 4090 response ++ pystr "..."
                                    else response in
                    logger INFO "Response generated for {session_id}. Sending..." ;;
                    ret response)
                   (fun e =>
                      logger ERROR "Error in orchestrate_chat for {session_id}: {e}" ;;
                      FallbackManager.get_fallback_response
                        (pystr "general_error") (Some session_id)) ;;
     send_whatsapp_message user_phone response)%py
    (fun e =>
       logger ERROR "An unexpected error occurred in worker loop: {e}" ;;
       try_except
         (send_whatsapp_message (job_user_phone job_data) unexpected_error_msg)
         (fun _ => ret tt))%py.

(** One turn of [while True]: [blpop] takes the job at the head of the
    queue; on an empty queue the worker stays blocked. *)
Definition worker_iteration : M unit :=
  fun w =>
    match queue w with
    | [] => (Return tt, w)
    | job :: rest =>
        (logger INFO "New job received from queue: {queue_name}" ;;
         process_job job)%py (set_queue rest w)
    end.

End Worker.

(* ===================================================================== *)
(** ** utils/whatsapp_handler.py: webhook verification *)

(** What [verify_webhook] reads of the request:
    [request.query_params.get("hub.mode")], [... "hub.verify_token"] and
    [... "hub.challenge"], each absent or a string. *)
Record VerificationQuery : Type := mkVerificationQuery {
  hub_mode : option str;
  hub_verify_token : option str;
  hub_challenge : option str
}.

(** [Response(content=..., status_code=...)] *)
Record ContentResponse : Type := mkContentResponse {
  content : str;
  content_status_code : Z
}.

(** [verify_token] is [self.verify_token], read from the environment when
    the handler is built. *)
Definition verify_webhook (verify_token : option str) (request : VerificationQuery)
  : M ContentResponse :=
  try_except
    (let mode := hub_mode request in
     let token := hub_verify_token request in
     let challenge := hub_challenge request in
     logger INFO "Webhook verification attempt - Mode: {mode}, Token present: {bool(token)}" ;;
     if negb (truthy_opt mode && truthy_opt token && truthy_opt challenge) then
       logger WARNING "Missing required webhook verification parameters" ;;
       ret (mkContentResponse (pystr "Missing parameters") 400)
     else if bool_decide (mode = Some (pystr "subscribe")) && bool_decide (token = verify_token)
     then
       logger INFO "Webhook verification successful" ;;
       ret (mkContentResponse (default [] challenge) 200)
     else
       logger WARNING "Webhook verification failed - Invalid mode or token" ;;
       ret (mkContentResponse (pystr "Verification failed") 403))%py
    (fun e =>
       logger ERROR "Error in webhook verification: {str(e)}" ;;
       ret (mkContentResponse (pystr "Internal error") 500))%py.

(* ===================================================================== *)
(** ** Runs *)

(** Successive calls [get_fallback_response(error_type, session_id)], each
    in the world the previous one left; the replies in order. *)
Fixpoint respond_each (calls : list (str * option str)) (w : World)
  : list (outcome str) * World :=
  match calls with
  | [] => ([], w)
  | (error_type, session_id) :: rest =>
      let '(r, w1) := FallbackManager.get_fallback_response error_type session_id w in
      let '(rs, w2) := respond_each rest w1 in
      (r :: rs, w2)
  end.

(** The escalation condition: the global threshold, or the lower one for
    [agent_error]. *)
Definition escalation_due (error_type : str) (n : Z) : Prop :=
  5 <= n \/ (error_type = pystr "agent_error" /\ 3 <= n).

(** The canned replies of a category ([general_error]'s for a category the
    table does not know). *)
Definition canned_replies (error_type : str) : list str :=
  FallbackManager.responses_get error_type FallbackManager.fallback_responses
    (FallbackManager.responses_get (pystr "general_error") FallbackManager.fallback_responses []).

(** The replies to the calls made for session [sid] are all hand-off
    messages. *)
Definition escalated_for (sid : str) (call : str * option str) (r : outcome str) : Prop :=
  snd call = Some sid -> exists resp, r = Return resp /\ In resp FallbackManager.escalation_responses.

(** A world in which session [sid] has counted [n] errors. *)
Definition world_with_errors (sid : str) (n : Z) : World :=
  set_sessions {[ sid := mkSession (mkContext n None None) ]} fresh_world.

(** *** Cleaning, in the words of the spec *)

(** The words of a string: its maximal runs of characters that are not
    whitespace ([word] is the run being read). *)
Fixpoint words_from (word : str) (s : str) : list str :=
  match s with
  | [] => match word with [] => [] | _ => [word] end
  | c :: s' =>
      if isspace c then
        match word with
        | [] => words_from [] s'
        | _ => word :: words_from [] s'
        end
      else words_from (word ++ [c]) s'
  end.

Definition words (s : str) : list str := words_from [] s.

(** The words put together again with one space between neighbours. *)
Fixpoint join_space (ws : list str) : str :=
  match ws with
  | [] => []
  | w :: rest =>
      match rest with
      | [] => w
      | _ => w ++ chr_space :: join_space rest
      end
  end.

(** "Collapses internal whitespace runs to single spaces, trims ends". *)
Definition collapsed (s : str) : str := join_space (words s).

(** A text with no whitespace at either end in which every whitespace
    character is one space standing between two characters that are not
    whitespace ([after_blank]: the character before was whitespace, or
    there was none). *)
Fixpoint single_spaced_from (after_blank : bool) (s : str) : bool :=
  match s with
  | [] => negb after_blank
  | c :: s' =>
      if isspace c then
        negb after_blank && (c =? chr_space)%N && single_spaced_from true s'
      else single_spaced_from false s'
  end.

Definition single_spaced (s : str) : bool :=
  match s with
  | [] => true
  | _ => single_spaced_from true s
  end.

(** A text over the maximum length as the code cuts it: its first 4096
    characters and then the marker, 4099 characters in all. *)
Definition truncated (s : str) : str :=
  if (4096 <? length s)%nat then take 4096 s ++ pystr "..." else s.

(** "Rejects (treats as absent) empty or whitespace-only content". *)
Definition cleaned_message (s : str) : option str :=
  if forallb isspace s then None else Some (truncated (collapsed s)).

(** An identifier with every character deleted that is neither a decimal
    digit nor a plus sign. *)
Definition digits_and_plus (s : str) : str :=
  List.filter (fun c => isdecimal c || (c =? chr_plus)%N) s.

(** The identifier as normalised, when its length is accepted. *)
Definition normalized_phone (s : str) : option str :=
  if (length (digits_and_plus s) <? 8)%nat || (15 <? length (digits_and_plus s))%nat
  then None else Some (digits_and_plus s).

(** *** Sample inputs *)

Definition sample_phone : str := pystr "+6591234567".

Definition sample_session : str := pystr "whatsapp_+6591234567".

Definition sample_job : Job := mkJob (pystr "hi") sample_phone sample_session empty_dict.

(** A world whose session store does not answer. *)
Definition store_down_world : World :=
  mkWorld (Some (pystr "token")) (Some (pystr "1000")) 0 [] Accepted
    false ∅ ∅ true true [] [] [].

(** A world whose queue cannot be reached. *)
Definition redis_down_world : World :=
  mkWorld (Some (pystr "token")) (Some (pystr "1000")) 0 [] Accepted
    true ∅ ∅ true false [] [] [].

(** A delivery-status update of the gateway. *)
Definition status_payload : value :=
  VDict [ (pystr "entry", VList [ VDict [ (pystr "changes", VList [ VDict [
    (pystr "value", VDict [ (pystr "statuses", VList [ VDict [
       (pystr "status", VStr (pystr "delivered"));
       (pystr "recipient_id", VStr (pystr "6591234567")) ] ]) ]) ] ]) ] ]) ].

(** An orchestrator that answers every message with 5000 letters. *)
Definition long_reply : str := List.repeat 97%N 5000.

(** A message of 4097 letters, one over the maximum length. *)
Definition overlong_message : str := List.repeat 97%N 4097.

Definition verbose_orchestrator : str -> str -> M (option str) :=
  fun _ _ => ret (Some long_reply).


(** *** The producer, in the words of the spec *)

(** A computation that does nothing but write to the log: its outcome and
    the records it writes are the same in every world. *)
Definition only_logs {A} (c : M A) : Prop :=
  exists o l, forall w, c w = (o, set_log (log w ++ l) w).

(** What a pattern yields on a payload: a message and a sender, both
    non-empty. *)
Definition yields (pattern : value -> outcome (value * value)) (data : value)
  : option (value * value) :=
  match pattern data with
  | Return (m, p) => if truthy m && truthy p then Some (m, p) else None
  | Raise _ => None
  end.

(** "Trying each until one yields both a non-empty message and a non-empty
    sender identifier". *)
Fixpoint first_yield (patterns : list (value -> outcome (value * value))) (data : value)
  : option (value * value) :=
  match patterns with
  | [] => None
  | pattern :: rest =>
      match yields pattern data with
      | Some r => Some r
      | None => first_yield rest data
      end
  end.

Definition first_match (data : value) : option (value * value) :=
  first_yield WhatsAppMessageHandler.extraction_patterns data.

(** The three shapes of payload. *)
Definition standard_payload (body from : value) : value :=
  VDict [ (pystr "entry", VList [ VDict [ (pystr "changes", VList [ VDict [
    (pystr "value", VDict [ (pystr "messages", VList [ VDict [
       (pystr "from", from); (pystr "text", VDict [ (pystr "body", body) ]) ] ]) ]) ] ]) ] ]) ].

Definition alternative_1_payload (body from : value) : value :=
  VDict [ (pystr "entry", VDict [ (pystr "changes", VDict [
    (pystr "value", VDict [ (pystr "messages", VDict [
       (pystr "from", from); (pystr "text", VDict [ (pystr "body", body) ]) ]) ]) ]) ]) ].

Definition alternative_2_payload (body from : value) : value :=
  VDict [ (pystr "body", VDict [ (pystr "text", body) ]); (pystr "from", from) ].

(** *** The rate limiter, in the words of the spec *)

(** The window of a sender: the timestamps recorded for it. *)
Definition stamps (w : World) (sender : str) : list Z :=
  default [] (message_counts w !! sender).

(** What a check keeps of a sender's window: the timestamps later than
    now minus 60 seconds ([timestamp > cutoff_time]).  A timestamp that is
    exactly 60 seconds old is dropped with the older ones. *)
Definition pruned (w : World) (sender : str) : list Z :=
  List.filter (fun ts => clock w - 60 * 1000000 <? ts) (stamps w sender).

(** Successive rate-limit checks, each made when the clock shows the given
    time, each in the world the previous one left; the verdicts in order. *)
Fixpoint check_each (events : list (Z * str)) (w : World) : list (outcome bool) * World :=
  match events with
  | [] => ([], w)
  | (t, sender) :: rest =>
      let '(r, w1) := WhatsAppMessageHandler.check_rate_limit sender (set_clock t w) in
      let '(rs, w2) := check_each rest w1 in
      (r :: rs, w2)
  end.

(** The times at which a message of [sender] was accepted. *)
Fixpoint accepted_at (sender : str) (events : list (Z * str)) (verdicts : list (outcome bool))
  : list Z :=
  match events, verdicts with
  | (t, s) :: es, Return true :: vs =>
      if str_eqb sender s then t :: accepted_at sender es vs else accepted_at sender es vs
  | _ :: es, _ :: vs => accepted_at sender es vs
  | _, _ => []
  end.

(** Time does not run backwards: every event is at or after the one
    before, the first at or after [t0]. *)
Fixpoint nondecreasing_from {A} (t0 : Z) (events : list (Z * A)) : Prop :=
  match events with
  | [] => True
  | (t, _) :: rest => t0 <= t /\ nondecreasing_from t rest
  end.

(** A rolling 60-second window that opens at [start]. *)
Definition in_window (start : Z) (t : Z) : bool :=
  (start <=? t) && (t <? start + 60 * 1000000).

(** A computation that, when it returns a response, returns status 200. *)
Definition acknowledges (c : M Response) : Prop :=
  forall w resp w', c w = (Return resp, w') -> status_code resp = 200.

(** Eleven messages of one sender, one second apart. *)
Definition sample_burst : list (Z * str) :=
  List.map (fun i => (i * 1000000, sample_phone)) [0; 1; 2; 3; 4; 5; 6; 7; 8; 9; 10].

(** A message in the standard shape, and what the status probe finds in
    it. *)
Definition sample_payload : value :=
  standard_payload (VStr (pystr "  hi   there ")) (VStr (pystr "+65 9123 4567")).

Definition sample_probe : value :=
  VDict [ (pystr "messages", VList [ VDict [
            (pystr "from", VStr (pystr "+65 9123 4567"));
            (pystr "text", VDict [ (pystr "body", VStr (pystr "  hi   there ")) ]) ] ]) ].

(** A message in the standard shape whose text is three blanks. *)
Definition blank_payload : value :=
  standard_payload (VStr (pystr "   ")) (VStr sample_phone).

(** The records the producer writes on its way. *)
Definition debug_record : level * string := (DEBUG, "Received webhook data: {data}"%string).

Definition no_match_warning : level * string :=
  (WARNING,
   "Could not extract message data from webhook. Not a user message or status update: {data}"%string).

(** An outcome that, when it is an exception, is one the pattern loop
    catches. *)
Definition lookup_errors_only {A} (o : outcome A) : Prop :=
  forall e, o = Raise e -> WhatsAppMessageHandler.is_lookup_error e = true.

(** *** What the producer lets through *)

(** A computation all of whose returned values satisfy [P]. *)
Definition returns_only {A} (P : A -> Prop) (c : M A) : Prop :=
  forall w a w', c w = (Return a, w') -> P a.

(** A message as it reaches the queue: not empty, at most 4096 characters
    and the marker, and with no whitespace other than plain spaces. *)
Definition good_message (m : str) : Prop :=
  m <> [] /\ (length m <= 4099)%nat
  /\ Forall (fun c => isspace c = true -> c = chr_space) m.

(** A sender as it reaches the queue: 8 to 15 characters, each a decimal
    digit or a plus sign. *)
Definition good_phone (p : str) : Prop :=
  (8 <= length p <= 15)%nat /\ Forall (fun c => isdecimal c = true \/ c = chr_plus) p.

Definition good_job (job : Job) : Prop :=
  good_message (job_message job)
  /\ good_phone (job_user_phone job)
  /\ job_session_id job = pystr "whatsapp_" ++ job_user_phone job.

(** The three notices the producer sends on its own. *)
Definition producer_notices : list str :=
  [ WhatsAppMessageHandler.rate_limit_msg;
    WhatsAppMessageHandler.queue_trouble_msg;
    WhatsAppMessageHandler.high_volume_msg ].

(** A status update that also carries a text message. *)
Definition status_with_message_payload : value :=
  VDict [ (pystr "entry", VList [ VDict [ (pystr "changes", VList [ VDict [
    (pystr "value", VDict [
       (pystr "statuses", VList [ VDict [ (pystr "status", VStr (pystr "read")) ] ]);
       (pystr "messages", VList [ VDict [
          (pystr "from", VStr sample_phone);
          (pystr "text", VDict [ (pystr "body", VStr (pystr "hello")) ]) ] ]) ]) ] ]) ] ]) ].

Definition status_with_message_probe : value :=
  VDict [ (pystr "statuses", VList [ VDict [ (pystr "status", VStr (pystr "read")) ] ]);
          (pystr "messages", VList [ VDict [
             (pystr "from", VStr sample_phone);
             (pystr "text", VDict [ (pystr "body", VStr (pystr "hello")) ]) ] ]) ].

(** The time of the last event of a run that started at [t0]. *)
Fixpoint last_time (t0 : Z) (events : list (Z * str)) : Z :=
  match events with
  | [] => t0
  | (t, _) :: rest => last_time t rest
  end.

(** The metadata read from [sample_payload]. *)
Definition sample_metadata : value :=
  VDict [ (pystr "message_id", VNone); (pystr "timestamp", VNone);
          (pystr "type", VStr (pystr "text"));
          (pystr "from_name", VStr (pystr "Unknown")) ].

(** *** Payloads whose values are not strings *)

(** [isinstance(v, str)] *)
Definition is_str (v : value) : bool :=
  match v with VStr _ => true | _ => false end.

(** The record the extraction writes when an exception ends it. *)
Definition extraction_error : level * string :=
  (ERROR, "Error extracting message data: {str(e)}"%string).

(** A payload in the standard shape whose text body is the number 5. *)
Definition numeric_body_payload : value :=
  standard_payload (VInt 5) (VStr sample_phone).

(** What the status probe finds in it. *)
Definition numeric_body_probe : value :=
  VDict [ (pystr "messages", VList [ VDict [
            (pystr "from", VStr sample_phone);
            (pystr "text", VDict [ (pystr "body", VInt 5) ]) ] ]) ].

(** *** Deliveries *)

(** Successive webhook deliveries to one handler, each made when the clock
    shows the given time, each in the world the previous one left; for
    every delivery, the jobs it added to the tail of the queue. *)
Fixpoint deliver_each (events : list (Z * outcome value)) (w : World)
  : list (list Job) * World :=
  match events with
  | [] => ([], w)
  | (t, request) :: rest =>
      let '(_, w1) := WhatsAppMessageHandler.process_webhook request (set_clock t w) in
      let '(added, w2) := deliver_each rest w1 in
      (drop (length (queue w)) (queue w1) :: added, w2)
  end.

(** The times at which a message of [sender] was accepted, that is, put
    on the queue: one entry for every job queued for the sender. *)
Fixpoint queued_at (sender : str) (events : list (Z * outcome value))
    (added : list (list Job)) : list Z :=
  match events, added with
  | (t, _) :: es, jobs :: js =>
      List.map (fun _ => t)
        (List.filter (fun job => str_eqb sender (job_user_phone job)) jobs)
      ++ queued_at sender es js
  | _, _ => []
  end.

(** Eleven deliveries of a message of one sender, one second apart. *)
Definition sample_deliveries : list (Z * outcome value) :=
  List.map (fun i => (i * 1000000, Return sample_payload)) [0; 1; 2; 3; 4; 5; 6; 7; 8; 9; 10].

(** The handler after the first ten of them, when the clock shows second
    60: the oldest timestamp of the sender's window is 60 seconds old to
    the microsecond. *)
Definition full_window_world : World :=
  set_clock (60 * 1000000) (snd (deliver_each (List.removelast sample_deliveries) fresh_world)).

(** The ten deliveries, and one more at second 60. *)
Definition edge_deliveries : list (Z * outcome value) :=
  List.removelast sample_deliveries ++ [(60 * 1000000, Return sample_payload)].

(** The ten deliveries, one at second 100, and one more after the clock
    was set back to second 10. *)
Definition set_back_deliveries : list (Z * outcome value) :=
  List.removelast sample_deliveries
  ++ [(100 * 1000000, Return sample_payload); (10 * 1000000, Return sample_payload)].

(** *** Orchestrators to run the worker with *)

(** An orchestrator that fails on every message. *)
Definition failing_orchestrator : str -> str -> M (option str) :=
  fun _ _ => raise OtherError.

(** An orchestrator that answers with a reply of exactly 4096
    characters. *)
Definition full_reply : str := List.repeat 97%N 4096.

Definition exact_orchestrator : str -> str -> M (option str) :=
  fun _ _ => ret (Some full_reply).

(* ===================================================================== *)
(** * Properties *)

Arguments pystr : simpl never.

Example pystr_ascii : pystr "+65 9" = [43; 54; 53; 32; 57]%N.
Proof. reflexivity. Qed.

Example pystr_emoji : pystr "a😅" = [97; 0x1F605]%N.
Proof. reflexivity. Qed.


(** ** The fallback manager *)

Section Fallback.
Import FallbackManager.

Lemma error_count_of_insert w sid s sid' :
  error_count_of (set_sessions (<[sid := s]> (sessions w)) w) sid'
  = if decide (sid = sid') then error_count (conversation_context s)
    else error_count_of w sid'.
Proof.
  unfold error_count_of; simpl. rewrite lookup_insert.
  destruct (decide (sid = sid')); reflexivity.
Qed.

Lemma get_session_run w sid :
  store_up w = true ->
  exists s w',
    get_session sid w = (Return s, w')
    /\ sessions w' !! sid = Some s
    /\ error_count (conversation_context s) = error_count_of w sid
    /\ store_up w' = true
    /\ (forall sid', error_count_of w' sid' = error_count_of w sid')
    /\ log w' = log w /\ entropy w' = entropy w.
Proof.
  intros Hup. unfold get_session. rewrite Hup.
  destruct (sessions w !! sid) as [s|] eqn:E.
  - exists s, w. unfold error_count_of. rewrite E. auto 10.
  - eexists _, _. split; [reflexivity|]. simpl.
    rewrite lookup_insert_eq. unfold error_count_of at 1. rewrite E.
    repeat split; auto.
    intros sid'. rewrite error_count_of_insert.
    destruct (decide (sid = sid')) as [<-|]; [|reflexivity].
    unfold error_count_of. rewrite E. reflexivity.
Qed.

Lemma get_session_down w sid :
  store_up w = false -> get_session sid w = (Raise ConnectionError, w).
Proof. intros H. unfold get_session. rewrite H. reflexivity. Qed.

Lemma should_escalate_run w sid error_type :
  store_up w = true ->
  exists b w',
    should_escalate sid error_type w = (Return b, w')
    /\ (b = true <-> escalation_due error_type (error_count_of w sid))
    /\ store_up w' = true
    /\ (forall sid', error_count_of w' sid' = error_count_of w sid')
    /\ entropy w' = entropy w.
Proof.
  intros Hup.
  destruct (get_session_run w sid Hup) as (s & w1 & Hrun & _ & Hcnt & Hup1 & Hfr & _ & Hent).
  unfold should_escalate, try_except, try_except_on, bind. rewrite Hrun, Hcnt.
  unfold high_error_count, repeated_failures, escalation_due.
  destruct (5 <=? error_count_of w sid) eqn:H5.
  - eexists _, _. split; [reflexivity|]. simpl.
    apply Z.leb_le in H5. repeat split; auto.
  - apply Z.leb_gt in H5. unfold str_eqb.
    destruct (bool_decide (error_type = pystr "agent_error")) eqn:Hag;
      [apply bool_decide_eq_true in Hag | apply bool_decide_eq_false in Hag];
      simpl.
    + destruct (3 <=? error_count_of w sid) eqn:H3.
      * eexists _, _. split; [reflexivity|]. simpl. apply Z.leb_le in H3.
        repeat split; auto.
      * eexists _, _. split; [reflexivity|]. apply Z.leb_gt in H3.
        repeat split; auto; try discriminate. intros [?|[_ ?]]; lia.
    + eexists _, _. split; [reflexivity|].
      repeat split; auto; try discriminate. intros [?|[? _]]; [lia|contradiction].
Qed.

Lemma random_choice_run seq w :
  seq <> [] ->
  exists r,
    random_choice seq w = (Return r, set_entropy (List.tl (entropy w)) w) /\ In r seq.
Proof.
  intros Hne. destruct seq as [|x seq']; [contradiction|].
  eexists. split; [reflexivity|].
  apply nth_In. apply Nat.mod_upper_bound. simpl. lia.
Qed.

Lemma increment_error_count_run w sid :
  store_up w = true ->
  exists w',
    increment_error_count sid w = (Return tt, w')
    /\ error_count_of w' sid = error_count_of w sid + 1
    /\ (forall sid', sid' <> sid -> error_count_of w' sid' = error_count_of w sid')
    /\ store_up w' = true.
Proof.
  intros Hup.
  destruct (get_session_run w sid Hup) as (s & w1 & Hrun & _ & Hcnt & Hup1 & Hfr & _).
  unfold increment_error_count, bind. rewrite Hrun.
  eexists. split; [reflexivity|]. rewrite error_count_of_insert. simpl.
  destruct (decide (sid = sid)) as [_|]; [|contradiction].
  repeat split; auto.
  - now rewrite Hcnt.
  - intros sid' Hne. rewrite error_count_of_insert.
    destruct (decide (sid = sid')); [congruence|apply Hfr].
Qed.

Lemma responses_get_cases key d default :
  responses_get key d default = default
  \/ In (responses_get key d default) (List.map snd d).
Proof.
  induction d as [|[k v] d IH]; simpl; [now left|].
  destruct (str_eqb key k); [right; now left|].
  destruct IH; [now left|right; now right].
Qed.

Lemma canned_replies_three error_type : length (canned_replies error_type) = 3%nat.
Proof.
  assert (Hall : Forall (fun l : list str => length l = 3%nat)
                   (List.map snd fallback_responses)).
  { unfold fallback_responses. simpl. repeat constructor. }
  rewrite Forall_forall in Hall.
  unfold canned_replies.
  destruct (responses_get_cases error_type fallback_responses
              (responses_get (pystr "general_error") fallback_responses []))
    as [-> | Hin].
  - reflexivity.
  - apply Hall. apply list_elem_of_In. exact Hin.
Qed.

Lemma canned_replies_in_table error_type r :
  In r (canned_replies error_type) ->
  In r (List.concat (List.map snd fallback_responses)).
Proof.
  intros Hr. apply in_concat.
  exists (canned_replies error_type). split; [|exact Hr].
  unfold canned_replies.
  destruct (responses_get_cases error_type fallback_responses
              (responses_get (pystr "general_error") fallback_responses []))
    as [-> | Hin]; [|exact Hin].
  vm_compute. now left.
Qed.

(** No canned reply of any category, and not the last-resort reply either,
    is one of the hand-off messages. *)
Lemma escalation_responses_apart :
  forallb (fun r => negb (bool_decide (In r escalation_responses)))
    (last_resort_response :: List.concat (List.map snd fallback_responses)) = true.
Proof. vm_compute. reflexivity. Qed.

Lemma canned_not_escalation error_type r :
  In r (canned_replies error_type) -> ~ In r escalation_responses.
Proof.
  intros Hc He. apply canned_replies_in_table in Hc.
  pose proof escalation_responses_apart as H.
  rewrite forallb_forall in H. specialize (H r (or_intror Hc)).
  apply negb_true_iff, bool_decide_eq_false in H. contradiction.
Qed.

Lemma responses_item_general w :
  responses_item (pystr "general_error") fallback_responses w
  = (Return (responses_get (pystr "general_error") fallback_responses []), w).
Proof. reflexivity. Qed.

(** One call with a session id, while the session store answers. *)
Lemma get_fallback_response_run error_type sid w :
  sid <> [] -> store_up w = true ->
  exists resp w',
    get_fallback_response error_type (Some sid) w = (Return resp, w')
    /\ store_up w' = true
    /\ (forall sid', sid' <> sid -> error_count_of w' sid' = error_count_of w sid')
    /\ ((escalation_due error_type (error_count_of w sid)
         /\ In resp escalation_responses
         /\ error_count_of w' sid = error_count_of w sid)
        \/ (~ escalation_due error_type (error_count_of w sid)
            /\ In resp (canned_replies error_type)
            /\ error_count_of w' sid = error_count_of w sid + 1)).
Proof.
  intros Hsid Hup.
  destruct (should_escalate_run w sid error_type Hup)
    as (b & w1 & Hrun & Hb & Hup1 & Hfr1 & _).
  unfold get_fallback_response, try_except, try_except_on, bind.
  assert (Ht : truthy_opt (Some sid) = true).
  { simpl. apply negb_true_iff, bool_decide_eq_false. exact Hsid. }
  rewrite Ht, Hrun.
  destruct b.
  - unfold get_escalation_response.
    destruct (random_choice_run escalation_responses w1) as (r & Hr & Hin);
      [discriminate|].
    rewrite Hr. exists r. eexists. split; [reflexivity|]. simpl.
    split; [exact Hup1|]. split; [intros; apply Hfr1|].
    left. split; [now apply Hb|]. split; [exact Hin|]. apply Hfr1.
  - rewrite responses_item_general. fold (canned_replies error_type).
    destruct (random_choice_run (canned_replies error_type) w1) as (r & Hr & Hin).
    { intros E. pose proof (canned_replies_three error_type) as H3.
      rewrite E in H3. discriminate. }
    rewrite Hr. unfold logger at 1.
    set (w2 := set_log _ _).
    assert (Hup2 : store_up w2 = true) by exact Hup1.
    destruct (increment_error_count_run w2 sid Hup2) as (w3 & Hinc & Hc3 & Hfr3 & Hup3).
    rewrite Hinc. unfold ret. exists r, w3. split; [reflexivity|].
    split; [exact Hup3|].
    split.
    { intros sid' Hne. rewrite (Hfr3 sid' Hne). apply (Hfr1 sid'). }
    right. split.
    { intros Hd. apply Hb in Hd. discriminate. }
    split; [exact Hin|]. rewrite Hc3. f_equal. apply (Hfr1 sid).
Qed.

(** The manager never lets an exception out. *)
Lemma get_fallback_response_total error_type session_id w :
  exists resp w', get_fallback_response error_type session_id w = (Return resp, w').
Proof.
  unfold get_fallback_response, try_except, try_except_on.
  match goal with |- context [match ?b w with _ => _ end] => destruct (b w) as [[r|e] w'] end.
  - eauto.
  - eexists _, _. reflexivity.
Qed.

(** A call without a usable session id (none, or the empty string) leaves
    the session store alone. *)
Lemma get_fallback_response_anonymous error_type session_id w :
  truthy_opt session_id = false ->
  exists resp w',
    get_fallback_response error_type session_id w = (Return resp, w')
    /\ store_up w' = store_up w /\ sessions w' = sessions w.
Proof.
  intros Hf.
  unfold get_fallback_response, try_except, try_except_on, bind.
  assert (He : (match session_id with
                | Some sid => if truthy_opt session_id then should_escalate sid error_type
                              else ret false
                | None => ret false
                end) w = (Return false, w)).
  { destruct session_id; [rewrite Hf|]; reflexivity. }
  rewrite He, responses_item_general. fold (canned_replies error_type).
  destruct (random_choice_run (canned_replies error_type) w) as (r & Hr & _).
  { intros E. pose proof (canned_replies_three error_type) as H3.
    rewrite E in H3. discriminate. }
  rewrite Hr. unfold logger at 1.
  assert (Hi : forall w0, (match session_id with
                | Some sid => if truthy_opt session_id then increment_error_count sid
                              else ret tt
                | None => ret tt
                end) w0 = (Return tt, w0)).
  { intros w0. destruct session_id; [rewrite Hf|]; reflexivity. }
  rewrite Hi. eexists _, _. split; [reflexivity|]. split; reflexivity.
Qed.

(** Whatever the call, the store stays up and the counters of the other
    sessions stay as they are. *)
Lemma get_fallback_response_frame error_type session_id sid w :
  store_up w = true -> session_id <> Some sid ->
  exists resp w',
    get_fallback_response error_type session_id w = (Return resp, w')
    /\ store_up w' = true /\ error_count_of w' sid = error_count_of w sid.
Proof.
  intros Hup Hne.
  destruct (truthy_opt session_id) eqn:Ht.
  - destruct session_id as [sid0|]; [|discriminate].
    assert (Hs0 : sid0 <> []).
    { simpl in Ht. apply negb_true_iff, bool_decide_eq_false in Ht. exact Ht. }
    destruct (get_fallback_response_run error_type sid0 w Hs0 Hup)
      as (resp & w' & Hrun & Hup' & Hfr & _).
    exists resp, w'. split; [exact Hrun|]. split; [exact Hup'|].
    apply Hfr. congruence.
  - destruct (get_fallback_response_anonymous error_type session_id w Ht)
      as (resp & w' & Hrun & Hup' & Hs).
    exists resp, w'. split; [exact Hrun|]. split; [congruence|].
    unfold error_count_of. now rewrite Hs.
Qed.

(** While the session store does not answer, nothing escalates: the check
    fails, the increment fails, and the last-resort reply goes out. *)
Example get_fallback_response_store_down :
  fst (get_fallback_response (pystr "general_error") (Some sample_session) store_down_world)
  = Return last_resort_response.
Proof. vm_compute. reflexivity. Qed.

(** ** C1 *)

(** C1. A call of [get_fallback_response] with an error category and a
    session id decides on escalation first: the reply is a human hand-off
    message exactly when the session's [error_count] is at least 5, or the
    category is [agent_error] and the count is at least 3.  An escalated
    call leaves the counter as it is; a call that is not escalated answers
    with a canned reply of the category and adds exactly one to the
    counter.  (The session id is a non-empty string and the session store
    answers.) *)
Theorem get_fallback_response_escalates_exactly (error_type sid : str) (w : World) :
  sid <> [] -> store_up w = true ->
  exists resp w',
    get_fallback_response error_type (Some sid) w = (Return resp, w')
    /\ (In resp escalation_responses
        <-> 5 <= error_count_of w sid
            \/ (error_type = pystr "agent_error" /\ 3 <= error_count_of w sid))
    /\ (In resp escalation_responses ->
        ~ In resp (canned_replies error_type)
        /\ error_count_of w' sid = error_count_of w sid)
    /\ (~ In resp escalation_responses ->
        In resp (canned_replies error_type)
        /\ error_count_of w' sid = error_count_of w sid + 1).
Proof.
  intros Hsid Hup.
  destruct (get_fallback_response_run error_type sid w Hsid Hup)
    as (resp & w' & Hrun & _ & _ & [(Hd & Hin & Hc) | (Hd & Hin & Hc)]).
  - exists resp, w'. split; [exact Hrun|]. split; [tauto|]. split.
    + intros _. split; [|exact Hc].
      intros Hcan. exact (canned_not_escalation _ _ Hcan Hin).
    + intros Hn. contradiction.
  - pose proof (canned_not_escalation _ _ Hin) as Hnot.
    exists resp, w'. split; [exact Hrun|]. split; [|split].
    + split; [intros He; contradiction | intros Hd'; contradiction].
    + intros He. contradiction.
    + intros _. split; assumption.
Qed.

Lemma get_fallback_response_escalates_exactly_witness :
  pystr "whatsapp_+6591234567" <> []
  /\ store_up fresh_world = true
  /\ exists resp w',
       get_fallback_response (pystr "agent_error")
         (Some (pystr "whatsapp_+6591234567")) fresh_world = (Return resp, w')
       /\ (In resp escalation_responses
           <-> 5 <= error_count_of fresh_world (pystr "whatsapp_+6591234567")
               \/ (pystr "agent_error" = pystr "agent_error"
                   /\ 3 <= error_count_of fresh_world (pystr "whatsapp_+6591234567")))
       /\ (In resp escalation_responses ->
           ~ In resp (canned_replies (pystr "agent_error"))
           /\ error_count_of w' (pystr "whatsapp_+6591234567")
              = error_count_of fresh_world (pystr "whatsapp_+6591234567"))
       /\ (~ In resp escalation_responses ->
           In resp (canned_replies (pystr "agent_error"))
           /\ error_count_of w' (pystr "whatsapp_+6591234567")
              = error_count_of fresh_world (pystr "whatsapp_+6591234567") + 1).
Proof.
  split; [vm_compute; discriminate|].
  split; [reflexivity|].
  apply (get_fallback_response_escalates_exactly (pystr "agent_error")
           (pystr "whatsapp_+6591234567") fresh_world).
  - vm_compute; discriminate.
  - reflexivity.
Defined.

(** ** C3 *)

(** C3, as the spec words it, fails: on a fresh session the third
    consecutive [agent_error] call is checked against a count of 2 and
    answers with a canned [agent_error] reply, not with the hand-off
    message. *)
Lemma third_agent_error_call_not_escalated :
  exists r1 r2 r3 w',
    respond_each
      (List.repeat (pystr "agent_error", Some (pystr "whatsapp_+6591234567")) 3)
      fresh_world
    = ([Return r1; Return r2; Return r3], w')
    /\ In r3 (canned_replies (pystr "agent_error"))
    /\ ~ In r3 escalation_responses.
Proof.
  eexists _, _, _, _. split; [vm_compute; reflexivity|].
  assert (Hin : In (List.nth 0 (canned_replies (pystr "agent_error")) [])
                  (canned_replies (pystr "agent_error"))).
  { apply nth_In. rewrite canned_replies_three. lia. }
  split; [exact Hin|].
  exact (canned_not_escalation _ _ Hin).
Qed.

(** C3 (amended). From a session whose [error_count] is 0, the first three
    consecutive [agent_error] calls each answer with a canned [agent_error]
    reply and bring the count to 3; the fourth consecutive call is the one
    that returns the hand-off message, and it leaves the count at 3. *)
Theorem fourth_agent_error_call_escalates (sid : str) (w : World) :
  sid <> [] -> store_up w = true -> error_count_of w sid = 0 ->
  exists r1 r2 r3 r4 w',
    respond_each (List.repeat (pystr "agent_error", Some sid) 4) w
    = ([Return r1; Return r2; Return r3; Return r4], w')
    /\ In r1 (canned_replies (pystr "agent_error"))
    /\ In r2 (canned_replies (pystr "agent_error"))
    /\ In r3 (canned_replies (pystr "agent_error"))
    /\ ~ In r3 escalation_responses
    /\ In r4 escalation_responses
    /\ error_count_of w' sid = 3.
Proof.
  intros Hsid Hup H0.
  destruct (get_fallback_response_run (pystr "agent_error") sid w Hsid Hup)
    as (r1 & w1 & Hrun1 & Hup1 & _ & [(Hd & _) | (_ & Hin1 & Hc1)]).
  { rewrite H0 in Hd. destruct Hd as [?|[_ ?]]; lia. }
  destruct (get_fallback_response_run (pystr "agent_error") sid w1 Hsid Hup1)
    as (r2 & w2 & Hrun2 & Hup2 & _ & [(Hd & _) | (_ & Hin2 & Hc2)]).
  { rewrite Hc1, H0 in Hd. destruct Hd as [?|[_ ?]]; lia. }
  destruct (get_fallback_response_run (pystr "agent_error") sid w2 Hsid Hup2)
    as (r3 & w3 & Hrun3 & Hup3 & _ & [(Hd & _) | (_ & Hin3 & Hc3)]).
  { rewrite Hc2, Hc1, H0 in Hd. destruct Hd as [?|[_ ?]]; lia. }
  destruct (get_fallback_response_run (pystr "agent_error") sid w3 Hsid Hup3)
    as (r4 & w4 & Hrun4 & Hup4 & _ & [(_ & Hin4 & Hc4) | (Hd & _)]).
  2:{ exfalso. apply Hd. right. split; [reflexivity|]. rewrite Hc3, Hc2, Hc1, H0. lia. }
  exists r1, r2, r3, r4, w4. simpl.
  rewrite Hrun1, Hrun2, Hrun3, Hrun4.
  split; [reflexivity|].
  repeat (split; [assumption|]).
  split; [exact (canned_not_escalation _ _ Hin3)|].
  split; [exact Hin4|].
  rewrite Hc4, Hc3, Hc2, Hc1, H0. reflexivity.
Qed.

Lemma fourth_agent_error_call_escalates_witness :
  pystr "whatsapp_+6591234567" <> []
  /\ store_up fresh_world = true
  /\ error_count_of fresh_world (pystr "whatsapp_+6591234567") = 0
  /\ exists r1 r2 r3 r4 w',
       respond_each
         (List.repeat (pystr "agent_error", Some (pystr "whatsapp_+6591234567")) 4)
         fresh_world
       = ([Return r1; Return r2; Return r3; Return r4], w')
       /\ In r1 (canned_replies (pystr "agent_error"))
       /\ In r2 (canned_replies (pystr "agent_error"))
       /\ In r3 (canned_replies (pystr "agent_error"))
       /\ ~ In r3 escalation_responses
       /\ In r4 escalation_responses
       /\ error_count_of w' (pystr "whatsapp_+6591234567") = 3.
Proof.
  split; [vm_compute; discriminate|].
  split; [reflexivity|].
  split; [reflexivity|].
  apply (fourth_agent_error_call_escalates (pystr "whatsapp_+6591234567") fresh_world).
  - vm_compute; discriminate.
  - reflexivity.
  - reflexivity.
Defined.

(** ** C10 *)

(** C10. Escalation is absorbing and does not use up the counter: once a
    session's [error_count] is at least 5 (and the session store answers),
    in any later run of calls, for any categories and with calls for
    other sessions in between, every call made with that session id
    returns a hand-off message, and the session's [error_count] is the
    same at the end. *)
Theorem escalation_is_absorbing (sid : str) (calls : list (str * option str)) (w : World) :
  sid <> [] -> store_up w = true -> 5 <= error_count_of w sid ->
  Forall2 (escalated_for sid) calls (fst (respond_each calls w))
  /\ error_count_of (snd (respond_each calls w)) sid = error_count_of w sid.
Proof.
  intros Hsid. revert w.
  induction calls as [|[error_type session_id] rest IH]; intros w Hup H5.
  - simpl. split; [constructor|reflexivity].
  - simpl.
    assert (Hstep : exists r w1,
               get_fallback_response error_type session_id w = (r, w1)
               /\ store_up w1 = true
               /\ error_count_of w1 sid = error_count_of w sid
               /\ escalated_for sid (error_type, session_id) r).
    { destruct (decide (session_id = Some sid)) as [->|Hne].
      - destruct (get_fallback_response_run error_type sid w Hsid Hup)
          as (resp & w1 & Hrun & Hup1 & _ & [(_ & Hin & Hc) | (Hd & _)]).
        + exists (Return resp), w1. repeat split; auto.
          intros _. exists resp. auto.
        + exfalso. apply Hd. left. exact H5.
      - destruct (get_fallback_response_frame error_type session_id sid w Hup Hne)
          as (resp & w1 & Hrun & Hup1 & Hc).
        exists (Return resp), w1. repeat split; auto.
        intros Heq. simpl in Heq. contradiction. }
    destruct Hstep as (r & w1 & Hrun & Hup1 & Hc1 & Hesc).
    rewrite Hrun.
    assert (H5' : 5 <= error_count_of w1 sid) by lia.
    destruct (IH w1 Hup1 H5') as [Hall Hcnt].
    destruct (respond_each rest w1) as [rs w2]. simpl in *.
    split; [constructor; assumption|]. lia.
Qed.

Lemma escalation_is_absorbing_witness :
  sample_session <> []
  /\ store_up (world_with_errors sample_session 5) = true
  /\ 5 <= error_count_of (world_with_errors sample_session 5) sample_session
  /\ Forall2 (escalated_for sample_session)
       [ (pystr "general_error", Some sample_session);
         (pystr "off_topic", Some (pystr "whatsapp_+6580000000"));
         (pystr "agent_error", Some sample_session) ]
       (fst (respond_each
               [ (pystr "general_error", Some sample_session);
                 (pystr "off_topic", Some (pystr "whatsapp_+6580000000"));
                 (pystr "agent_error", Some sample_session) ]
               (world_with_errors sample_session 5)))
  /\ error_count_of
       (snd (respond_each
               [ (pystr "general_error", Some sample_session);
                 (pystr "off_topic", Some (pystr "whatsapp_+6580000000"));
                 (pystr "agent_error", Some sample_session) ]
               (world_with_errors sample_session 5)))
       sample_session
     = error_count_of (world_with_errors sample_session 5) sample_session.
Proof.
  split; [vm_compute; discriminate|].
  split; [reflexivity|].
  split; [vm_compute; discriminate|].
  apply (escalation_is_absorbing sample_session
           [ (pystr "general_error", Some sample_session);
             (pystr "off_topic", Some (pystr "whatsapp_+6580000000"));
             (pystr "agent_error", Some sample_session) ]
           (world_with_errors sample_session 5)).
  - vm_compute; discriminate.
  - reflexivity.
  - vm_compute; discriminate.
Defined.

End Fallback.

(** ** Strings *)

Section Strings.

Lemma rstrip_nil_iff s : rstrip s = [] <-> forallb isspace s = true.
Proof.
  induction s as [|c s IH]; simpl; [tauto|].
  destruct (rstrip s) as [|x r] eqn:E.
  - destruct (isspace c); simpl.
    + tauto.
    + split; discriminate.
  - split; [discriminate|].
    intros H. apply andb_true_iff in H as [_ H]. apply IH in H. discriminate.
Qed.

Lemma rstrip_cons c s :
  rstrip (c :: s) = if forallb isspace s then (if isspace c then [] else [c])
                    else c :: rstrip s.
Proof.
  simpl. destruct (forallb isspace s) eqn:E.
  - apply rstrip_nil_iff in E. rewrite E. reflexivity.
  - destruct (rstrip s) eqn:R; [|reflexivity].
    apply rstrip_nil_iff in R. congruence.
Qed.

Lemma words_from_nonempty word s : word <> [] -> words_from word s <> [].
Proof.
  revert word. induction s as [|d s IH]; intros word Hne; simpl.
  - destruct word; [contradiction|discriminate].
  - destruct (isspace d).
    + destruct word; [contradiction|discriminate].
    + apply IH. destruct word; discriminate.
Qed.

Lemma words_from_nil_iff s : words_from [] s = [] <-> forallb isspace s = true.
Proof.
  induction s as [|c s IH]; simpl; [tauto|].
  destruct (isspace c); simpl; [exact IH|].
  split; [|discriminate].
  intros H. exfalso. revert H. apply words_from_nonempty. discriminate.
Qed.

Lemma join_space_cons w rest :
  join_space (w :: rest) = if bool_decide (rest = []) then w
                           else w ++ chr_space :: join_space rest.
Proof. destruct rest; reflexivity. Qed.

(** The scanner, on a string stripped on the right, rebuilds the words
    with single spaces: after a word in progress, and at the start of a
    match. *)
Lemma re_sub_spaces_words s :
  (forall word, word <> [] ->
     join_space (words_from word s) = word ++ re_sub_spaces_from false (rstrip s))
  /\ re_sub_spaces_from true (rstrip s) = join_space (words_from [] s).
Proof.
  induction s as [|c s [IHa IHb]].
  - split.
    + intros word Hne. simpl. destruct word; [contradiction|].
      now rewrite app_nil_r.
    + reflexivity.
  - rewrite rstrip_cons. split.
    + intros word Hne. simpl words_from.
      destruct (isspace c) eqn:Hc.
      * destruct word as [|x word']; [contradiction|].
        rewrite join_space_cons.
        destruct (forallb isspace s) eqn:Hs.
        -- apply words_from_nil_iff in Hs. rewrite Hs. simpl.
           now rewrite app_nil_r.
        -- assert (Hw : words_from [] s <> []).
           { intros E. apply words_from_nil_iff in E. congruence. }
           rewrite bool_decide_eq_false_2 by exact Hw.
           simpl re_sub_spaces_from. rewrite Hc. now rewrite IHb.
      * rewrite IHa by (destruct word; discriminate).
        rewrite <- app_assoc. simpl.
        destruct (forallb isspace s) eqn:Hs.
        -- apply rstrip_nil_iff in Hs. rewrite Hs. simpl. now rewrite Hc.
        -- simpl. now rewrite Hc.
    + simpl words_from. destruct (isspace c) eqn:Hc.
      * destruct (forallb isspace s) eqn:Hs.
        -- apply words_from_nil_iff in Hs. rewrite Hs. reflexivity.
        -- simpl. rewrite Hc. exact IHb.
      * rewrite (IHa [c]) by discriminate.
        destruct (forallb isspace s) eqn:Hs.
        -- apply rstrip_nil_iff in Hs. rewrite Hs. simpl. now rewrite Hc.
        -- simpl. now rewrite Hc.
Qed.

Lemma words_lstrip s : words (lstrip s) = words s.
Proof.
  unfold words. induction s as [|c s IH]; simpl; [reflexivity|].
  destruct (isspace c) eqn:Hc; [exact IH|].
  simpl. now rewrite Hc.
Qed.

Lemma lstrip_head s : match lstrip s with [] => True | c :: _ => isspace c = false end.
Proof.
  induction s as [|c s IH]; simpl; [exact I|].
  destruct (isspace c) eqn:Hc; [exact IH|exact Hc].
Qed.

(** [re.sub(r'\s+', ' ', s.strip())] is [' '.join(s.split())]. *)
Lemma re_sub_spaces_strip s : re_sub_spaces (strip s) = collapsed s.
Proof.
  unfold re_sub_spaces, strip, collapsed. rewrite <- words_lstrip.
  pose proof (lstrip_head s) as Hh.
  destruct (lstrip s) as [|c t]; [reflexivity|].
  destruct (re_sub_spaces_words t) as [Ha _].
  unfold words. simpl words_from. rewrite Hh. simpl app.
  rewrite (Ha [c]) by discriminate.
  rewrite rstrip_cons.
  destruct (forallb isspace t) eqn:Ht.
  - apply rstrip_nil_iff in Ht. rewrite Ht, Hh. simpl. now rewrite Hh.
  - simpl. now rewrite Hh.
Qed.

Lemma collapsed_nil_iff s : collapsed s = [] <-> forallb isspace s = true.
Proof.
  rewrite <- re_sub_spaces_strip. unfold re_sub_spaces, strip.
  split.
  - intros H. destruct (forallb isspace s) eqn:E; [reflexivity|exfalso].
    pose proof (lstrip_head s) as Hh.
    assert (Hl : lstrip s <> []).
    { intros El. clear Hh H. induction s as [|c s IH]; [discriminate|].
      simpl in *. destruct (isspace c); [auto|discriminate]. }
    destruct (lstrip s) as [|c t]; [contradiction|].
    rewrite rstrip_cons in H. rewrite Hh in H.
    destruct (forallb isspace t); simpl in H; rewrite Hh in H; discriminate.
  - intros H.
    assert (Hl : lstrip s = []).
    { induction s as [|c s IH]; [reflexivity|]. simpl in *.
      apply andb_true_iff in H as [Hc H]. rewrite Hc. auto. }
    rewrite Hl. reflexivity.
Qed.

Lemma rstrip_idempotent s : rstrip (rstrip s) = rstrip s.
Proof.
  induction s as [|c s IH]; [reflexivity|].
  rewrite rstrip_cons. destruct (forallb isspace s) eqn:Hs.
  - destruct (isspace c) eqn:Hc; [reflexivity|]. simpl. now rewrite Hc.
  - rewrite rstrip_cons, IH.
    destruct (forallb isspace (rstrip s)) eqn:Hr; [|reflexivity].
    apply rstrip_nil_iff in Hr. rewrite IH in Hr.
    apply rstrip_nil_iff in Hr. congruence.
Qed.

Lemma re_sub_spaces_single_spaced u :
  forall b, rstrip u = u -> (u = [] -> b = false) ->
    single_spaced_from b (re_sub_spaces_from b u) = true.
Proof.
  induction u as [|c u IH]; intros b Hr Hb.
  - simpl. now rewrite Hb.
  - rewrite rstrip_cons in Hr. simpl.
    destruct (isspace c) eqn:Hc.
    + destruct (forallb isspace u) eqn:Hu; [discriminate|].
      injection Hr as Hr.
      assert (Hne : u = [] -> true = false) by (intros ->; discriminate).
      destruct b; simpl.
      * apply IH; assumption.
      * apply IH; assumption.
    + simpl. rewrite Hc. apply IH; [|reflexivity].
      destruct (forallb isspace u) eqn:Hu.
      * injection Hr as <-. reflexivity.
      * now injection Hr.
Qed.

(** The collapsed text has single spaces only, and none at its ends. *)
Lemma collapsed_single_spaced s : single_spaced (collapsed s) = true.
Proof.
  rewrite <- re_sub_spaces_strip. unfold re_sub_spaces, strip.
  pose proof (lstrip_head s) as Hh.
  pose proof (rstrip_idempotent (lstrip s)) as Hi.
  destruct (lstrip s) as [|c t]; [reflexivity|].
  pose proof (re_sub_spaces_single_spaced (rstrip (c :: t)) true Hi) as H.
  rewrite rstrip_cons in *.
  destruct (forallb isspace t) eqn:Ht.
  - rewrite Hh in *. simpl. rewrite Hh. simpl. now rewrite Hh.
  - simpl in H. rewrite Hh in H. simpl. rewrite Hh.
    simpl. rewrite Hh.
    assert (Hne : c :: rstrip t = [] -> true = false) by discriminate.
    specialize (H Hne). simpl in H. rewrite Hh in H. exact H.
Qed.

End Strings.

(** ** Computations that only write to the log *)

Section Logging.

Lemma set_log_nil w : set_log (log w ++ []) w = w.
Proof. destruct w. unfold set_log. simpl. now rewrite app_nil_r. Qed.

Lemma set_log_app w l1 l2 :
  set_log (log (set_log (log w ++ l1) w) ++ l2) (set_log (log w ++ l1) w)
  = set_log (log w ++ (l1 ++ l2)) w.
Proof. destruct w. unfold set_log. simpl. now rewrite app_assoc. Qed.

Lemma only_logs_lift {A} (o : outcome A) : only_logs (lift o).
Proof. exists o, []. intros w. unfold lift. now rewrite set_log_nil. Qed.

Lemma only_logs_ret {A} (a : A) : only_logs (ret a).
Proof. apply (only_logs_lift (Return a)). Qed.

Lemma only_logs_raise {A} e : only_logs (@raise A e).
Proof. apply (only_logs_lift (Raise e)). Qed.

Lemma only_logs_logger lv msg : only_logs (logger lv msg).
Proof. exists (Return tt), [(lv, msg)]. reflexivity. Qed.

Lemma only_logs_bind {A B} (c : M A) (k : A -> M B) :
  only_logs c -> (forall a, only_logs (k a)) -> only_logs (bind c k).
Proof.
  intros (o & l1 & Hc) Hk. unfold bind.
  destruct o as [a|e].
  - destruct (Hk a) as (o2 & l2 & Hk2).
    exists o2, (l1 ++ l2). intros w. now rewrite Hc, Hk2, set_log_app.
  - exists (Raise e), l1. intros w. now rewrite Hc.
Qed.

Lemma only_logs_try {A} catches (body : M A) handler :
  only_logs body -> (forall e, only_logs (handler e)) ->
  only_logs (try_except_on catches body handler).
Proof.
  intros (o & l1 & Hb) Hh. unfold try_except_on.
  destruct o as [a|e].
  - exists (Return a), l1. intros w. now rewrite Hb.
  - destruct (catches e) eqn:Hc.
    + destruct (Hh e) as (o2 & l2 & Hh2).
      exists o2, (l1 ++ l2). intros w. now rewrite Hb, Hc, Hh2, set_log_app.
    + exists (Raise e), l1. intros w. now rewrite Hb, Hc.
Qed.

(** A [try] whose handler always returns, returns. *)
Lemma try_except_returns {A} (body : M A) handler w :
  (forall e w1, exists a w2, handler e w1 = (Return a, w2)) ->
  exists a w', try_except body handler w = (Return a, w').
Proof.
  intros Hh. unfold try_except, try_except_on.
  destruct (body w) as [[a|e] w1]; [eauto|apply Hh].
Qed.

End Logging.

(** ** Cleaning the message, normalising the sender *)

Section Validation.
Import WhatsAppMessageHandler.

Lemma truthy_VStr s : truthy (VStr s) = negb (bool_decide (s = [])).
Proof. reflexivity. Qed.

Lemma length_truncation_marker : length (pystr "...") = 3%nat.
Proof. reflexivity. Qed.

(** What [validate_and_clean_message] returns on a string, and that it
    does nothing but log. *)
Lemma validate_and_clean_message_run (m : str) :
  exists l, forall w,
    validate_and_clean_message (VStr m) w
    = (Return (cleaned_message m), set_log (log w ++ l) w).
Proof.
  unfold validate_and_clean_message, cleaned_message, truncated.
  rewrite truthy_VStr.
  destruct (bool_decide (m = [])) eqn:Hm; simpl negb; cbv iota.
  - apply bool_decide_eq_true in Hm. subst m. exists []. intros w. simpl forallb. cbv iota.
    unfold ret. now rewrite set_log_nil.
  - rewrite re_sub_spaces_strip. unfold max_message_length, bind.
    destruct (4096 <? length (collapsed m))%nat eqn:Hlong.
    + unfold logger, ret.
      assert (Hlen : (length (take 4096 (collapsed m) ++ pystr "...") <? 1)%nat = false).
      { apply Nat.ltb_ge. rewrite length_app, length_truncation_marker. lia. }
      rewrite Hlen.
      assert (Hws : forallb isspace m = false).
      { destruct (forallb isspace m) eqn:E; [|reflexivity].
        apply collapsed_nil_iff in E. rewrite E in Hlong. discriminate. }
      rewrite Hws. eexists. intros w. reflexivity.
    + unfold ret.
      destruct (length (collapsed m) <? 1)%nat eqn:Hshort.
      * assert (E : collapsed m = []).
        { apply Nat.ltb_lt in Hshort. destruct (collapsed m); [reflexivity|simpl in Hshort; lia]. }
        apply collapsed_nil_iff in E. rewrite E. exists []. intros w. now rewrite set_log_nil.
      * assert (Hws : forallb isspace m = false).
        { destruct (forallb isspace m) eqn:E; [|reflexivity].
          apply collapsed_nil_iff in E. rewrite E in Hshort. discriminate. }
        rewrite Hws. exists []. intros w. now rewrite set_log_nil.
Qed.

Lemma validate_phone_number_run (p : str) :
  exists l, forall w,
    validate_phone_number (VStr p) w
    = (Return (normalized_phone p), set_log (log w ++ l) w).
Proof.
  unfold validate_phone_number, normalized_phone. rewrite truthy_VStr.
  destruct (bool_decide (p = [])) eqn:Hp; simpl negb; cbv iota.
  - apply bool_decide_eq_true in Hp. subst p. exists []. intros w. simpl.
    unfold ret. now rewrite set_log_nil.
  - change (re_sub_non_phone p) with (digits_and_plus p).
    destruct ((length (digits_and_plus p) <? 8)%nat || (15 <? length (digits_and_plus p))%nat).
    + unfold bind, logger, ret. eexists. intros w. reflexivity.
    + unfold ret. exists []. intros w. now rewrite set_log_nil.
Qed.

Lemma only_logs_validate_message (v : value) : only_logs (validate_and_clean_message v).
Proof.
  destruct v as [ |b|z|f|m|l|d];
    try (unfold validate_and_clean_message;
         destruct (negb (truthy _)); [apply only_logs_ret|apply only_logs_raise]).
  destruct (validate_and_clean_message_run m) as (l & H).
  exists (Return (cleaned_message m)), l. exact H.
Qed.

Lemma only_logs_validate_phone (v : value) : only_logs (validate_phone_number v).
Proof.
  destruct v as [ |b|z|f|p|l|d];
    try (unfold validate_phone_number;
         destruct (negb (truthy _)); [apply only_logs_ret|apply only_logs_raise]).
  destruct (validate_phone_number_run p) as (l & H).
  exists (Return (normalized_phone p)), l. exact H.
Qed.

Lemma filter_filter_same {A} (f : A -> bool) l :
  List.filter f (List.filter f l) = List.filter f l.
Proof.
  induction l as [|x l IH]; simpl; [reflexivity|].
  destruct (f x) eqn:E; simpl; [rewrite E, IH|]; auto.
Qed.

Lemma normalized_phone_some p q :
  normalized_phone p = Some q ->
  q = digits_and_plus p /\ (8 <= length q <= 15)%nat.
Proof.
  unfold normalized_phone.
  destruct (length _ <? 8)%nat eqn:H8; simpl; [discriminate|].
  destruct (15 <? length _)%nat eqn:H15; [discriminate|].
  intros [= <-]. apply Nat.ltb_ge in H8, H15. auto.
Qed.

Lemma normalized_phone_idempotent p q :
  normalized_phone p = Some q -> normalized_phone q = Some q.
Proof.
  intros H. apply normalized_phone_some in H as [Hq [H8 H15]].
  unfold normalized_phone.
  assert (E : digits_and_plus q = q).
  { rewrite Hq. apply filter_filter_same. }
  rewrite E.
  assert (Hl : (length q <? 8)%nat = false) by (apply Nat.ltb_ge; lia).
  assert (Hh : (15 <? length q)%nat = false) by (apply Nat.ltb_ge; lia).
  now rewrite Hl, Hh.
Qed.

Example collapsed_example :
  collapsed [32; 104; 105; 9; 10; 0xa0; 116; 104; 101; 114; 101; 32; 32]%N
  = pystr "hi there".
Proof. reflexivity. Qed.

(** ** Cleaning a message *)

(** X9. On every string, [validate_and_clean_message] returns nothing
    ([None]) when the string is empty or holds whitespace only; otherwise
    it returns the words of the string joined by single spaces (whitespace
    runs collapsed, both ends trimmed), and when that text is longer than
    4096 characters, its first 4096 characters followed by the marker
    ["..."] (4099 characters in all).  The joined text has no whitespace at
    its ends, and its only whitespace is single spaces between words. *)
Theorem validate_and_clean_message_cleans (message : str) (w : World) :
  fst (validate_and_clean_message (VStr message) w)
  = Return (if forallb isspace message then None
            else if (4096 <? length (join_space (words message)))%nat
                 then Some (take 4096 (join_space (words message)) ++ pystr "...")
                 else Some (join_space (words message)))
  /\ re_sub_spaces (strip message) = join_space (words message)
  /\ single_spaced (join_space (words message)) = true
  /\ ((4096 < length (join_space (words message)))%nat ->
      length (take 4096 (join_space (words message)) ++ pystr "...") = 4099%nat).
Proof.
  split; [|split; [|split]].
  - destruct (validate_and_clean_message_run message) as (l & Hrun). rewrite Hrun.
    unfold cleaned_message, truncated, collapsed. simpl fst.
    destruct (forallb isspace message); [reflexivity|].
    destruct (4096 <? length (join_space (words message)))%nat; reflexivity.
  - apply re_sub_spaces_strip.
  - apply collapsed_single_spaced.
  - intros Hlong. rewrite length_app, length_take, length_truncation_marker. lia.
Qed.

(** ** C5 *)

(** C5. The claim holds but for the length: a message of 4097 letters,
    one more than the maximum of 4096 characters, comes back as its first
    4096 letters followed by the marker ["..."]: 4099 characters, three
    more than the maximum the message was to be cut to. *)
Theorem validate_and_clean_message_overlong (w : World) :
  fst (validate_and_clean_message (VStr overlong_message) w)
  = Return (Some (List.repeat 97%N 4096 ++ pystr "..."))
  /\ length (List.repeat 97%N 4096 ++ pystr "...") = 4099%nat
  /\ (max_message_length < length (List.repeat 97%N 4096 ++ pystr "..."))%nat.
Proof.
  destruct (validate_and_clean_message_run overlong_message) as (l & Hrun).
  rewrite Hrun. simpl fst.
  split; [|split].
  - vm_compute. reflexivity.
  - rewrite length_app, repeat_length, length_truncation_marker. reflexivity.
  - unfold max_message_length. rewrite length_app, repeat_length, length_truncation_marker. lia.
Qed.

(** ** C6 *)

(** C6, as the spec words it, fails: a plus sign is kept wherever it
    stands, not only in front.  The identifier [+65-9123+4567] is accepted
    as [+659123+4567], with a plus sign at position 7. *)
Lemma validate_phone_number_keeps_inner_plus :
  fst (validate_phone_number (VStr (pystr "+65-9123+4567")) fresh_world)
  = Return (Some (pystr "+659123+4567"))
  /\ List.nth 7 (pystr "+659123+4567") 0%N = chr_plus.
Proof. split; vm_compute; reflexivity. Qed.

(** C6 (amended). On every string, [validate_phone_number] deletes every
    character that is neither a decimal digit nor a plus sign (a plus sign
    is kept at any position), and returns invalid ([None]) exactly when
    what is left is shorter than 8 or longer than 15 characters; otherwise
    it returns what is left. *)
Theorem validate_phone_number_normalizes (phone : str) (w : World) :
  (fst (validate_phone_number (VStr phone) w) = Return None
   <-> (length (digits_and_plus phone) < 8 \/ 15 < length (digits_and_plus phone))%nat)
  /\ (fst (validate_phone_number (VStr phone) w) = Return None
      \/ fst (validate_phone_number (VStr phone) w) = Return (Some (digits_and_plus phone)))
  /\ Forall (fun c => isdecimal c = true \/ c = chr_plus) (digits_and_plus phone)
  /\ Forall (fun c => isdecimal c = true \/ c = chr_plus -> In c (digits_and_plus phone))
       phone.
Proof.
  destruct (validate_phone_number_run phone) as (l & Hrun). rewrite Hrun. simpl fst.
  unfold normalized_phone.
  split; [|split; [|split]].
  - destruct (length (digits_and_plus phone) <? 8)%nat eqn:H8;
      [apply Nat.ltb_lt in H8|apply Nat.ltb_ge in H8];
      (destruct (15 <? length (digits_and_plus phone))%nat eqn:H15;
         [apply Nat.ltb_lt in H15|apply Nat.ltb_ge in H15]); simpl orb; cbv iota;
      (split; [try discriminate; intros _; lia | try reflexivity; lia]).
  - destruct ((length (digits_and_plus phone) <? 8)%nat
              || (15 <? length (digits_and_plus phone))%nat); [now left|now right].
  - apply Forall_forall. intros c Hc. apply list_elem_of_In in Hc.
    apply filter_In in Hc as [_ Hc].
    apply orb_true_iff in Hc as [Hc|Hc]; [now left|right; now apply N.eqb_eq].
  - apply Forall_forall. intros c Hc Hk. apply list_elem_of_In in Hc.
    apply filter_In. split; [exact Hc|].
    apply orb_true_iff. destruct Hk as [Hk| ->]; [now left|right; apply N.eqb_refl].
Qed.

(** ** C7 *)

(** C7. Normalising the sender identifier is idempotent: an identifier that
    [validate_phone_number] returns is returned unchanged when it is
    normalised again. *)
Theorem validate_phone_number_idempotent (phone normalized : str) (w w' : World) :
  fst (validate_phone_number (VStr phone) w) = Return (Some normalized) ->
  fst (validate_phone_number (VStr normalized) w') = Return (Some normalized).
Proof.
  destruct (validate_phone_number_run phone) as (l & Hrun). rewrite Hrun.
  destruct (validate_phone_number_run normalized) as (l' & Hrun'). rewrite Hrun'.
  simpl. intros [= H]. now rewrite (normalized_phone_idempotent _ _ H).
Qed.

Lemma validate_phone_number_idempotent_witness :
  fst (validate_phone_number (VStr (pystr "+65 9123 4567")) fresh_world)
  = Return (Some (pystr "+6591234567"))
  /\ fst (validate_phone_number (VStr (pystr "+6591234567")) fresh_world)
     = Return (Some (pystr "+6591234567")).
Proof.
  split; [vm_compute; reflexivity|].
  apply (validate_phone_number_idempotent (pystr "+65 9123 4567") (pystr "+6591234567")
           fresh_world fresh_world).
  vm_compute; reflexivity.
Defined.

End Validation.

(** ** Sending, and the worker *)

Section WorkerProperties.

Lemma truthy_opt_long (r : str) : (4096 < length r)%nat -> truthy_opt (Some r) = true.
Proof.
  intros H. simpl. apply negb_true_iff, bool_decide_eq_false.
  intros ->. simpl in H. lia.
Qed.

Lemma send_whatsapp_message_outbound to body w :
  truthy_opt (META_ACCESS_TOKEN w) = true ->
  truthy_opt (META_PHONE_NUMBER_ID w) = true ->
  exists o w',
    send_whatsapp_message to body w = (o, w')
    /\ outbound w' = outbound w ++ [(to, body)]
    /\ META_ACCESS_TOKEN w' = META_ACCESS_TOKEN w
    /\ META_PHONE_NUMBER_ID w' = META_PHONE_NUMBER_ID w
    /\ gateway w' = gateway w
    /\ (o = Return tt \/ (o = Raise OtherError /\ gateway w = Garbled)).
Proof.
  intros Ha Hp. unfold send_whatsapp_message, bind. rewrite Hp, Ha.
  change (negb true || negb true) with false. cbv iota.
  unfold try_except_on, bind, requests_post.
  destruct (gateway w) as [|b|] eqn:Hg.
  - eexists _, _. split; [reflexivity|]. simpl. rewrite Hg. auto 10.
  - simpl. rewrite Hg. destruct b; eexists _, _; (split; [reflexivity|]); simpl; rewrite Hg; auto 10.
  - eexists _, _. split; [reflexivity|]. simpl. rewrite Hg. auto 10.
Qed.

Lemma length_truncated_response (r : str) :
  (4096 < length r)%nat -> length (take 4090 r ++ pystr "...") = 4093%nat.
Proof. intros H. rewrite length_app, length_take, length_truncation_marker. lia. Qed.

(** ** C8 *)

(** C8. In the worker, a reply of the orchestrator that is longer than
    4096 characters is cut before it is sent: what goes out to the sender
    of the job is the first 4090 characters followed by the three
    characters ["..."], 4093 characters in all (so a reply of 5000
    characters goes out as exactly 4093).  (The gateway credentials are
    set, so that a message is sent at all.) *)
Theorem worker_truncates_long_response
    (orchestrate_chat : str -> str -> M (option str))
    (job : Job) (w w1 : World) (response : str) :
  orchestrate_chat (job_message job) (job_session_id job)
    (snd (logger INFO "Processing job for session: {session_id}" w))
  = (Return (Some response), w1) ->
  (4096 < length response)%nat ->
  truthy_opt (META_ACCESS_TOKEN w1) = true ->
  truthy_opt (META_PHONE_NUMBER_ID w1) = true ->
  (exists rest,
     outbound (snd (process_job orchestrate_chat job w))
     = outbound w1 ++ (job_user_phone job, take 4090 response ++ pystr "...") :: rest)
  /\ length (take 4090 response ++ pystr "...") = 4093%nat
  /\ take 4090 (take 4090 response ++ pystr "...") = take 4090 response
  /\ drop 4090 (take 4090 response ++ pystr "...") = pystr "...".
Proof.
  intros Horch Hlong Ha Hp.
  split.
  2:{ split; [now apply length_truncated_response|].
      assert (Hl : length (take 4090 response) = 4090%nat) by (rewrite length_take; lia).
      split.
      - rewrite take_app_le by lia. rewrite take_ge by lia. reflexivity.
      - rewrite drop_app_length'; [reflexivity|symmetry; exact Hl]. }
  cbv [logger snd] in Horch.
  unfold process_job, try_except, try_except_on, bind.
  unfold logger at 1. rewrite Horch.
  rewrite (truthy_opt_long _ Hlong). change (negb true) with false. cbv iota.
  unfold ret at 1. cbv zeta.
  assert (Hlt : (4096 <? length (default [] (Some response)))%nat = true).
  { apply Nat.ltb_lt. exact Hlong. }
  rewrite Hlt. unfold logger at 1. unfold ret at 1.
  set (w2 := set_log _ w1).
  destruct (send_whatsapp_message_outbound (job_user_phone job)
              (take 4090 (default [] (Some response)) ++ pystr "...") w2 Ha Hp)
    as (o & w3 & Hsend & Hout & Ha3 & Hp3 & Hg3 & [-> | [-> Hg]]).
  - rewrite Hsend. exists []. exact Hout.
  - rewrite Hsend. cbv iota. unfold logger at 1.
    set (w4 := set_log _ w3).
    destruct (send_whatsapp_message_outbound (job_user_phone job) unexpected_error_msg w4)
      as (o' & w5 & Hsend' & Hout' & _);
      [change (truthy_opt (META_ACCESS_TOKEN w3) = true); rewrite Ha3; exact Ha
      |change (truthy_opt (META_PHONE_NUMBER_ID w3) = true); rewrite Hp3; exact Hp|].
    rewrite Hsend'. exists [(job_user_phone job, unexpected_error_msg)].
    destruct o'; simpl snd; rewrite Hout'; unfold w4; simpl outbound; rewrite Hout;
      rewrite <- app_assoc; reflexivity.
Qed.
Lemma worker_truncates_long_response_witness :
  verbose_orchestrator (job_message sample_job) (job_session_id sample_job)
    (snd (logger INFO "Processing job for session: {session_id}" fresh_world))
  = (Return (Some long_reply),
     snd (logger INFO "Processing job for session: {session_id}" fresh_world))
  /\ (4096 < length long_reply)%nat
  /\ truthy_opt (META_ACCESS_TOKEN fresh_world) = true
  /\ truthy_opt (META_PHONE_NUMBER_ID fresh_world) = true
  /\ (exists rest,
        outbound (snd (process_job verbose_orchestrator sample_job fresh_world))
        = outbound fresh_world
          ++ (job_user_phone sample_job, take 4090 long_reply ++ pystr "...") :: rest)
  /\ length (take 4090 long_reply ++ pystr "...") = 4093%nat
  /\ take 4090 (take 4090 long_reply ++ pystr "...") = take 4090 long_reply
  /\ drop 4090 (take 4090 long_reply ++ pystr "...") = pystr "...".
Proof.
  split; [reflexivity|].
  split; [apply Nat.ltb_lt; vm_compute; reflexivity|].
  split; [reflexivity|].
  split; [reflexivity|].
  apply (worker_truncates_long_response verbose_orchestrator sample_job fresh_world
           (snd (logger INFO "Processing job for session: {session_id}" fresh_world))
           long_reply).
  - reflexivity.
  - apply Nat.ltb_lt; vm_compute; reflexivity.
  - reflexivity.
  - reflexivity.
Defined.

End WorkerProperties.


(** ** Reading the payload *)

Section Extraction.
Import WhatsAppMessageHandler.

Lemma only_logs_read_status v : only_logs (read_status v).
Proof.
  unfold read_status.
  repeat (apply only_logs_bind; [apply only_logs_lift|intros ?]).
  apply only_logs_logger.
Qed.

Lemma only_logs_extract data : only_logs (extract_message_data data).
Proof.
  unfold extract_message_data, try_except.
  apply only_logs_try.
  - apply only_logs_bind; [apply only_logs_lift|intros probe].
    apply only_logs_bind; [apply only_logs_lift|intros [|]].
    + apply only_logs_bind; [|intros _; apply only_logs_ret].
      apply only_logs_try; [apply only_logs_read_status|].
      intros _. apply only_logs_logger.
    + apply only_logs_bind; [apply only_logs_lift|intros [message user_phone]].
      destruct (negb (truthy message) || negb (truthy user_phone)).
      * apply only_logs_bind; [apply only_logs_logger|intros _; apply only_logs_ret].
      * apply only_logs_bind.
        { apply only_logs_try.
          - apply only_logs_bind; [apply only_logs_lift|intros ?; apply only_logs_ret].
          - intros e. apply only_logs_bind; [apply only_logs_logger|intros _; apply only_logs_ret]. }
        intros metadata.
        apply only_logs_bind; [apply only_logs_validate_message|intros m].
        apply only_logs_bind; [apply only_logs_validate_phone|intros p].
        apply only_logs_ret.
  - intros e. apply only_logs_bind; [apply only_logs_logger|intros _; apply only_logs_ret].
Qed.

(** [extract_message_data] never raises, and all it does is log. *)
Lemma extract_message_data_run data :
  exists x l, forall w,
    extract_message_data data w = (Return x, set_log (log w ++ l) w).
Proof.
  destruct (only_logs_extract data) as (o & l & H).
  destruct o as [x|e].
  - exists x, l. exact H.
  - exfalso.
    pose proof (H fresh_world) as Hw.
    unfold extract_message_data in Hw.
    match type of Hw with
    | try_except ?b ?h ?w = _ =>
        destruct (try_except_returns b h w) as (a & w' & Ha)
    end.
    { intros e0 w1. eexists _, _. reflexivity. }
    rewrite Ha in Hw. discriminate.
Qed.

(** *** The patterns *)

Lemma lookup_errors_only_return {A} (a : A) : lookup_errors_only (Return a).
Proof. intros e H. discriminate. Qed.

Lemma lookup_errors_only_bind {A B} (c : outcome A) (k : A -> outcome B) :
  lookup_errors_only c -> (forall a, lookup_errors_only (k a)) ->
  lookup_errors_only (obind c k).
Proof.
  intros Hc Hk e. destruct c as [a|e0]; simpl.
  - apply Hk.
  - intros [= <-]. now apply Hc.
Qed.

Lemma lookup_errors_only_item v k : lookup_errors_only (py_item v k).
Proof.
  intros e. destruct v; simpl; try (intros [= <-]; reflexivity).
  destruct (lookup_key k d); [discriminate|intros [= <-]; reflexivity].
Qed.

Lemma lookup_errors_only_item0 v : lookup_errors_only (py_item0 v).
Proof.
  intros e. destruct v as [ | | | |[|c s]|[|x l]|d]; simpl;
    try discriminate; intros [= <-]; reflexivity.
Qed.

Ltac lookup_chain :=
  repeat first
    [ apply lookup_errors_only_return
    | apply lookup_errors_only_item
    | apply lookup_errors_only_item0
    | apply lookup_errors_only_bind; [|intros ?] ].

Lemma patterns_raise_lookup_errors data :
  Forall (fun pattern => lookup_errors_only (pattern data)) extraction_patterns.
Proof.
  repeat constructor.
  - unfold pattern_standard, standard_message. lookup_chain.
  - unfold pattern_alternative_1, alternative_message. lookup_chain.
  - unfold pattern_alternative_2. lookup_chain.
Qed.

(** The loop ends on the pair of the first pattern that yields one; when
    none does, on a pair that is not of two non-empty values. *)
Lemma run_patterns_first patterns data :
  Forall (fun pattern => lookup_errors_only (pattern data)) patterns ->
  forall current,
    truthy (fst current) && truthy (snd current) = false ->
    match first_yield patterns data with
    | Some r => run_patterns patterns data current = Return r
    | None => exists r, run_patterns patterns data current = Return r
                        /\ truthy (fst r) && truthy (snd r) = false
    end.
Proof.
  induction 1 as [|pattern rest Hp _ IH]; intros current Hcur; simpl.
  - eauto.
  - unfold yields. destruct (pattern data) as [[m p]|e] eqn:E.
    + destruct (truthy m && truthy p) eqn:T; [reflexivity|].
      apply IH. exact T.
    + rewrite (Hp e eq_refl). apply IH. exact Hcur.
Qed.

Lemma first_yield_truthy patterns data m p :
  first_yield patterns data = Some (m, p) -> truthy m && truthy p = true.
Proof.
  induction patterns as [|pattern rest IH]; simpl; [discriminate|].
  unfold yields. destruct (pattern data) as [[m' p']|e]; [|exact IH].
  destruct (truthy m' && truthy p') eqn:T; [|exact IH].
  intros [= <- <-]. exact T.
Qed.

Lemma read_metadata_run data :
  exists md l, forall w,
    try_except
      (m <- lift (read_metadata data) ;;
       ret (match m with Some md => md | None => empty_dict end))%py
      (fun e =>
         logger WARNING "Could not extract metadata: {str(e)}" ;;
         ret empty_dict)%py w
    = (Return md, set_log (log w ++ l) w).
Proof.
  unfold try_except, try_except_on, bind, lift, ret, logger.
  destruct (read_metadata data) as [[md|]|e].
  - exists md, []. intros w. now rewrite set_log_nil.
  - exists empty_dict, []. intros w. now rewrite set_log_nil.
  - eexists _, _. intros w. reflexivity.
Qed.

(** With the status probe through and no status marker found: a payload
    on which a pattern yields two non-empty strings gives the cleaned
    message and the normalised sender. *)
Lemma extract_message_data_matched data probe m p :
  status_probe data = Return probe ->
  py_in (pystr "statuses") probe = Return false ->
  first_match data = Some (VStr m, VStr p) ->
  exists md l, forall w,
    extract_message_data data w
    = (Return (cleaned_message m, normalized_phone p, md), set_log (log w ++ l) w).
Proof.
  intros Hprobe Hin Hfirst.
  pose proof (run_patterns_first extraction_patterns data
                (patterns_raise_lookup_errors data) (VNone, VNone) eq_refl) as Hrun.
  unfold first_match in Hfirst. rewrite Hfirst in Hrun.
  pose proof (first_yield_truthy _ _ _ _ Hfirst) as Ht.
  apply andb_true_iff in Ht as [Htm Htp].
  destruct (read_metadata_run data) as (md & l1 & Hmd).
  destruct (validate_and_clean_message_run m) as (l2 & Hm).
  destruct (validate_phone_number_run p) as (l3 & Hp).
  exists md, (l1 ++ l2 ++ l3). intros w.
  unfold extract_message_data.
  unfold try_except at 1. unfold try_except_on at 1.
  unfold bind at 1. unfold lift at 1. rewrite Hprobe.
  unfold bind at 1. unfold lift at 1. rewrite Hin. cbv iota.
  unfold bind at 1. unfold lift at 1. rewrite Hrun. cbv iota beta.
  rewrite Htm, Htp. change (negb true || negb true) with false. cbv iota.
  unfold bind at 1. rewrite Hmd.
  unfold bind at 1. rewrite Hm.
  unfold bind at 1. rewrite Hp.
  unfold ret. now rewrite !set_log_app.
Qed.

(** ... and a payload on which no pattern does is answered with nothing
    and a warning. *)
Lemma extract_message_data_unmatched data probe :
  status_probe data = Return probe ->
  py_in (pystr "statuses") probe = Return false ->
  first_match data = None ->
  forall w,
    extract_message_data data w
    = (Return (None, None, empty_dict), set_log (log w ++ [no_match_warning]) w).
Proof.
  intros Hprobe Hin Hfirst w.
  pose proof (run_patterns_first extraction_patterns data
                (patterns_raise_lookup_errors data) (VNone, VNone) eq_refl) as Hrun.
  unfold first_match in Hfirst. rewrite Hfirst in Hrun.
  destruct Hrun as ([m p] & Hrun & Ht). simpl in Ht.
  unfold extract_message_data.
  unfold try_except at 1. unfold try_except_on at 1.
  unfold bind at 1. unfold lift at 1. rewrite Hprobe.
  unfold bind at 1. unfold lift at 1. rewrite Hin. cbv iota.
  unfold bind at 1. unfold lift at 1. rewrite Hrun. cbv iota beta.
  assert (Hn : negb (truthy m) || negb (truthy p) = true).
  { destruct (truthy m), (truthy p); simpl in *; congruence. }
  rewrite Hn. reflexivity.
Qed.

End Extraction.

(** ** The rate limiter and the producer *)

Section Producer.
Import WhatsAppMessageHandler.

#[local] Arguments Nat.leb : simpl never.

Lemma stamps_set_log l w p : stamps (set_log l w) p = stamps w p.
Proof. reflexivity. Qed.

(** One rate-limit check: the verdict and the world it leaves. *)
Lemma check_rate_limit_run p w :
  exists l,
    check_rate_limit p w
    = (Return (negb (10 <=? length (pruned w p))%nat),
       set_log (log w ++ l)
         (set_message_counts
            (<[p := if (10 <=? length (pruned w p))%nat then pruned w p
                    else pruned w p ++ [clock w]]> (message_counts w)) w)).
Proof.
  unfold pruned, stamps.
  unfold check_rate_limit, try_except, try_except_on, bind, datetime_now_timestamp,
    counts_item, counts_store, ret, logger, seconds, rate_limit_window,
    rate_limit_max_messages.
  destruct w as [tok pid clk ent gw up ses counts rc ru q out lg].
  unfold set_message_counts, set_log. simpl.
  destruct (counts !! p) as [old|] eqn:E; simpl;
    repeat (rewrite ?E, ?lookup_insert_eq; simpl).
  - match goal with
    | |- context [(10 <=? ?n)%nat] => destruct (10 <=? n)%nat eqn:H10
    end; simpl; repeat (rewrite ?E, ?lookup_insert_eq; simpl).
    + eexists. rewrite ?insert_insert_eq. reflexivity.
    + exists []. now rewrite ?insert_insert_eq, app_nil_r.
  - exists []. now rewrite ?insert_insert_eq, app_nil_r.
Qed.

Lemma stamps_after_check p w verdict w' :
  check_rate_limit p w = (verdict, w') ->
  stamps w' p = (if (10 <=? length (pruned w p))%nat then pruned w p
                 else pruned w p ++ [clock w])
  /\ (forall p', p' <> p -> stamps w' p' = stamps w p').
Proof.
  destruct (check_rate_limit_run p w) as (l & ->). intros [= _ <-].
  unfold stamps. simpl. rewrite lookup_insert_eq. split; [reflexivity|].
  intros p' Hne. now rewrite lookup_insert_ne by congruence.
Qed.

(** Sending changes neither the queue nor the windows. *)
Lemma send_whatsapp_message_frame to body w :
  exists o w',
    send_whatsapp_message to body w = (o, w')
    /\ queue w' = queue w /\ message_counts w' = message_counts w.
Proof.
  unfold send_whatsapp_message, bind.
  destruct (negb (truthy_opt (META_PHONE_NUMBER_ID w)) || negb (truthy_opt (META_ACCESS_TOKEN w))).
  - eexists _, _. split; [reflexivity|]. split; reflexivity.
  - unfold try_except_on, bind, requests_post.
    destruct (gateway w) as [|b|] eqn:Hg.
    + eexists _, _. split; [reflexivity|]. split; reflexivity.
    + simpl. rewrite Hg. destruct b; eexists _, _; (split; [reflexivity|]); split; reflexivity.
    + eexists _, _. split; [reflexivity|]. split; reflexivity.
Qed.

Lemma acknowledges_ret r : status_code r = 200 -> acknowledges (ret r).
Proof. intros H w resp w' [= <- _]. exact H. Qed.

Lemma acknowledges_bind {A} (c : M A) (k : A -> M Response) :
  (forall a, acknowledges (k a)) -> acknowledges (bind c k).
Proof.
  intros Hk w resp w'. unfold bind.
  destruct (c w) as [[a|e] w1]; [apply Hk|discriminate].
Qed.

(** ** C9 *)

(** C9. Whatever the payload, and whatever happens inside, [process_webhook]
    answers the gateway with status 200: when the job was queued, when the
    sender was rate-limited, when the payload could not be read or was a
    status update, when the queue could not be reached, and when an
    exception was raised on the way (the body not being JSON included). *)
Theorem process_webhook_always_200 (request : outcome value) (w : World) :
  exists w', process_webhook request w = (Return (mkResponse 200), w').
Proof.
  unfold process_webhook, try_except, try_except_on.
  match goal with
  | |- context [match ?body w with _ => _ end] =>
      assert (Hack : acknowledges body); [|destruct (body w) as [[resp|e] w1] eqn:E]
  end.
  - apply acknowledges_bind. intros data.
    apply acknowledges_bind. intros _.
    apply acknowledges_bind. intros [[message user_phone] metadata].
    destruct message as [m|], user_phone as [p|]; try (now apply acknowledges_ret).
    destruct (truthy_opt (Some m) && truthy_opt (Some p)); [|now apply acknowledges_ret].
    apply acknowledges_bind. intros allowed.
    destruct (negb allowed).
    + apply acknowledges_bind. intros _. now apply acknowledges_ret.
    + apply acknowledges_bind. intros has_client.
      apply acknowledges_bind. intros _. now apply acknowledges_ret.
  - apply Hack in E. destruct resp as [code]. simpl in E. subst code. eauto.
  - eexists. reflexivity.
Qed.

(** The paths, one by one.  A message is queued under the session id made
    from its sender ... *)
Example process_webhook_queues_job :
  process_webhook (Return sample_payload) fresh_world
  = (Return (mkResponse 200),
     set_log [ debug_record;
               (INFO, "Pushed job for {user_phone} to queue {CHAT_QUEUE_NAME}"%string) ]
       (set_queue
          [ mkJob (pystr "hi there") sample_phone sample_session
              (VDict [ (pystr "message_id", VNone); (pystr "timestamp", VNone);
                       (pystr "type", VStr (pystr "text"));
                       (pystr "from_name", VStr (pystr "Unknown")) ]) ]
          (set_message_counts {[ sample_phone := [0] ]} fresh_world))).
Proof. vm_compute. reflexivity. Qed.

(** ... when the queue cannot be reached, the sender is told and the
    gateway still gets its 200 ... *)
Example process_webhook_queue_unreachable :
  fst (process_webhook (Return sample_payload) redis_down_world) = Return (mkResponse 200)
  /\ queue (snd (process_webhook (Return sample_payload) redis_down_world)) = []
  /\ outbound (snd (process_webhook (Return sample_payload) redis_down_world))
     = [(sample_phone, queue_trouble_msg)].
Proof. vm_compute. repeat split. Qed.

(** ... a status update and a body that is not JSON are dropped. *)
Example process_webhook_status_update :
  process_webhook (Return status_payload) fresh_world
  = (Return (mkResponse 200),
     set_log [ debug_record;
               (INFO, "Received '{status}' status update for {recipient_id}. Ignoring."%string) ]
       fresh_world).
Proof. vm_compute. reflexivity. Qed.

Example process_webhook_not_json :
  process_webhook (Raise JSONDecodeError) fresh_world
  = (Return (mkResponse 200),
     set_log [ (ERROR, "Critical error in webhook processing: {str(e)}"%string) ]
       fresh_world).
Proof. vm_compute. reflexivity. Qed.

End Producer.

(** ** The rolling window *)

Section Window.
Import WhatsAppMessageHandler.

#[local] Arguments Nat.leb : simpl never.

Lemma filter_length_le {A} (f g : A -> bool) (l : list A) :
  (forall a, f a = true -> g a = true) ->
  (length (List.filter f l) <= length (List.filter g l))%nat.
Proof.
  intros Hfg. induction l as [|a l IH]; simpl; [lia|].
  destruct (f a) eqn:Hf.
  - rewrite (Hfg a Hf). simpl. lia.
  - destruct (g a); simpl; lia.
Qed.

Lemma filter_after_filter (x y : Z) (l : list Z) :
  y <= x ->
  List.filter (fun a => x <? a) (List.filter (fun a => y <? a) l)
  = List.filter (fun a => x <? a) l.
Proof.
  intros Hyx. induction l as [|a l IH]; simpl; [reflexivity|].
  destruct (y <? a) eqn:Hy; simpl.
  - now rewrite IH.
  - destruct (x <? a) eqn:Hx; [|exact IH].
    apply Z.ltb_lt in Hx. apply Z.ltb_ge in Hy. lia.
Qed.

Lemma accepted_at_cons sender t s b events verdicts :
  accepted_at sender ((t, s) :: events) (Return b :: verdicts)
  = (if b && str_eqb sender s then [t] else []) ++ accepted_at sender events verdicts.
Proof. simpl. destruct b; [destruct (str_eqb sender s)|]; reflexivity. Qed.

(** The invariant of a run: what the window of a sender holds agrees, from
    any cutoff a later check can use, with the messages accepted so far
    ([seen]); and no rolling window holds more than ten of those. *)
Lemma check_each_bound events :
  forall (w : World) (t0 : Z) (seen : str -> list Z),
    nondecreasing_from t0 events ->
    (forall p x, t0 - 60 * 1000000 <= x ->
       List.filter (fun a => x <? a) (stamps w p) = List.filter (fun a => x <? a) (seen p)) ->
    (forall p start, (length (List.filter (in_window start) (seen p)) <= 10)%nat) ->
    forall p start,
      (length (List.filter (in_window start)
                 (seen p ++ accepted_at p events (fst (check_each events w)))) <= 10)%nat.
Proof.
  induction events as [|[t q] rest IH]; intros w t0 seen Hmono Hwin Hbound p start.
  - simpl. rewrite app_nil_r. apply Hbound.
  - destruct Hmono as [Ht Hmono]. simpl check_each.
    destruct (check_rate_limit q (set_clock t w)) as [r w1] eqn:Hc.
    destruct (stamps_after_check _ _ _ _ Hc) as [Hq Hother].
    destruct (check_rate_limit_run q (set_clock t w)) as (l & Hrun).
    rewrite Hrun in Hc. injection Hc as <- _.
    change (pruned (set_clock t w) q)
      with (List.filter (fun ts => t - 60 * 1000000 <? ts) (stamps w q)) in *.
    change (clock (set_clock t w)) with t in *.
    set (pr := List.filter (fun ts => t - 60 * 1000000 <? ts) (stamps w q)) in *.
    set (b := negb (10 <=? length pr)%nat).
    destruct (check_each rest w1) as [vs w2] eqn:Hrest.
    simpl fst. rewrite accepted_at_cons, app_assoc.
    set (seen' := fun p0 => seen p0 ++ (if b && str_eqb p0 q then [t] else [])).
    change (seen p ++ (if b && str_eqb p q then [t] else [])) with (seen' p).
    replace vs with (fst (check_each rest w1)) by now rewrite Hrest.
    apply (IH w1 t seen' Hmono).
    + (* the windows still agree with what was accepted *)
      intros p0 x Hx. unfold seen'. unfold str_eqb.
      destruct (bool_decide (p0 = q)) eqn:Hp0.
      * apply bool_decide_eq_true in Hp0. subst p0. rewrite Hq.
        rewrite andb_true_r. unfold b.
        destruct (10 <=? length pr)%nat; simpl negb; cbv iota.
        -- rewrite app_nil_r. unfold pr. rewrite filter_after_filter by lia.
           apply Hwin. lia.
        -- rewrite !List.filter_app. f_equal. unfold pr.
           rewrite filter_after_filter by lia. apply Hwin. lia.
      * apply bool_decide_eq_false in Hp0. rewrite andb_false_r, app_nil_r.
        rewrite (Hother p0 Hp0). apply Hwin. lia.
    + (* and no window holds more than ten *)
      intros p0 start0. unfold seen'. unfold str_eqb.
      destruct (b && bool_decide (p0 = q)) eqn:Hacc; [|rewrite app_nil_r; apply Hbound].
      apply andb_true_iff in Hacc as [Hb Hp0].
      apply bool_decide_eq_true in Hp0. subst p0.
      rewrite List.filter_app, length_app. simpl List.filter.
      destruct (in_window start0 t) eqn:Hin; [|simpl; specialize (Hbound q start0); lia].
      simpl length.
      assert (Hlt : (length pr < 10)%nat).
      { unfold b in Hb. apply negb_true_iff, Nat.leb_gt in Hb. exact Hb. }
      assert (Hle : (length (List.filter (in_window start0) (seen q)) <= length pr)%nat).
      { unfold pr. rewrite (Hwin q (t - 60 * 1000000)) by lia.
        apply filter_length_le. intros a Ha.
        unfold in_window in Ha, Hin.
        apply andb_true_iff in Ha as [Ha1 _]. apply andb_true_iff in Hin as [_ Hin2].
        apply Z.leb_le in Ha1. apply Z.ltb_lt in Hin2. apply Z.ltb_lt. lia. }
      lia.
Qed.

End Window.

(** ** The producer's paths *)

Section Paths.
Import WhatsAppMessageHandler.

#[local] Arguments Nat.leb : simpl never.

(** A payload from which nothing was extracted: the producer logs and
    acknowledges, and that is all. *)
Lemma process_webhook_nothing_extracted data w md :
  fst (extract_message_data data w) = Return (None, None, md) ->
  exists l,
    process_webhook (Return data) w
    = (Return (mkResponse 200), set_log (log w ++ l) w).
Proof.
  intros Hx.
  destruct (extract_message_data_run data) as (x & l & Hrun).
  rewrite Hrun in Hx. simpl in Hx. injection Hx as ->.
  unfold process_webhook, try_except, try_except_on.
  unfold bind at 1. unfold lift at 1.
  unfold bind at 1. unfold logger at 1.
  unfold bind at 1. rewrite Hrun. cbv iota beta.
  unfold ret. exists ([debug_record] ++ l).
  f_equal. apply (set_log_app w [debug_record] l).
Qed.

(** A message of a rate-limited sender: the notice goes out, the queue
    stays as it was. *)
Lemma process_webhook_denied data w m p md :
  fst (extract_message_data data w) = Return (Some m, Some p, md) ->
  m <> [] -> p <> [] ->
  fst (check_rate_limit p w) = Return false ->
  truthy_opt (META_ACCESS_TOKEN w) = true ->
  truthy_opt (META_PHONE_NUMBER_ID w) = true ->
  exists w',
    process_webhook (Return data) w = (Return (mkResponse 200), w')
    /\ queue w' = queue w
    /\ outbound w' = outbound w ++ [(p, rate_limit_msg)].
Proof.
  intros Hx Hm Hp Hdeny Ha Hpid.
  destruct (extract_message_data_run data) as (x & l & Hrun).
  rewrite Hrun in Hx. simpl in Hx. injection Hx as ->.
  destruct (check_rate_limit_run p w) as (lw & Hcw).
  rewrite Hcw in Hdeny. simpl in Hdeny. injection Hdeny as Hdeny.
  apply negb_false_iff in Hdeny.
  unfold process_webhook, try_except, try_except_on.
  unfold bind at 1. unfold lift at 1.
  unfold bind at 1. unfold logger at 1.
  unfold bind at 1. rewrite Hrun. cbv iota beta.
  assert (Htm : truthy_opt (Some m) = true).
  { simpl. apply negb_true_iff, bool_decide_eq_false. exact Hm. }
  assert (Htp : truthy_opt (Some p) = true).
  { simpl. apply negb_true_iff, bool_decide_eq_false. exact Hp. }
  rewrite Htm, Htp. change (true && true) with true. cbv iota.
  set (w1 := set_log _ (set_log _ w)).
  unfold bind at 1.
  destruct (check_rate_limit_run p w1) as (l1 & Hc1). rewrite Hc1.
  change (pruned w1 p) with (pruned w p). rewrite Hdeny.
  change (negb true) with false. change (negb false) with true. cbv iota.
  set (w2 := set_log _ (set_message_counts _ w1)).
  unfold bind at 1.
  destruct (send_whatsapp_message_outbound p rate_limit_msg w2 Ha Hpid)
    as (o & w3 & Hsend & Hout & _ & _ & _ & Ho).
  destruct (send_whatsapp_message_frame p rate_limit_msg w2)
    as (o' & w3' & Hsend' & Hq & _).
  rewrite Hsend in Hsend'. injection Hsend' as <- <-.
  rewrite Hsend.
  destruct Ho as [-> | [-> _]].
  - eexists. split; [reflexivity|]. split; [exact Hq|exact Hout].
  - eexists. split; [reflexivity|]. split; [exact Hq|exact Hout].
Qed.

(** The standard shape and the second alternative get through the status
    probe, and their pattern yields the message and the sender. *)
Lemma standard_payload_matches body from :
  truthy body = true -> truthy from = true ->
  status_probe (standard_payload body from)
  = Return (VDict [ (pystr "messages", VList [ VDict [
              (pystr "from", from); (pystr "text", VDict [ (pystr "body", body) ]) ] ]) ])
  /\ first_match (standard_payload body from) = Some (body, from).
Proof.
  intros Hb Hf. split; [reflexivity|].
  unfold first_match, extraction_patterns, first_yield, yields.
  change (pattern_standard (standard_payload body from)) with (Return (body, from)).
  cbv beta iota. now rewrite Hb, Hf.
Qed.

Lemma alternative_2_payload_matches body from :
  truthy body = true -> truthy from = true ->
  status_probe (alternative_2_payload body from) = Return empty_dict
  /\ first_match (alternative_2_payload body from) = Some (body, from).
Proof.
  intros Hb Hf. split; [reflexivity|].
  unfold first_match, extraction_patterns, first_yield, yields.
  change (pattern_standard (alternative_2_payload body from)) with (@Raise (value * value) KeyError).
  change (pattern_alternative_1 (alternative_2_payload body from))
    with (@Raise (value * value) KeyError).
  change (pattern_alternative_2 (alternative_2_payload body from)) with (Return (body, from)).
  cbv beta iota. now rewrite Hb, Hf.
Qed.

(** The first alternative does not: [entry] is an object there, the probe
    asks for its item 0, and the [KeyError] ends the extraction. *)
Lemma alternative_1_payload_dropped body from w :
  pattern_alternative_1 (alternative_1_payload body from) = Return (body, from)
  /\ status_probe (alternative_1_payload body from) = Raise KeyError
  /\ extract_message_data (alternative_1_payload body from) w
     = (Return (None, None, empty_dict),
        set_log (log w ++ [(ERROR, "Error extracting message data: {str(e)}"%string)]) w).
Proof. repeat split. Qed.

End Paths.


(** * Further properties *)

(** ** Webhook verification *)

Section Verification.

Lemma truthy_opt_true o : truthy_opt o = true <-> exists s, o = Some s /\ s <> [].
Proof.
  destruct o as [s|]; simpl.
  - rewrite negb_true_iff, bool_decide_eq_false. split.
    + intros H. exists s. auto.
    + intros (s' & [= <-] & H). exact H.
  - split; [discriminate|]. intros (s & H & _). discriminate.
Qed.

Lemma only_logs_verify_webhook verify_token request :
  only_logs (verify_webhook verify_token request).
Proof.
  unfold verify_webhook, try_except. apply only_logs_try.
  - apply only_logs_bind; [apply only_logs_logger|intros _].
    destruct (negb _).
    + apply only_logs_bind; [apply only_logs_logger|intros _; apply only_logs_ret].
    + destruct (_ && _);
        (apply only_logs_bind; [apply only_logs_logger|intros _; apply only_logs_ret]).
  - intros e. apply only_logs_bind; [apply only_logs_logger|intros _; apply only_logs_ret].
Qed.

Lemma verify_webhook_reply verify_token request w :
  exists response,
    fst (verify_webhook verify_token request w) = Return response
    /\ (content_status_code response = 200
        <-> exists token challenge,
              hub_mode request = Some (pystr "subscribe")
              /\ hub_verify_token request = Some token /\ token <> []
              /\ verify_token = Some token
              /\ hub_challenge request = Some challenge /\ challenge <> [])
    /\ (content_status_code response = 200 -> hub_challenge request = Some (content response))
    /\ (content_status_code response = 400
        <-> truthy_opt (hub_mode request) && truthy_opt (hub_verify_token request)
            && truthy_opt (hub_challenge request) = false)
    /\ (content_status_code response = 200 \/ content_status_code response = 400
        \/ content_status_code response = 403).
Proof.
  unfold verify_webhook, try_except, try_except_on, bind, logger, ret.
  destruct (truthy_opt (hub_mode request) && truthy_opt (hub_verify_token request)
            && truthy_opt (hub_challenge request)) eqn:Hall; simpl.
  - apply andb_true_iff in Hall as [Hall Hc]. apply andb_true_iff in Hall as [Hm Ht].
    apply truthy_opt_true in Hm as (m & Hm & Hmne).
    apply truthy_opt_true in Ht as (t & Ht & Htne).
    apply truthy_opt_true in Hc as (c & Hc & Hcne).
    rewrite Hm, Ht, Hc.
    destruct (bool_decide (Some m = Some (pystr "subscribe"))) eqn:Hsub;
      [apply bool_decide_eq_true in Hsub | apply bool_decide_eq_false in Hsub];
      (destruct (bool_decide (Some t = verify_token)) eqn:Htok;
         [apply bool_decide_eq_true in Htok | apply bool_decide_eq_false in Htok]);
      simpl; eexists; (split; [reflexivity|]); simpl.
    + split; [split; [intros _; exists t, c; auto 10|reflexivity]|].
      split; [reflexivity|]. split; [split; discriminate|]. auto.
    + split; [split; [discriminate|]|].
      { intros (t0 & c0 & _ & [= <-] & _ & Hv & _). congruence. }
      split; [discriminate|]. split; [split; discriminate|]. auto.
    + split; [split; [discriminate|]|].
      { intros (t0 & c0 & Hs & _). congruence. }
      split; [discriminate|]. split; [split; discriminate|]. auto.
    + split; [split; [discriminate|]|].
      { intros (t0 & c0 & Hs & _). congruence. }
      split; [discriminate|]. split; [split; discriminate|]. auto.
  - eexists. split; [reflexivity|]. simpl.
    split; [split; [discriminate|]|].
    { intros (t0 & c0 & Hm & Ht & Htne & _ & Hc & Hcne).
      rewrite Hm, Ht, Hc in Hall. simpl in Hall.
      rewrite !bool_decide_eq_false_2 in Hall by assumption.
      vm_compute in Hall. discriminate. }
    split; [discriminate|]. split; [split; reflexivity|]. auto.
Qed.

(** X1. [verify_webhook] answers 200 exactly when the three query
    parameters are present and non-empty, the mode is ["subscribe"] and
    the token is the configured verify token; the body of a 200 answer is
    the challenge.  It answers 400 exactly when a parameter is missing or
    empty, 403 in the remaining cases, and never 500; so with no verify
    token configured (or an empty one) no subscription is ever confirmed.
    It writes to the log and to nothing else. *)
Theorem verify_webhook_decides (verify_token : option str) (request : VerificationQuery)
    (w : World) :
  exists response l,
    verify_webhook verify_token request w = (Return response, set_log (log w ++ l) w)
    /\ (content_status_code response = 200
        <-> exists token challenge,
              hub_mode request = Some (pystr "subscribe")
              /\ hub_verify_token request = Some token /\ token <> []
              /\ verify_token = Some token
              /\ hub_challenge request = Some challenge /\ challenge <> [])
    /\ (content_status_code response = 200 -> hub_challenge request = Some (content response))
    /\ (content_status_code response = 400
        <-> truthy_opt (hub_mode request) && truthy_opt (hub_verify_token request)
            && truthy_opt (hub_challenge request) = false)
    /\ (content_status_code response = 200 \/ content_status_code response = 400
        \/ content_status_code response = 403).
Proof.
  destruct (verify_webhook_reply verify_token request w) as (response & Hfst & Hprops).
  destruct (only_logs_verify_webhook verify_token request) as (o & l & Hlog).
  rewrite Hlog in Hfst. simpl in Hfst. subst o.
  exists response, l. split; [apply Hlog|exact Hprops].
Qed.

End Verification.

(** ** Sending *)

Section Sending.

(** X2. [send_whatsapp_message] issues a request, and exactly one, when
    both credentials are set and non-empty; when either is missing or
    empty it sends nothing, logs an error and returns as if all were
    well. *)
Theorem send_whatsapp_message_needs_credentials (to body : str) (w : World) :
  (truthy_opt (META_PHONE_NUMBER_ID w) && truthy_opt (META_ACCESS_TOKEN w) = true ->
   outbound (snd (send_whatsapp_message to body w)) = outbound w ++ [(to, body)])
  /\ (truthy_opt (META_PHONE_NUMBER_ID w) && truthy_opt (META_ACCESS_TOKEN w) = false ->
      send_whatsapp_message to body w
      = (Return tt,
         set_log (log w ++ [(ERROR,
                   "Environment variables META_PHONE_NUMBER_ID and/or META_ACCESS_TOKEN are not set."%string)])
           w)).
Proof.
  split.
  - intros H. apply andb_true_iff in H as [Hp Ha].
    destruct (send_whatsapp_message_outbound to body w Ha Hp) as (o & w' & -> & Hout & _).
    exact Hout.
  - intros H. unfold send_whatsapp_message, bind.
    destruct (truthy_opt (META_PHONE_NUMBER_ID w)), (truthy_opt (META_ACCESS_TOKEN w));
      try discriminate; reflexivity.
Qed.

Lemma send_whatsapp_message_effect (to body : str) (w : World) :
  exists o w',
    send_whatsapp_message to body w = (o, w')
    /\ (o = Return tt \/ (o = Raise OtherError /\ gateway w = Garbled))
    /\ (gateway w <> Garbled -> o = Return tt)
    /\ (outbound w' = outbound w \/ outbound w' = outbound w ++ [(to, body)])
    /\ queue w' = queue w /\ message_counts w' = message_counts w
    /\ sessions w' = sessions w /\ store_up w' = store_up w
    /\ META_ACCESS_TOKEN w' = META_ACCESS_TOKEN w
    /\ META_PHONE_NUMBER_ID w' = META_PHONE_NUMBER_ID w
    /\ gateway w' = gateway w /\ clock w' = clock w.
Proof.
  unfold send_whatsapp_message, bind.
  destruct (negb (truthy_opt (META_PHONE_NUMBER_ID w)) || negb (truthy_opt (META_ACCESS_TOKEN w))).
  - eexists _, _. split; [reflexivity|]. simpl. auto 20.
  - unfold try_except_on, bind, requests_post.
    destruct (gateway w) as [|b|] eqn:Hg.
    + eexists _, _. split; [reflexivity|]. simpl. rewrite Hg. auto 20.
    + simpl. rewrite Hg. destruct b; eexists _, _; (split; [reflexivity|]); simpl; rewrite Hg;
        auto 20.
    + eexists _, _. split; [reflexivity|]. simpl. rewrite Hg.
      split; [right; auto|]. split; [intros H; contradiction|]. auto 20.
Qed.



End Sending.

(** ** What extraction returns *)

Section ExtractionResults.
Import WhatsAppMessageHandler.

Lemma returns_only_ret {A} (P : A -> Prop) a : P a -> returns_only P (ret a).
Proof. intros H w a' w' [= <- _]. exact H. Qed.

Lemma returns_only_raise {A} (P : A -> Prop) e : returns_only P (raise e).
Proof. intros w a w' H. discriminate. Qed.

Lemma returns_only_bind {A B} (Q : A -> Prop) (P : B -> Prop) (c : M A) (k : A -> M B) :
  returns_only Q c -> (forall a, Q a -> returns_only P (k a)) ->
  returns_only P (bind c k).
Proof.
  intros Hc Hk w b w'. unfold bind.
  destruct (c w) as [[a|e] w1] eqn:E; [|discriminate].
  apply (Hk a (Hc _ _ _ E)).
Qed.

Lemma returns_only_bind_any {A B} (P : B -> Prop) (c : M A) (k : A -> M B) :
  (forall a, returns_only P (k a)) -> returns_only P (bind c k).
Proof.
  intros Hk. apply (returns_only_bind (fun _ => True)); [intros ? ? ? _; exact I|].
  intros a _. apply Hk.
Qed.

Lemma returns_only_try {A} (P : A -> Prop) catches (body : M A) handler :
  returns_only P body -> (forall e, returns_only P (handler e)) ->
  returns_only P (try_except_on catches body handler).
Proof.
  intros Hb Hh w a w'. unfold try_except_on.
  destruct (body w) as [[a0|e] w1] eqn:E.
  - intros [= <- _]. exact (Hb _ _ _ E).
  - destruct (catches e); [apply Hh|discriminate].
Qed.

Lemma single_spaced_from_plain b s :
  single_spaced_from b s = true -> Forall (fun c => isspace c = true -> c = chr_space) s.
Proof.
  revert b. induction s as [|c s IH]; intros b H; [constructor|].
  simpl in H. destruct (isspace c) eqn:Hc.
  - apply andb_true_iff in H as [H Hs]. apply andb_true_iff in H as [_ He].
    constructor; [intros _; now apply N.eqb_eq|exact (IH _ Hs)].
  - constructor; [intros H'; congruence|exact (IH _ H)].
Qed.

Lemma collapsed_plain s : Forall (fun c => isspace c = true -> c = chr_space) (collapsed s).
Proof.
  pose proof (collapsed_single_spaced s) as H. unfold single_spaced in H.
  destruct (collapsed s) as [|c t] eqn:E; [constructor|].
  exact (single_spaced_from_plain _ _ H).
Qed.

Lemma cleaned_message_good s m : cleaned_message s = Some m -> good_message m.
Proof.
  unfold cleaned_message, truncated.
  destruct (forallb isspace s) eqn:Hws; [discriminate|].
  assert (Hne : collapsed s <> []).
  { intros E. apply collapsed_nil_iff in E. congruence. }
  pose proof (collapsed_plain s) as Hplain.
  destruct (4096 <? length (collapsed s))%nat eqn:Hlong; intros [= <-].
  - split; [|split].
    + intros E. apply (f_equal (@length N)) in E.
      rewrite length_app, length_truncation_marker in E. simpl in E. lia.
    + rewrite length_app, length_take, length_truncation_marker. lia.
    + apply Forall_app. split; [now apply Forall_take|].
      apply Forall_forall. intros c Hc Hsp.
      assert (Hdot : c = 46%N).
      { apply list_elem_of_In in Hc. vm_compute in Hc. intuition congruence. }
      subst c. vm_compute in Hsp. discriminate.
  - apply Nat.ltb_ge in Hlong. split; [exact Hne|]. split; [lia|exact Hplain].
Qed.

Lemma normalized_phone_good s p : normalized_phone s = Some p -> good_phone p.
Proof.
  intros H. apply normalized_phone_some in H as [-> Hlen]. split; [exact Hlen|].
  apply Forall_forall. intros c Hc. apply list_elem_of_In in Hc.
  apply filter_In in Hc as [_ Hc].
  apply orb_true_iff in Hc as [Hc|Hc]; [now left|right; now apply N.eqb_eq].
Qed.

Lemma validate_and_clean_message_returns v :
  returns_only (fun o => forall m, o = Some m -> good_message m)
    (validate_and_clean_message v).
Proof.
  intros w o w' H.
  destruct v as [ |b|z|f|s|l|d];
    try (unfold validate_and_clean_message in H;
         destruct (negb (truthy _)); [injection H as <- _; discriminate|discriminate]).
  destruct (validate_and_clean_message_run s) as (l & Hrun).
  rewrite Hrun in H. injection H as <- _. intros m. apply cleaned_message_good.
Qed.

Lemma validate_phone_number_returns v :
  returns_only (fun o => forall p, o = Some p -> good_phone p) (validate_phone_number v).
Proof.
  intros w o w' H.
  destruct v as [ |b|z|f|s|l|d];
    try (unfold validate_phone_number in H;
         destruct (negb (truthy _)); [injection H as <- _; discriminate|discriminate]).
  destruct (validate_phone_number_run s) as (l & Hrun).
  rewrite Hrun in H. injection H as <- _. intros p. apply normalized_phone_good.
Qed.

(** Whatever [extract_message_data] returns as message or sender has
    passed cleaning and normalisation. *)
Lemma extract_message_data_returns data :
  returns_only
    (fun r => (forall m, fst (fst r) = Some m -> good_message m)
              /\ (forall p, snd (fst r) = Some p -> good_phone p))
    (extract_message_data data).
Proof.
  unfold extract_message_data, try_except.
  assert (Hnone : forall md : value,
             (forall m, fst (fst (@None str, @None str, md)) = Some m -> good_message m)
             /\ (forall p, snd (fst (@None str, @None str, md)) = Some p -> good_phone p)).
  { intros md. split; intros ?; discriminate. }
  apply returns_only_try.
  - apply returns_only_bind_any. intros probe.
    apply returns_only_bind_any. intros [|].
    + apply returns_only_bind_any. intros _. apply returns_only_ret, Hnone.
    + apply returns_only_bind_any. intros [message user_phone].
      destruct (negb (truthy message) || negb (truthy user_phone)).
      * apply returns_only_bind_any. intros _. apply returns_only_ret, Hnone.
      * apply returns_only_bind_any. intros metadata.
        eapply returns_only_bind; [apply validate_and_clean_message_returns|].
        intros m Hm.
        eapply returns_only_bind; [apply validate_phone_number_returns|].
        intros p Hp. apply returns_only_ret. split; assumption.
  - intros e. apply returns_only_bind_any. intros _. apply returns_only_ret, Hnone.
Qed.

(** X4. On every payload, of any JSON type, [extract_message_data]
    returns (it never raises) and writes to nothing but the log.  A
    message it returns is not empty, has at most 4099 characters and no
    whitespace other than plain spaces; a sender it returns has 8 to 15
    characters, each a decimal digit or a plus sign. *)
Theorem extract_message_data_total_and_clean (data : value) (w : World) :
  exists message user_phone metadata l,
    extract_message_data data w
    = (Return (message, user_phone, metadata), set_log (log w ++ l) w)
    /\ (forall m, message = Some m -> good_message m)
    /\ (forall p, user_phone = Some p -> good_phone p).
Proof.
  destruct (extract_message_data_run data) as ([[message user_phone] metadata] & l & Hrun).
  exists message, user_phone, metadata, l. split; [apply Hrun|].
  exact (extract_message_data_returns data w _ _ (Hrun w)).
Qed.

Lemma read_status_only_logs probe :
  only_logs
    (try_except_on
       (fun e => match e with IndexError | KeyError => true | _ => false end)
       (read_status probe)
       (fun _ => logger INFO "Received a status update with unexpected format. Ignoring.")).
Proof.
  apply only_logs_try; [apply only_logs_read_status|intros _; apply only_logs_logger].
Qed.

Lemma extract_message_data_status data probe :
  status_probe data = Return probe ->
  py_in (pystr "statuses") probe = Return true ->
  exists l, forall w,
    extract_message_data data w
    = (Return (None, None, empty_dict), set_log (log w ++ l) w).
Proof.
  intros Hprobe Hin.
  destruct (read_status_only_logs probe) as (o & l1 & Hst).
  unfold extract_message_data.
  unfold try_except at 1. unfold try_except_on at 1.
  unfold bind at 1. unfold lift at 1. rewrite Hprobe.
  unfold bind at 1. unfold lift at 1. rewrite Hin. cbv iota.
  unfold bind at 1.
  destruct o as [[]|e].
  - exists l1. intros w. rewrite Hst. reflexivity.
  - eexists. intros w. rewrite Hst. unfold bind, logger, ret.
    rewrite set_log_app. reflexivity.
Qed.

(** X5. A status marker wins over everything else in the payload: when
    the value the status probe reaches contains ["statuses"],
    [extract_message_data] returns (none, none), even if the payload
    carries a text message as well, and the producer queues nothing and
    sends nothing. *)
Theorem status_update_is_dropped (data probe : value) (w : World) :
  status_probe data = Return probe ->
  py_in (pystr "statuses") probe = Return true ->
  fst (extract_message_data data w) = Return (None, None, empty_dict)
  /\ fst (process_webhook (Return data) w) = Return (mkResponse 200)
  /\ queue (snd (process_webhook (Return data) w)) = queue w
  /\ outbound (snd (process_webhook (Return data) w)) = outbound w
  /\ message_counts (snd (process_webhook (Return data) w)) = message_counts w.
Proof.
  intros Hprobe Hin.
  destruct (extract_message_data_status data probe Hprobe Hin) as (l & Hrun).
  assert (Hx : fst (extract_message_data data w) = Return (None, None, empty_dict))
    by now rewrite Hrun.
  split; [exact Hx|].
  destruct (process_webhook_nothing_extracted data w empty_dict Hx) as (l' & ->).
  repeat split.
Qed.

Lemma status_update_is_dropped_witness :
  status_probe status_with_message_payload = Return status_with_message_probe
  /\ py_in (pystr "statuses") status_with_message_probe = Return true
  /\ fst (extract_message_data status_with_message_payload fresh_world)
     = Return (None, None, empty_dict)
  /\ fst (process_webhook (Return status_with_message_payload) fresh_world)
     = Return (mkResponse 200)
  /\ queue (snd (process_webhook (Return status_with_message_payload) fresh_world))
     = queue fresh_world
  /\ outbound (snd (process_webhook (Return status_with_message_payload) fresh_world))
     = outbound fresh_world
  /\ message_counts (snd (process_webhook (Return status_with_message_payload) fresh_world))
     = message_counts fresh_world.
Proof.
  split; [reflexivity|].
  split; [reflexivity|].
  apply (status_update_is_dropped status_with_message_payload status_with_message_probe
           fresh_world).
  - reflexivity.
  - reflexivity.
Defined.

End ExtractionResults.

(** ** The producer, path by path *)

Section ProducerPaths.
Import WhatsAppMessageHandler.

#[local] Arguments Nat.leb : simpl never.
#[local] Arguments send_whatsapp_message : simpl never.

Lemma good_message_truthy m : good_message m -> truthy_opt (Some m) = true.
Proof.
  intros [Hne _]. simpl. apply negb_true_iff, bool_decide_eq_false. exact Hne.
Qed.

Lemma good_phone_truthy p : good_phone p -> truthy_opt (Some p) = true.
Proof.
  intros [[H8 _] _]. simpl. apply negb_true_iff, bool_decide_eq_false.
  intros ->. simpl in H8. lia.
Qed.

(** The producer up to the verdict of the rate limiter, for a message that
    was extracted and is allowed. *)
Lemma process_webhook_allowed data w m p md :
  fst (extract_message_data data w) = Return (Some m, Some p, md) ->
  (length (pruned w p) < 10)%nat ->
  exists l,
    process_webhook (Return data) w
    = try_except
        (has_client <- (fun w => (Return (redis_client w), w)) ;;
         (if has_client : bool then
            try_except
              (redis_rpush (mkJob m p (pystr "whatsapp_" ++ p) md) ;;
               logger INFO "Pushed job for {user_phone} to queue {CHAT_QUEUE_NAME}")
              (fun e =>
                 logger ERROR "Failed to push job to Redis: {e}" ;;
                 send_whatsapp_message p queue_trouble_msg)
          else
            logger ERROR "Redis client not available. Cannot queue job." ;;
            send_whatsapp_message p high_volume_msg) ;;
         ret (mkResponse 200))%py
        (fun e =>
           logger ERROR "Critical error in webhook processing: {str(e)}" ;;
           ret (mkResponse 200))%py
        (set_log (log w ++ l)
           (set_message_counts (<[p := pruned w p ++ [clock w]]> (message_counts w)) w)).
Proof.
  intros Hx Hlt.
  destruct (extract_message_data_run data) as (x & l & Hrun).
  pose proof (extract_message_data_returns data w _ _ (Hrun w)) as [Hgm Hgp].
  rewrite Hrun in Hx. simpl in Hx. injection Hx as ->. simpl in Hgm, Hgp.
  specialize (Hgm m eq_refl). specialize (Hgp p eq_refl).
  unfold process_webhook, try_except, try_except_on.
  unfold bind at 1. unfold lift at 1.
  unfold bind at 1. unfold logger at 1.
  unfold bind at 1. rewrite Hrun. cbv iota beta.
  rewrite (good_message_truthy m Hgm), (good_phone_truthy p Hgp).
  change (true && true) with true. cbv iota.
  set (w1 := set_log _ (set_log _ w)).
  unfold bind at 1.
  destruct (check_rate_limit_run p w1) as (l1 & Hc1). rewrite Hc1.
  change (pruned w1 p) with (pruned w p).
  apply Nat.leb_gt in Hlt. rewrite Hlt.
  change (negb (negb false)) with false. cbv iota.
  change (clock w1) with (clock w). change (message_counts w1) with (message_counts w).
  exists (([debug_record] ++ l) ++ l1).
  assert (Hw : set_log (log w1 ++ l1)
                 (set_message_counts (<[p:=pruned w p ++ [clock w]]> (message_counts w)) w1)
               = set_log (log w ++ ([debug_record] ++ l) ++ l1)
                   (set_message_counts (<[p:=pruned w p ++ [clock w]]> (message_counts w)) w)).
  { unfold w1. destruct w. unfold set_log, set_message_counts. simpl.
    f_equal. rewrite <- !app_assoc. reflexivity. }
  rewrite Hw. reflexivity.
Qed.

Lemma process_webhook_queued data w m p md :
  fst (extract_message_data data w) = Return (Some m, Some p, md) ->
  (length (pruned w p) < 10)%nat ->
  redis_client w = true -> redis_up w = true ->
  exists w',
    process_webhook (Return data) w = (Return (mkResponse 200), w')
    /\ queue w' = queue w ++ [mkJob m p (pystr "whatsapp_" ++ p) md]
    /\ outbound w' = outbound w
    /\ stamps w' p = pruned w p ++ [clock w]
    /\ sessions w' = sessions w
    /\ message_counts w' = <[p := pruned w p ++ [clock w]]> (message_counts w).
Proof.
  intros Hx Hlt Hrc Hru.
  destruct (process_webhook_allowed data w m p md Hx Hlt) as (l & ->).
  unfold try_except, try_except_on, bind, redis_rpush, logger, ret. simpl.
  rewrite Hrc. simpl. rewrite Hru. simpl.
  eexists. split; [reflexivity|]. simpl.
  unfold stamps. simpl. rewrite lookup_insert_eq. repeat split.
Qed.

(** X6. The way into the queue: a message that was extracted, whose sender
    has fewer than 10 timestamps left in the window, with the queue
    reachable, is answered with 200 and appended to the tail of the
    queue as one job holding the cleaned message, the normalised sender,
    the session id ["whatsapp_"] followed by the sender, and the metadata;
    nothing is sent to the sender, and the current time is recorded in
    the sender's window. *)
Theorem process_webhook_enqueues (data : value) (w : World) (m p : str) (md : value) :
  fst (extract_message_data data w) = Return (Some m, Some p, md) ->
  (length (pruned w p) < 10)%nat ->
  redis_client w = true -> redis_up w = true ->
  fst (process_webhook (Return data) w) = Return (mkResponse 200)
  /\ queue (snd (process_webhook (Return data) w))
     = queue w ++ [mkJob m p (pystr "whatsapp_" ++ p) md]
  /\ outbound (snd (process_webhook (Return data) w)) = outbound w
  /\ stamps (snd (process_webhook (Return data) w)) p = pruned w p ++ [clock w]
  /\ sessions (snd (process_webhook (Return data) w)) = sessions w.
Proof.
  intros Hx Hlt Hrc Hru.
  destruct (process_webhook_queued data w m p md Hx Hlt Hrc Hru) as (w' & -> & H).
  simpl. tauto.
Qed.

Lemma process_webhook_enqueues_witness :
  fst (extract_message_data sample_payload fresh_world)
  = Return (Some (pystr "hi there"), Some sample_phone,
            sample_metadata)
  /\ (length (pruned fresh_world sample_phone) < 10)%nat
  /\ redis_client fresh_world = true
  /\ redis_up fresh_world = true
  /\ fst (process_webhook (Return sample_payload) fresh_world) = Return (mkResponse 200)
  /\ queue (snd (process_webhook (Return sample_payload) fresh_world))
     = queue fresh_world
       ++ [mkJob (pystr "hi there") sample_phone (pystr "whatsapp_" ++ sample_phone)
             sample_metadata]
  /\ outbound (snd (process_webhook (Return sample_payload) fresh_world))
     = outbound fresh_world
  /\ stamps (snd (process_webhook (Return sample_payload) fresh_world)) sample_phone
     = pruned fresh_world sample_phone ++ [clock fresh_world]
  /\ sessions (snd (process_webhook (Return sample_payload) fresh_world))
     = sessions fresh_world.
Proof.
  split; [vm_compute; reflexivity|].
  split; [vm_compute; lia|].
  split; [reflexivity|].
  split; [reflexivity|].
  apply (process_webhook_enqueues sample_payload fresh_world (pystr "hi there") sample_phone
           sample_metadata).
  - vm_compute; reflexivity.
  - vm_compute; lia.
  - reflexivity.
  - reflexivity.
Defined.

(** The notice that goes out when the job cannot be queued. *)
Lemma process_webhook_not_queued data w m p md :
  fst (extract_message_data data w) = Return (Some m, Some p, md) ->
  (length (pruned w p) < 10)%nat ->
  redis_client w && redis_up w = false ->
  exists w',
    process_webhook (Return data) w = (Return (mkResponse 200), w')
    /\ queue w' = queue w
    /\ sessions w' = sessions w
    /\ stamps w' p = pruned w p ++ [clock w]
    /\ (outbound w' = outbound w
        \/ outbound w'
           = outbound w ++ [(p, if redis_client w then queue_trouble_msg else high_volume_msg)])
    /\ (truthy_opt (META_ACCESS_TOKEN w) = true ->
        truthy_opt (META_PHONE_NUMBER_ID w) = true ->
        outbound w'
        = outbound w ++ [(p, if redis_client w then queue_trouble_msg else high_volume_msg)])
    /\ message_counts w' = <[p := pruned w p ++ [clock w]]> (message_counts w).
Proof.
  intros Hx Hlt Hdown.
  destruct (process_webhook_allowed data w m p md Hx Hlt) as (l & ->).
  assert (Hgoal : forall (notice : str) (w3 : World),
             queue w3 = queue w -> sessions w3 = sessions w ->
             message_counts w3 = <[p := pruned w p ++ [clock w]]> (message_counts w) ->
             outbound w3 = outbound w ->
             META_ACCESS_TOKEN w3 = META_ACCESS_TOKEN w ->
             META_PHONE_NUMBER_ID w3 = META_PHONE_NUMBER_ID w ->
             exists w',
               (let (o, w') :=
                  (let (o, w') := send_whatsapp_message p notice w3 in
                   match o with
                   | Return _ => (Return (mkResponse 200), w')
                   | Raise e => (Raise e, w')
                   end) in
                match o with
                | Return a => (Return a, w')
                | Raise _ =>
                    (Return (mkResponse 200),
                     set_log (log w' ++ [(ERROR,
                                "Critical error in webhook processing: {str(e)}"%string)]) w')
                end) = (Return (mkResponse 200), w')
               /\ queue w' = queue w
               /\ sessions w' = sessions w
               /\ stamps w' p = pruned w p ++ [clock w]
               /\ (outbound w' = outbound w \/ outbound w' = outbound w ++ [(p, notice)])
               /\ (truthy_opt (META_ACCESS_TOKEN w) = true ->
                   truthy_opt (META_PHONE_NUMBER_ID w) = true ->
                   outbound w' = outbound w ++ [(p, notice)])
               /\ message_counts w'
                  = <[p := pruned w p ++ [clock w]]> (message_counts w)).
  { intros notice w3 Hq Hses Hmc Hout Hat Hpid.
    destruct (send_whatsapp_message_effect p notice w3)
      as (o & w4 & Hrun & Ho & _ & Hout4 & Hq4 & Hmc4 & Hses4 & _).
    assert (Hmc' : message_counts w4
                   = <[p := pruned w p ++ [clock w]]> (message_counts w))
      by now rewrite Hmc4.
    assert (Hst4 : stamps w4 p = pruned w p ++ [clock w]).
    { unfold stamps. now rewrite Hmc', lookup_insert_eq. }
    assert (Hcred : truthy_opt (META_ACCESS_TOKEN w) = true ->
                    truthy_opt (META_PHONE_NUMBER_ID w) = true ->
                    outbound w4 = outbound w ++ [(p, notice)]).
    { intros Ha Hp. rewrite <- Hat in Ha. rewrite <- Hpid in Hp.
      destruct (send_whatsapp_message_outbound p notice w3 Ha Hp)
        as (o' & w4' & Hrun' & Hout' & _).
      rewrite Hrun in Hrun'. injection Hrun' as <- <-. now rewrite Hout', Hout. }
    rewrite Hrun.
    assert (Hout4' : outbound w4 = outbound w \/ outbound w4 = outbound w ++ [(p, notice)]).
    { destruct Hout4 as [->| ->]; [left|right]; now rewrite Hout. }
    destruct Ho as [-> | [-> _]].
    - exists w4. split; [reflexivity|]. rewrite Hq4, Hses4, Hq, Hses. auto 10.
    - eexists. split; [reflexivity|].
      change (stamps (set_log ?l w4) p) with (stamps w4 p). simpl.
      rewrite Hq4, Hses4, Hq, Hses. auto 10. }
  unfold try_except, try_except_on, bind, redis_rpush, logger, ret. simpl.
  destruct (redis_client w) eqn:Hrc; simpl.
  - simpl in Hdown. rewrite Hdown. simpl.
    apply Hgoal; reflexivity.
  - apply Hgoal; reflexivity.
Qed.

(** X7. When the job cannot be queued, because the handler has no Redis
    client or because the push fails, the event is still answered with
    200, no job is added, and the sender is told directly (the
    high-volume notice without a client, the queue-trouble notice after a
    failed push).  The message has used up one of the sender's ten slots
    all the same: its time is recorded in the window. *)
Theorem queue_failure_is_reported (data : value) (w : World) (m p : str) (md : value) :
  fst (extract_message_data data w) = Return (Some m, Some p, md) ->
  (length (pruned w p) < 10)%nat ->
  redis_client w && redis_up w = false ->
  truthy_opt (META_ACCESS_TOKEN w) = true ->
  truthy_opt (META_PHONE_NUMBER_ID w) = true ->
  fst (process_webhook (Return data) w) = Return (mkResponse 200)
  /\ queue (snd (process_webhook (Return data) w)) = queue w
  /\ outbound (snd (process_webhook (Return data) w))
     = outbound w ++ [(p, if redis_client w then queue_trouble_msg else high_volume_msg)]
  /\ stamps (snd (process_webhook (Return data) w)) p = pruned w p ++ [clock w].
Proof.
  intros Hx Hlt Hdown Ha Hp.
  destruct (process_webhook_not_queued data w m p md Hx Hlt Hdown)
    as (w' & -> & Hq & _ & Hst & _ & Hout & _).
  simpl. auto.
Qed.

Lemma queue_failure_is_reported_witness :
  fst (extract_message_data sample_payload redis_down_world)
  = Return (Some (pystr "hi there"), Some sample_phone,
            sample_metadata)
  /\ (length (pruned redis_down_world sample_phone) < 10)%nat
  /\ redis_client redis_down_world && redis_up redis_down_world = false
  /\ truthy_opt (META_ACCESS_TOKEN redis_down_world) = true
  /\ truthy_opt (META_PHONE_NUMBER_ID redis_down_world) = true
  /\ fst (process_webhook (Return sample_payload) redis_down_world) = Return (mkResponse 200)
  /\ queue (snd (process_webhook (Return sample_payload) redis_down_world))
     = queue redis_down_world
  /\ outbound (snd (process_webhook (Return sample_payload) redis_down_world))
     = outbound redis_down_world
       ++ [(sample_phone,
            if redis_client redis_down_world then queue_trouble_msg else high_volume_msg)]
  /\ stamps (snd (process_webhook (Return sample_payload) redis_down_world)) sample_phone
     = pruned redis_down_world sample_phone ++ [clock redis_down_world].
Proof.
  split; [vm_compute; reflexivity|].
  split; [vm_compute; lia|].
  split; [reflexivity|].
  split; [reflexivity|].
  split; [reflexivity|].
  apply (queue_failure_is_reported sample_payload redis_down_world (pystr "hi there")
           sample_phone sample_metadata).
  - vm_compute; reflexivity.
  - vm_compute; lia.
  - reflexivity.
  - reflexivity.
  - reflexivity.
Defined.

Lemma process_webhook_no_pair data w message user_phone md :
  fst (extract_message_data data w) = Return (message, user_phone, md) ->
  message = None \/ user_phone = None ->
  exists l,
    process_webhook (Return data) w = (Return (mkResponse 200), set_log (log w ++ l) w).
Proof.
  intros Hx Hnone.
  destruct (extract_message_data_run data) as (x & l & Hrun).
  rewrite Hrun in Hx. simpl in Hx. injection Hx as ->.
  unfold process_webhook, try_except, try_except_on.
  unfold bind at 1. unfold lift at 1.
  unfold bind at 1. unfold logger at 1.
  unfold bind at 1. rewrite Hrun. cbv iota beta.
  exists ([debug_record] ++ l).
  destruct Hnone as [-> | ->]; [|destruct message]; unfold ret; f_equal;
    apply (set_log_app w [debug_record] l).
Qed.

Lemma process_webhook_denied_effect data w m p md :
  fst (extract_message_data data w) = Return (Some m, Some p, md) ->
  (10 <= length (pruned w p))%nat ->
  exists w',
    process_webhook (Return data) w = (Return (mkResponse 200), w')
    /\ queue w' = queue w
    /\ sessions w' = sessions w
    /\ (outbound w' = outbound w \/ outbound w' = outbound w ++ [(p, rate_limit_msg)])
    /\ message_counts w' = <[p := pruned w p]> (message_counts w).
Proof.
  intros Hx Hge.
  destruct (extract_message_data_run data) as (x & l & Hrun).
  pose proof (extract_message_data_returns data w _ _ (Hrun w)) as [Hgm Hgp].
  rewrite Hrun in Hx. simpl in Hx. injection Hx as ->. simpl in Hgm, Hgp.
  specialize (Hgm m eq_refl). specialize (Hgp p eq_refl).
  unfold process_webhook, try_except, try_except_on.
  unfold bind at 1. unfold lift at 1.
  unfold bind at 1. unfold logger at 1.
  unfold bind at 1. rewrite Hrun. cbv iota beta.
  rewrite (good_message_truthy m Hgm), (good_phone_truthy p Hgp).
  change (true && true) with true. cbv iota.
  set (w1 := set_log _ (set_log _ w)).
  unfold bind at 1.
  destruct (check_rate_limit_run p w1) as (l1 & Hc1). rewrite Hc1.
  change (pruned w1 p) with (pruned w p).
  apply Nat.leb_le in Hge. rewrite Hge.
  change (negb true) with false. change (negb false) with true. cbv iota.
  set (w2 := set_log _ (set_message_counts _ w1)).
  unfold bind at 1.
  destruct (send_whatsapp_message_effect p rate_limit_msg w2)
    as (o & w3 & Hsend & Ho & _ & Hout & Hq & Hmc & Hses & _).
  rewrite Hsend.
  destruct Ho as [-> | [-> _]]; (eexists; split; [reflexivity|]); simpl;
    rewrite Hq, Hses, Hmc; auto.
Qed.

(** X8. What one webhook event can do, whatever the request: it is
    answered with 200, the session store is not touched, and either
    nothing is queued and nothing sent, or exactly one well-formed job is
    appended to the tail of the queue and nothing is sent, or nothing is
    queued and exactly one of the producer's three notices is sent.  The
    jobs already in the queue are never removed or reordered. *)
Theorem process_webhook_effect (request : outcome value) (w : World) :
  fst (process_webhook request w) = Return (mkResponse 200)
  /\ sessions (snd (process_webhook request w)) = sessions w
  /\ ((queue (snd (process_webhook request w)) = queue w
       /\ outbound (snd (process_webhook request w)) = outbound w)
      \/ (exists job,
            good_job job
            /\ queue (snd (process_webhook request w)) = queue w ++ [job]
            /\ outbound (snd (process_webhook request w)) = outbound w)
      \/ (exists p notice,
            In notice producer_notices
            /\ queue (snd (process_webhook request w)) = queue w
            /\ outbound (snd (process_webhook request w)) = outbound w ++ [(p, notice)])).
Proof.
  destruct request as [data|e].
  2:{ split; [reflexivity|]. split; [reflexivity|]. left. split; reflexivity. }
  destruct (extract_message_data_run data) as ([[message user_phone] md] & l & Hrun).
  assert (Hx : fst (extract_message_data data w) = Return (message, user_phone, md))
    by now rewrite Hrun.
  pose proof (extract_message_data_returns data w _ _ (Hrun w)) as [Hgm Hgp].
  simpl in Hgm, Hgp.
  destruct message as [m|].
  2:{ destruct (process_webhook_no_pair data w None user_phone md Hx (or_introl eq_refl))
        as (l' & ->). split; [reflexivity|]. split; [reflexivity|]. left. split; reflexivity. }
  destruct user_phone as [p|].
  2:{ destruct (process_webhook_no_pair data w (Some m) None md Hx (or_intror eq_refl))
        as (l' & ->). split; [reflexivity|]. split; [reflexivity|]. left. split; reflexivity. }
  specialize (Hgm m eq_refl). specialize (Hgp p eq_refl).
  destruct (Nat.le_gt_cases 10 (length (pruned w p))) as [Hge|Hlt].
  - destruct (process_webhook_denied_effect data w m p md Hx Hge)
      as (w' & -> & Hq & Hses & [Hout|Hout] & _); simpl.
    + split; [reflexivity|]. split; [exact Hses|]. left. auto.
    + split; [reflexivity|]. split; [exact Hses|]. right. right.
      exists p, rate_limit_msg. split; [left; reflexivity|]. split; assumption.
  - destruct (redis_client w && redis_up w) eqn:Hredis.
    + apply andb_true_iff in Hredis as [Hrc Hru].
      destruct (process_webhook_queued data w m p md Hx Hlt Hrc Hru)
        as (w' & -> & Hq & Hout & _ & Hses & _). simpl.
      split; [reflexivity|]. split; [exact Hses|]. right. left.
      eexists. split; [|split; [exact Hq|exact Hout]].
      split; [exact Hgm|]. split; [exact Hgp|reflexivity].
    + destruct (process_webhook_not_queued data w m p md Hx Hlt Hredis)
        as (w' & -> & Hq & Hses & _ & [Hout|Hout] & _); simpl.
      * split; [reflexivity|]. split; [exact Hses|]. left. auto.
      * split; [reflexivity|]. split; [exact Hses|]. right. right.
        eexists p, _. split; [|split; [exact Hq|exact Hout]].
        unfold producer_notices.
        destruct (redis_client w); [right; left; reflexivity|right; right; left; reflexivity].
Qed.

End ProducerPaths.

(** ** One delivery after the other *)

Section Deliveries.
Import WhatsAppMessageHandler.

#[local] Arguments Nat.leb : simpl never.

(** What one delivery does to the windows and to the queue: nothing; or
    the window of one sender is pruned and, if fewer than 10 timestamps
    were left, the current time recorded, and at most one job is queued,
    for that sender and only in the second case. *)
Lemma process_webhook_step request w :
  exists w',
    process_webhook request w = (Return (mkResponse 200), w')
    /\ ((message_counts w' = message_counts w /\ queue w' = queue w)
        \/ exists p,
             message_counts w'
             = <[p := if (10 <=? length (pruned w p))%nat then pruned w p
                      else pruned w p ++ [clock w]]> (message_counts w)
             /\ (queue w' = queue w
                 \/ ((length (pruned w p) < 10)%nat
                     /\ exists job, job_user_phone job = p /\ queue w' = queue w ++ [job]))).
Proof.
  destruct request as [data|e].
  2:{ eexists. split; [reflexivity|]. left. split; reflexivity. }
  destruct (extract_message_data_run data) as ([[message user_phone] md] & l & Hrun).
  assert (Hx : fst (extract_message_data data w) = Return (message, user_phone, md))
    by now rewrite Hrun.
  destruct message as [m|].
  2:{ destruct (process_webhook_no_pair data w None user_phone md Hx (or_introl eq_refl))
        as (l' & ->). eexists. split; [reflexivity|]. left. split; reflexivity. }
  destruct user_phone as [p|].
  2:{ destruct (process_webhook_no_pair data w (Some m) None md Hx (or_intror eq_refl))
        as (l' & ->). eexists. split; [reflexivity|]. left. split; reflexivity. }
  destruct (Nat.le_gt_cases 10 (length (pruned w p))) as [Hge|Hlt].
  - destruct (process_webhook_denied_effect data w m p md Hx Hge)
      as (w' & -> & Hq & _ & _ & Hmc).
    exists w'. split; [reflexivity|]. right. exists p.
    apply Nat.leb_le in Hge. rewrite Hge. auto.
  - assert (Hlt' : (10 <=? length (pruned w p))%nat = false) by now apply Nat.leb_gt.
    destruct (redis_client w && redis_up w) eqn:Hredis.
    + apply andb_true_iff in Hredis as [Hrc Hru].
      destruct (process_webhook_queued data w m p md Hx Hlt Hrc Hru)
        as (w' & -> & Hq & _ & _ & _ & Hmc).
      exists w'. split; [reflexivity|]. right. exists p. rewrite Hlt'.
      split; [exact Hmc|]. right. split; [exact Hlt|].
      eexists. split; [|exact Hq]. reflexivity.
    + destruct (process_webhook_not_queued data w m p md Hx Hlt Hredis)
        as (w' & -> & Hq & _ & _ & _ & _ & Hmc).
      exists w'. split; [reflexivity|]. right. exists p. rewrite Hlt'. auto.
Qed.

(** The invariant of a run of deliveries: from any cutoff a later check
    can use, the window of a sender holds at least the times of the
    sender's jobs queued so far ([seen]); and no rolling window holds more
    than ten of those. *)
Lemma deliver_each_bound events :
  forall (w : World) (t0 : Z) (seen : str -> list Z),
    nondecreasing_from t0 events ->
    (forall p x, t0 - 60 * 1000000 <= x ->
       (length (List.filter (fun a => (x <? a)%Z) (seen p))
        <= length (List.filter (fun a => (x <? a)%Z) (stamps w p)))%nat) ->
    (forall p start, (length (List.filter (in_window start) (seen p)) <= 10)%nat) ->
    forall p start,
      (length (List.filter (in_window start)
                 (seen p ++ queued_at p events (fst (deliver_each events w)))) <= 10)%nat.
Proof.
  induction events as [|[t request] rest IH]; intros w t0 seen Hmono Hwin Hbound p start.
  - simpl. rewrite app_nil_r. apply Hbound.
  - destruct Hmono as [Ht Hmono]. simpl deliver_each.
    destruct (process_webhook_step request (set_clock t w)) as (w1 & Hrun & Hstep).
    rewrite Hrun.
    destruct (deliver_each rest w1) as [added w2] eqn:Hrest.
    simpl fst. simpl queued_at. rewrite app_assoc.
    change (queue (set_clock t w)) with (queue w) in Hstep.
    change (message_counts (set_clock t w)) with (message_counts w) in Hstep.
    change (clock (set_clock t w)) with t in Hstep.
    set (new := drop (length (queue w)) (queue w1)).
    set (seen' := fun p0 =>
           seen p0 ++ List.map (fun _ : Job => t)
                        (List.filter (fun job => str_eqb p0 (job_user_phone job)) new)).
    change (length (List.filter (in_window start)
                      (seen' p ++ queued_at p rest added)) <= 10)%nat.
    replace added with (fst (deliver_each rest w1)) by now rewrite Hrest.
    assert (Hsame : forall w', message_counts w' = message_counts w -> queue w' = queue w ->
              w' = w1 ->
              (forall p0 x, t - 60 * 1000000 <= x ->
                 (length (List.filter (fun a => (x <? a)%Z) (seen' p0))
                  <= length (List.filter (fun a => (x <? a)%Z) (stamps w1 p0)))%nat)
              /\ (forall p0 start0,
                    (length (List.filter (in_window start0) (seen' p0)) <= 10)%nat)).
    { intros w' Hmc Hq ->.
      assert (Hnew : new = []) by (unfold new; rewrite Hq; apply drop_all).
      unfold seen'. rewrite Hnew. simpl. split.
      - intros p0 x Hx. rewrite app_nil_r. unfold stamps. rewrite Hmc. apply Hwin. lia.
      - intros p0 start0. rewrite app_nil_r. apply Hbound. }
    destruct Hstep as [[Hmc Hq] | (q & Hmc & Hq)].
    + destruct (Hsame w1 Hmc Hq eq_refl) as [Hwin' Hbound'].
      apply (IH w1 t seen' Hmono Hwin' Hbound').
    + change (pruned (set_clock t w) q)
        with (List.filter (fun ts => t - 60 * 1000000 <? ts) (stamps w q)) in *.
      set (pr := List.filter (fun ts => t - 60 * 1000000 <? ts) (stamps w q)) in *.
      assert (Hq1 : stamps w1 q = if (10 <=? length pr)%nat then pr else pr ++ [t]).
      { unfold stamps at 1. now rewrite Hmc, lookup_insert_eq. }
      assert (Hother : forall p0, p0 <> q -> stamps w1 p0 = stamps w p0).
      { intros p0 Hne. unfold stamps. rewrite Hmc. now rewrite lookup_insert_ne by congruence. }
      assert (Hkept : forall p0 x, t - 60 * 1000000 <= x ->
                (length (List.filter (fun a => (x <? a)%Z) (seen p0))
                 <= length (List.filter (fun a => (x <? a)%Z) (stamps w1 p0)))%nat).
      { intros p0 x Hx. destruct (decide (p0 = q)) as [->|Hne].
        - rewrite Hq1. specialize (Hwin q x ltac:(lia)).
          assert (Hpr : List.filter (fun a => (x <? a)%Z) pr
                        = List.filter (fun a => (x <? a)%Z) (stamps w q))
            by (unfold pr; apply filter_after_filter; lia).
          destruct (10 <=? length pr)%nat.
          + rewrite Hpr. exact Hwin.
          + rewrite List.filter_app, length_app, Hpr. lia.
        - rewrite (Hother p0 Hne). apply Hwin. lia. }
      destruct Hq as [Hq | (Hlt & job & Hjob & Hq)].
      * (* nothing queued *)
        assert (Hnew : new = []) by (unfold new; rewrite Hq; apply drop_all).
        apply (IH w1 t seen' Hmono).
        -- intros p0 x Hx. unfold seen'. rewrite Hnew. simpl. rewrite app_nil_r.
           now apply Hkept.
        -- intros p0 start0. unfold seen'. rewrite Hnew. simpl. rewrite app_nil_r.
           apply Hbound.
      * (* one job queued, for [q] *)
        assert (Hnew : new = [job]).
        { unfold new. rewrite Hq. now rewrite drop_app_length. }
        assert (Hlt' : (10 <=? length pr)%nat = false) by now apply Nat.leb_gt.
        rewrite Hlt' in Hq1.
        assert (Hseen' : forall p0,
                  seen' p0 = seen p0 ++ (if bool_decide (p0 = q) then [t] else [])).
        { intros p0. unfold seen'. rewrite Hnew. simpl. unfold str_eqb. rewrite Hjob.
          destruct (bool_decide (p0 = q)); reflexivity. }
        apply (IH w1 t seen' Hmono).
        -- intros p0 x Hx. rewrite Hseen'.
           destruct (bool_decide (p0 = q)) eqn:Hp0.
           ++ apply bool_decide_eq_true in Hp0. subst p0.
              rewrite Hq1, !List.filter_app, !length_app.
              specialize (Hwin q x ltac:(lia)).
              assert (Hpr : List.filter (fun a => (x <? a)%Z) pr
                            = List.filter (fun a => (x <? a)%Z) (stamps w q))
                by (unfold pr; apply filter_after_filter; lia).
              rewrite Hpr. lia.
           ++ rewrite app_nil_r. now apply Hkept.
        -- intros p0 start0. rewrite Hseen'.
           destruct (bool_decide (p0 = q)) eqn:Hp0; [|rewrite app_nil_r; apply Hbound].
           apply bool_decide_eq_true in Hp0. subst p0.
           rewrite List.filter_app, length_app. simpl List.filter.
           destruct (in_window start0 t) eqn:Hin; [|simpl; specialize (Hbound q start0); lia].
           simpl length.
           assert (Hle : (length (List.filter (in_window start0) (seen q))
                          <= length (List.filter (fun a => (t - 60 * 1000000 <? a)%Z) (seen q)))%nat).
           { apply filter_length_le. intros a Ha.
             unfold in_window in Ha, Hin.
             apply andb_true_iff in Ha as [Ha1 _]. apply andb_true_iff in Hin as [_ Hin2].
             apply Z.leb_le in Ha1. apply Z.ltb_lt in Hin2. apply Z.ltb_lt. lia. }
           specialize (Hwin q (t - 60 * 1000000) ltac:(lia)).
           fold pr in Hwin. lia.
Qed.

End Deliveries.

(** ** C2 *)

Section RateLimit.
Import WhatsAppMessageHandler.

#[local] Arguments Nat.leb : simpl never.

(** C2, as the spec words it, fails at the edge of the window.  After ten
    messages of one sender at seconds 0 to 9, at second 60 no timestamp
    of the sender's window is older than now minus 60 seconds (the oldest
    is 60 seconds old to the microsecond), so all ten remain under the
    rule of the claim and the check should deny.  The code drops the
    oldest, allows the message and records it; and over the eleven
    deliveries the producer queues eleven messages of the sender, the
    first and the last 60 seconds apart. *)
Lemma sixty_second_old_stamp_pruned :
  stamps full_window_world sample_phone
  = List.map (fun i => i * 1000000) [0; 1; 2; 3; 4; 5; 6; 7; 8; 9]
  /\ clock full_window_world = 60 * 1000000
  /\ Forall (fun ts => clock full_window_world - 60 * 1000000 <= ts)
       (stamps full_window_world sample_phone)
  /\ fst (check_rate_limit sample_phone full_window_world) = Return true
  /\ stamps (snd (check_rate_limit sample_phone full_window_world)) sample_phone
     = List.map (fun i => i * 1000000) [1; 2; 3; 4; 5; 6; 7; 8; 9; 60]
  /\ queued_at sample_phone edge_deliveries (fst (deliver_each edge_deliveries fresh_world))
     = List.map (fun i => i * 1000000) [0; 1; 2; 3; 4; 5; 6; 7; 8; 9; 60].
Proof.
  vm_compute. repeat split; try reflexivity.
  repeat constructor; discriminate.
Qed.

(** C2 (amended). For every sender, a rate-limit check first prunes the
    sender's window to the timestamps later than now minus 60 seconds (a
    timestamp 60 seconds old or older is dropped); if at least 10 remain
    it denies and records nothing, otherwise it records the current time
    and allows; the windows of other senders are not touched.  For a
    denied message the producer answers 200, puts no job on the queue and
    leaves the pruned window as it is, and, with the gateway credentials
    configured, sends the slow-down notice directly.  So, over any run of
    webhook deliveries to one handler during which the clock does not
    run backwards, whatever the payloads and whatever the windows held at
    the start, no sender has more than 10 messages accepted (queued) in
    any rolling 60-second window [[start, start + 60 s)]. *)
Theorem rate_limit_allows_at_most_ten (events : list (Z * outcome value)) (t0 : Z)
    (w : World) :
  nondecreasing_from t0 events ->
  (forall (w1 : World) (sender : str),
     (forall ts, In ts (pruned w1 sender)
                 <-> In ts (stamps w1 sender) /\ clock w1 - 60 * 1000000 < ts)
     /\ ((10 <= length (pruned w1 sender))%nat ->
         fst (check_rate_limit sender w1) = Return false
         /\ stamps (snd (check_rate_limit sender w1)) sender = pruned w1 sender)
     /\ ((length (pruned w1 sender) < 10)%nat ->
         fst (check_rate_limit sender w1) = Return true
         /\ stamps (snd (check_rate_limit sender w1)) sender
            = pruned w1 sender ++ [clock w1])
     /\ (forall other, other <> sender ->
           stamps (snd (check_rate_limit sender w1)) other = stamps w1 other))
  /\ (forall (data : value) (w1 : World) (m p : str) (md : value),
        fst (extract_message_data data w1) = Return (Some m, Some p, md) ->
        fst (check_rate_limit p w1) = Return false ->
        fst (process_webhook (Return data) w1) = Return (mkResponse 200)
        /\ queue (snd (process_webhook (Return data) w1)) = queue w1
        /\ stamps (snd (process_webhook (Return data) w1)) p = pruned w1 p
        /\ (truthy_opt (META_ACCESS_TOKEN w1) = true ->
            truthy_opt (META_PHONE_NUMBER_ID w1) = true ->
            outbound (snd (process_webhook (Return data) w1))
            = outbound w1 ++ [(p, rate_limit_msg)]))
  /\ (forall (sender : str) (start : Z),
        (length (List.filter (in_window start)
                   (queued_at sender events (fst (deliver_each events w)))) <= 10)%nat).
Proof.
  intros Hmono. split; [|split].
  - intros w1 sender.
    destruct (check_rate_limit sender w1) as [verdict w2] eqn:Hc.
    destruct (stamps_after_check _ _ _ _ Hc) as [Hs Hother].
    destruct (check_rate_limit_run sender w1) as (l & Hrun).
    rewrite Hrun in Hc. injection Hc as <- _. simpl fst. simpl snd.
    split; [|split; [|split]].
    + intros ts. unfold pruned. rewrite filter_In, Z.ltb_lt. tauto.
    + intros H10. apply Nat.leb_le in H10. rewrite Hs, H10. auto.
    + intros H10. apply Nat.leb_gt in H10. rewrite Hs, H10. auto.
    + exact Hother.
  - intros data w1 m p md Hx Hdeny.
    assert (Hge : (10 <= length (pruned w1 p))%nat).
    { destruct (check_rate_limit_run p w1) as (l & Hrun).
      rewrite Hrun in Hdeny. simpl in Hdeny. injection Hdeny as Hdeny.
      apply negb_false_iff in Hdeny. now apply Nat.leb_le. }
    destruct (process_webhook_denied_effect data w1 m p md Hx Hge)
      as (w' & Hrun & Hq & _ & _ & Hmc).
    split; [now rewrite Hrun|]. split; [now rewrite Hrun|].
    split.
    + rewrite Hrun. unfold stamps at 1. simpl. now rewrite Hmc, lookup_insert_eq.
    + intros Ha Hpid.
      destruct (extract_message_data_run data) as (x & l & Hex).
      pose proof (extract_message_data_returns data w1 _ _ (Hex w1)) as [Hgm Hgp].
      rewrite Hex in Hx. simpl in Hx. injection Hx as ->. simpl in Hgm, Hgp.
      destruct (Hgm m eq_refl) as [Hm _].
      assert (Hp : p <> []).
      { destruct (Hgp p eq_refl) as [[H8 _] _]. intros ->. simpl in H8. lia. }
      destruct (process_webhook_denied data w1 m p md) as (w'' & -> & _ & Hout); auto.
      now rewrite Hex.
  - intros sender start.
    apply (deliver_each_bound events w t0 (fun _ => []) Hmono).
    + intros p x _. simpl. lia.
    + intros p s. simpl. lia.
Qed.

Lemma rate_limit_allows_at_most_ten_witness :
  nondecreasing_from 0 sample_deliveries
  /\ (forall (w1 : World) (sender : str),
        (forall ts, In ts (pruned w1 sender)
                    <-> In ts (stamps w1 sender) /\ clock w1 - 60 * 1000000 < ts)
        /\ ((10 <= length (pruned w1 sender))%nat ->
            fst (check_rate_limit sender w1) = Return false
            /\ stamps (snd (check_rate_limit sender w1)) sender = pruned w1 sender)
        /\ ((length (pruned w1 sender) < 10)%nat ->
            fst (check_rate_limit sender w1) = Return true
            /\ stamps (snd (check_rate_limit sender w1)) sender
               = pruned w1 sender ++ [clock w1])
        /\ (forall other, other <> sender ->
              stamps (snd (check_rate_limit sender w1)) other = stamps w1 other))
  /\ (forall (data : value) (w1 : World) (m p : str) (md : value),
        fst (extract_message_data data w1) = Return (Some m, Some p, md) ->
        fst (check_rate_limit p w1) = Return false ->
        fst (process_webhook (Return data) w1) = Return (mkResponse 200)
        /\ queue (snd (process_webhook (Return data) w1)) = queue w1
        /\ stamps (snd (process_webhook (Return data) w1)) p = pruned w1 p
        /\ (truthy_opt (META_ACCESS_TOKEN w1) = true ->
            truthy_opt (META_PHONE_NUMBER_ID w1) = true ->
            outbound (snd (process_webhook (Return data) w1))
            = outbound w1 ++ [(p, rate_limit_msg)]))
  /\ (forall (sender : str) (start : Z),
        (length (List.filter (in_window start)
                   (queued_at sender sample_deliveries
                      (fst (deliver_each sample_deliveries fresh_world)))) <= 10)%nat).
Proof.
  split; [simpl; lia|].
  apply (rate_limit_allows_at_most_ten sample_deliveries 0 fresh_world).
  simpl; lia.
Defined.

(** The burst at the rate limiter: the first ten messages are allowed, the
    eleventh is not. *)
Example eleventh_message_denied :
  fst (check_each sample_burst fresh_world)
  = List.repeat (Return true) 10 ++ [Return false].
Proof. vm_compute. reflexivity. Qed.

(** The burst at the producer: each of the first ten deliveries puts one
    job on the queue, the eleventh none, and it is answered with the
    notice. *)
Example eleventh_delivery_not_queued :
  List.map (@length Job) (fst (deliver_each sample_deliveries fresh_world))
  = List.repeat 1%nat 10 ++ [0%nat]
  /\ queued_at sample_phone sample_deliveries
       (fst (deliver_each sample_deliveries fresh_world))
     = List.map (fun i => i * 1000000) [0; 1; 2; 3; 4; 5; 6; 7; 8; 9]
  /\ outbound (snd (deliver_each sample_deliveries fresh_world))
     = [(sample_phone, rate_limit_msg)].
Proof. vm_compute. repeat split. Qed.

(** Why the clock must not run backwards: the delivery at second 100
    empties the window, and after the clock is set back to second 10 an
    eleventh message is accepted within the window that opens at second
    0. *)
Example clock_set_back_allows_eleventh :
  queued_at sample_phone set_back_deliveries
    (fst (deliver_each set_back_deliveries fresh_world))
  = List.map (fun i => i * 1000000) [0; 1; 2; 3; 4; 5; 6; 7; 8; 9; 100; 10]
  /\ length (List.filter (in_window 0)
               (queued_at sample_phone set_back_deliveries
                  (fst (deliver_each set_back_deliveries fresh_world)))) = 11%nat.
Proof. vm_compute. split; reflexivity. Qed.

End RateLimit.

(** ** C4 *)

Section Extract.
Import WhatsAppMessageHandler.

(** A value that is not a string, given to the cleaning or to the
    normalising, ends it with an exception. *)
Lemma validate_and_clean_message_not_str v w :
  truthy v = true -> is_str v = false ->
  validate_and_clean_message v w = (Raise AttributeError, w).
Proof.
  intros Ht Hs. unfold validate_and_clean_message. rewrite Ht.
  destruct v; try discriminate; reflexivity.
Qed.

Lemma validate_phone_number_not_str v w :
  truthy v = true -> is_str v = false ->
  validate_phone_number v w = (Raise TypeError, w).
Proof.
  intros Ht Hs. unfold validate_phone_number. rewrite Ht.
  destruct v; try discriminate; reflexivity.
Qed.

(** With the status probe through and no status marker found: a payload
    on which the first pair a pattern yields is not of two strings is
    answered with nothing, and the exception is logged as an error. *)
Lemma extract_message_data_not_strings data probe mv pv :
  status_probe data = Return probe ->
  py_in (pystr "statuses") probe = Return false ->
  first_match data = Some (mv, pv) ->
  is_str mv && is_str pv = false ->
  exists l, forall w,
    extract_message_data data w
    = (Return (None, None, empty_dict), set_log (log w ++ l ++ [extraction_error]) w).
Proof.
  intros Hprobe Hin Hfirst Hstr.
  pose proof (run_patterns_first extraction_patterns data
                (patterns_raise_lookup_errors data) (VNone, VNone) eq_refl) as Hrun.
  unfold first_match in Hfirst. rewrite Hfirst in Hrun.
  pose proof (first_yield_truthy _ _ _ _ Hfirst) as Ht.
  apply andb_true_iff in Ht as [Htm Htp].
  destruct (read_metadata_run data) as (md & l1 & Hmd).
  assert (Hstart : forall w,
    extract_message_data data w
    = let (o, w') :=
        (let (o, w') := validate_and_clean_message mv (set_log (log w ++ l1) w) in
         match o with
         | Return message =>
             (user_phone <- validate_phone_number pv ;;
              ret (message, user_phone, md))%py w'
         | Raise e => (Raise e, w')
         end) in
      match o with
      | Return a => (Return a, w')
      | Raise e =>
          (Return (None, None, empty_dict), set_log (log w' ++ [extraction_error]) w')
      end).
  { intros w. unfold extract_message_data.
    unfold try_except at 1. unfold try_except_on at 1.
    unfold bind at 1. unfold lift at 1. rewrite Hprobe.
    unfold bind at 1. unfold lift at 1. rewrite Hin. cbv iota.
    unfold bind at 1. unfold lift at 1. rewrite Hrun. cbv iota beta.
    rewrite Htm, Htp. change (negb true || negb true) with false. cbv iota.
    unfold bind at 1. rewrite Hmd.
    unfold bind at 1. reflexivity. }
  destruct (is_str mv) eqn:Hm.
  - (* the message is a string, the sender is not *)
    simpl in Hstr. destruct mv as [ | | | |m| | ]; try discriminate.
    destruct (validate_and_clean_message_run m) as (l2 & Hclean).
    exists (l1 ++ l2). intros w. rewrite Hstart, Hclean.
    unfold bind at 1. rewrite (validate_phone_number_not_str pv _ Htp Hstr).
    rewrite !set_log_app. simpl. now rewrite <- !app_assoc.
  - exists l1. intros w. rewrite Hstart.
    rewrite (validate_and_clean_message_not_str mv _ Htm Hm).
    now rewrite !set_log_app.
Qed.




(** The sample message, read, cleaned and normalised. *)
Example sample_payload_extracted :
  first_match sample_payload
  = Some (VStr (pystr "  hi   there "), VStr (pystr "+65 9123 4567"))
  /\ exists md,
       fst (extract_message_data sample_payload fresh_world)
       = Return (Some (pystr "hi there"), Some (pystr "+6591234567"), md).
Proof. split; [reflexivity|]. eexists. vm_compute. reflexivity. Qed.

(** A text body that is a number: the standard pattern yields it with
    the sender, nothing is extracted, the error is logged and no job is
    queued. *)
Example numeric_body_dropped :
  status_probe numeric_body_payload = Return numeric_body_probe
  /\ first_match numeric_body_payload = Some (VInt 5, VStr sample_phone)
  /\ extract_message_data numeric_body_payload fresh_world
     = (Return (None, None, empty_dict), set_log [extraction_error] fresh_world)
  /\ queue (snd (process_webhook (Return numeric_body_payload) fresh_world)) = [].
Proof. vm_compute. repeat split. Qed.

End Extract.

(** ** The rate limiter on its own *)

Section LimiterAlone.
Import WhatsAppMessageHandler.

(** X10. The rate limiter called directly, one check after the other on
    a handler that starts with no windows and while the clock does not
    run backwards: no sender is allowed more than 10 times in any rolling
    60-second window [[start, start + 60 s)], whatever the order in which
    the senders come. *)
Theorem check_rate_limit_at_most_ten (events : list (Z * str)) (t0 : Z) (w : World) :
  message_counts w = ∅ ->
  nondecreasing_from t0 events ->
  forall (sender : str) (start : Z),
    (length (List.filter (in_window start)
               (accepted_at sender events (fst (check_each events w)))) <= 10)%nat.
Proof.
  intros Hempty Hmono sender start.
  apply (check_each_bound events w t0 (fun _ => []) Hmono).
  - intros p x _. unfold stamps. rewrite Hempty, lookup_empty. reflexivity.
  - intros p s. simpl. lia.
Qed.

Lemma check_rate_limit_at_most_ten_witness :
  message_counts fresh_world = ∅
  /\ nondecreasing_from 0 sample_burst
  /\ forall (sender : str) (start : Z),
       (length (List.filter (in_window start)
                  (accepted_at sender sample_burst (fst (check_each sample_burst fresh_world))))
        <= 10)%nat.
Proof.
  split; [reflexivity|].
  split; [simpl; lia|].
  apply (check_rate_limit_at_most_ten sample_burst 0 fresh_world).
  - reflexivity.
  - simpl; lia.
Defined.

End LimiterAlone.

(** ** The fallback manager at its edges *)

Section FallbackEdges.
Import FallbackManager.

Lemma truthy_opt_nonempty (s : str) : s <> [] -> truthy_opt (Some s) = true.
Proof. intros H. simpl. apply negb_true_iff, bool_decide_eq_false. exact H. Qed.

(** X11. While the session store does not answer, a call with a session
    id never escalates, whatever the session's error count: the failed
    lookup is taken as "do not escalate", the failed increment ends the
    call, and the reply is the last-resort sentence, for every category.
    No session is created or changed, and the errors are logged. *)
Theorem fallback_with_store_down (error_type sid : str) (w : World) :
  sid <> [] ->
  store_up w = false ->
  exists w',
    get_fallback_response error_type (Some sid) w = (Return last_resort_response, w')
    /\ sessions w' = sessions w
    /\ log w' = log w ++ [ (ERROR, "Error in escalation check: {str(e)}"%string);
                           (INFO,
                            "Fallback response used: {error_type} for session {session_id}"%string);
                           (ERROR, "Error in fallback system: {str(e)}"%string) ]
    /\ ~ In last_resort_response escalation_responses.
Proof.
  intros Hsid Hdown.
  unfold get_fallback_response, try_except, try_except_on.
  rewrite (truthy_opt_nonempty sid Hsid).
  unfold bind at 1.
  assert (Hesc : should_escalate sid error_type w
                 = (Return false,
                    set_log (log w ++ [(ERROR, "Error in escalation check: {str(e)}"%string)]) w)).
  { unfold should_escalate, try_except, try_except_on, bind, get_session.
    rewrite Hdown. reflexivity. }
  rewrite Hesc. cbv iota.
  set (w1 := set_log _ w).
  unfold bind at 1. rewrite responses_item_general. fold (canned_replies error_type).
  destruct (random_choice_run (canned_replies error_type) w1) as (r & Hr & _).
  { intros E. pose proof (canned_replies_three error_type) as H3.
    rewrite E in H3. discriminate. }
  unfold bind at 1. rewrite Hr.
  unfold bind at 1. unfold logger at 1.
  unfold bind at 1. unfold increment_error_count, bind, get_session.
  change (store_up (set_log _ (set_entropy _ w1))) with (store_up w). rewrite Hdown.
  cbv iota. unfold logger, ret.
  eexists. split; [reflexivity|]. split; [reflexivity|]. split.
  - simpl. rewrite <- !app_assoc. reflexivity.
  - vm_compute. intros [H|[H|[H|[]]]]; discriminate.
Qed.

Lemma fallback_with_store_down_witness :
  pystr "whatsapp_+6591234567" <> []
  /\ store_up (set_sessions {[ sample_session := mkSession (mkContext 7 None None) ]}
                 store_down_world) = false
  /\ exists w',
       get_fallback_response (pystr "agent_error") (Some (pystr "whatsapp_+6591234567"))
         (set_sessions {[ sample_session := mkSession (mkContext 7 None None) ]}
            store_down_world)
       = (Return last_resort_response, w')
       /\ sessions w'
          = sessions (set_sessions {[ sample_session := mkSession (mkContext 7 None None) ]}
                        store_down_world)
       /\ log w'
          = log (set_sessions {[ sample_session := mkSession (mkContext 7 None None) ]}
                   store_down_world)
            ++ [ (ERROR, "Error in escalation check: {str(e)}"%string);
                 (INFO,
                  "Fallback response used: {error_type} for session {session_id}"%string);
                 (ERROR, "Error in fallback system: {str(e)}"%string) ]
       /\ ~ In last_resort_response escalation_responses.
Proof.
  split; [vm_compute; discriminate|].
  split; [reflexivity|].
  apply (fallback_with_store_down (pystr "agent_error") (pystr "whatsapp_+6591234567")
           (set_sessions {[ sample_session := mkSession (mkContext 7 None None) ]}
              store_down_world)).
  - vm_compute; discriminate.
  - reflexivity.
Defined.

(** X12. A call without a session id (none, or an empty one) never
    escalates and never reaches the session store: the reply is one of
    the three canned replies of the category ([general_error]'s for a
    category the table does not know), and no error is counted. *)
Theorem fallback_without_session (error_type : str) (session_id : option str) (w : World) :
  truthy_opt session_id = false ->
  exists resp w',
    get_fallback_response error_type session_id w = (Return resp, w')
    /\ In resp (canned_replies error_type)
    /\ ~ In resp escalation_responses
    /\ sessions w' = sessions w
    /\ log w' = log w ++ [ (INFO,
                            "Fallback response used: {error_type} for session {session_id}"%string) ].
Proof.
  intros Hf.
  unfold get_fallback_response, try_except, try_except_on, bind.
  assert (He : (match session_id with
                | Some sid => if truthy_opt session_id then should_escalate sid error_type
                              else ret false
                | None => ret false
                end) w = (Return false, w)).
  { destruct session_id; [rewrite Hf|]; reflexivity. }
  rewrite He, responses_item_general. fold (canned_replies error_type).
  destruct (random_choice_run (canned_replies error_type) w) as (r & Hr & Hin).
  { intros E. pose proof (canned_replies_three error_type) as H3.
    rewrite E in H3. discriminate. }
  rewrite Hr. unfold logger at 1.
  assert (Hi : forall w0, (match session_id with
                | Some sid => if truthy_opt session_id then increment_error_count sid
                              else ret tt
                | None => ret tt
                end) w0 = (Return tt, w0)).
  { intros w0. destruct session_id; [rewrite Hf|]; reflexivity. }
  rewrite Hi. exists r. eexists. split; [reflexivity|].
  split; [exact Hin|]. split; [now apply (canned_not_escalation error_type)|].
  split; reflexivity.
Qed.

Lemma fallback_without_session_witness :
  truthy_opt (Some []) = false
  /\ exists resp w',
       get_fallback_response (pystr "timeout") (Some []) (world_with_errors [] 9)
       = (Return resp, w')
       /\ In resp (canned_replies (pystr "timeout"))
       /\ ~ In resp escalation_responses
       /\ sessions w' = sessions (world_with_errors [] 9)
       /\ log w' = log (world_with_errors [] 9)
                   ++ [ (INFO,
                         "Fallback response used: {error_type} for session {session_id}"%string) ].
Proof.
  split; [reflexivity|].
  apply (fallback_without_session (pystr "timeout") (Some []) (world_with_errors [] 9)).
  reflexivity.
Defined.

End FallbackEdges.

(** ** The worker, job by job *)

Section WorkerJobs.

#[local] Arguments send_whatsapp_message : simpl never.


(** X14. A reply within the limit goes out as it is: a non-empty reply of
    at most 4096 characters (4096 included) is sent to the sender of the
    job unchanged. *)
Theorem worker_sends_short_response
    (orchestrate_chat : str -> str -> M (option str))
    (job : Job) (w w1 : World) (response : str) :
  orchestrate_chat (job_message job) (job_session_id job)
    (snd (logger INFO "Processing job for session: {session_id}" w))
  = (Return (Some response), w1) ->
  response <> [] ->
  (length response <= 4096)%nat ->
  truthy_opt (META_ACCESS_TOKEN w1) = true ->
  truthy_opt (META_PHONE_NUMBER_ID w1) = true ->
  exists rest,
    outbound (snd (process_job orchestrate_chat job w))
    = outbound w1 ++ (job_user_phone job, response) :: rest.
Proof.
  intros Horch Hne Hshort Ha Hp.
  cbv [logger snd] in Horch.
  unfold process_job, try_except, try_except_on, bind.
  unfold logger at 1. rewrite Horch.
  assert (Ht : truthy_opt (Some response) = true).
  { simpl. apply negb_true_iff, bool_decide_eq_false. exact Hne. }
  rewrite Ht. change (negb true) with false. cbv iota.
  unfold ret at 1. cbv zeta.
  assert (Hlt : (4096 <? length (default [] (Some response)))%nat = false).
  { apply Nat.ltb_ge. exact Hshort. }
  rewrite Hlt. unfold logger at 1. unfold ret at 1.
  set (w2 := set_log _ w1).
  destruct (send_whatsapp_message_outbound (job_user_phone job)
              (default [] (Some response)) w2 Ha Hp)
    as (o & w3 & Hsend & Hout & Ha3 & Hp3 & Hg3 & [-> | [-> Hg]]).
  - rewrite Hsend. exists []. exact Hout.
  - rewrite Hsend. cbv iota. unfold logger at 1.
    set (w4 := set_log _ w3).
    destruct (send_whatsapp_message_outbound (job_user_phone job) unexpected_error_msg w4)
      as (o' & w5 & Hsend' & Hout' & _);
      [change (truthy_opt (META_ACCESS_TOKEN w3) = true); rewrite Ha3; exact Ha
      |change (truthy_opt (META_PHONE_NUMBER_ID w3) = true); rewrite Hp3; exact Hp|].
    rewrite Hsend'. exists [(job_user_phone job, unexpected_error_msg)].
    destruct o'; simpl snd; rewrite Hout'; unfold w4; simpl outbound; rewrite Hout;
      rewrite <- app_assoc; reflexivity.
Qed.

Lemma worker_sends_short_response_witness :
  exact_orchestrator (job_message sample_job) (job_session_id sample_job)
    (snd (logger INFO "Processing job for session: {session_id}" fresh_world))
  = (Return (Some full_reply),
     snd (logger INFO "Processing job for session: {session_id}" fresh_world))
  /\ full_reply <> []
  /\ (length full_reply <= 4096)%nat
  /\ truthy_opt (META_ACCESS_TOKEN fresh_world) = true
  /\ truthy_opt (META_PHONE_NUMBER_ID fresh_world) = true
  /\ exists rest,
       outbound (snd (process_job exact_orchestrator sample_job fresh_world))
       = outbound (snd (logger INFO "Processing job for session: {session_id}" fresh_world))
         ++ (job_user_phone sample_job, full_reply) :: rest.
Proof.
  split; [reflexivity|].
  split; [vm_compute; discriminate|].
  split; [vm_compute; lia|].
  split; [reflexivity|].
  split; [reflexivity|].
  apply (worker_sends_short_response exact_orchestrator sample_job fresh_world
           (snd (logger INFO "Processing job for session: {session_id}" fresh_world))
           full_reply).
  - reflexivity.
  - vm_compute; discriminate.
  - vm_compute; lia.
  - reflexivity.
  - reflexivity.
Defined.

(** The worker with an orchestrator that fails: the failure is logged,
    the sender gets a canned reply for [general_error], and the error is
    counted against the session. *)
Example worker_answers_failed_job :
  fst (process_job failing_orchestrator sample_job fresh_world) = Return tt
  /\ (exists reply,
        outbound (snd (process_job failing_orchestrator sample_job fresh_world))
        = [(sample_phone, reply)]
        /\ In reply (canned_replies (pystr "general_error")))
  /\ error_count_of (snd (process_job failing_orchestrator sample_job fresh_world))
       sample_session = 1.
Proof.
  split; [vm_compute; reflexivity|]. split.
  - eexists. split; [vm_compute; reflexivity|]. vm_compute. auto.
  - vm_compute. reflexivity.
Qed.

End WorkerJobs.
